(** * data-to-paper: code extraction, output-file requirements and df checkers

  A shallow embedding of
    - [scientistgpt/run_gpt_code/code_runner.py] (CodeRunner.extract_code),
    - [data_to_paper/run_gpt_code/output_file_requirements.py],
    - [data_to_paper/research_types/hypothesis_testing/check_df_to_funcs/df_checker.py]
  together with the properties stated about them. *)

From Stdlib Require Import ZArith QArith Ascii String DecimalString List Bool Lia Permutation.
From stdpp Require Import gmap strings list fin_maps sorting.

Local Open Scope Z_scope.
Local Arguments String.append !_ _ /.

(** ** Python [str] primitives

  A Python [str] is modelled as a [string]; a character is a code point
  below 256. *)
Module PyStr.

Definition backtick : ascii := "`"%char.
Definition newline : ascii := "010"%char.

(** The three-backtick fence delimiter and the end of a fence line. *)
Definition FENCE : string := String backtick (String backtick (String backtick "")).
Definition NL : string := String newline "".

(** [s.startswith(sub)] *)
Fixpoint startswith (s sub : string) {struct sub} : bool :=
  match sub with
  | "" => true
  | String a sub' =>
      match s with
      | "" => false
      | String b s' => Ascii.eqb a b && startswith s' sub'
      end
  end.

(** [s[n:]] *)
Fixpoint drop (n : nat) (s : string) : string :=
  match n, s with
  | O, _ => s
  | S _, "" => ""
  | S n', String _ s' => drop n' s'
  end.

(** [sub in s] *)
Fixpoint contains (s sub : string) : bool :=
  startswith s sub ||
  match s with
  | "" => false
  | String _ s' => contains s' sub
  end.

(** [s.count(sub)] for a non-empty [sub]: occurrences are counted from the
    left and do not overlap; [skip] is the number of characters still covered
    by the occurrence counted last. *)
Fixpoint count_from (sub s : string) (skip : nat) : nat :=
  match s with
  | "" => O
  | String _ s' =>
      match skip with
      | S k => count_from sub s' k
      | O =>
          if startswith s sub
          then S (count_from sub s' (String.length sub - 1))
          else count_from sub s' O
      end
  end.

Definition count (s sub : string) : nat := count_from sub s O.

(** [c.isspace()] for code points below 256. *)
Definition isspace (c : ascii) : bool :=
  let n := nat_of_ascii c in
  ((9 <=? n) && (n <=? 13) || (28 <=? n) && (n <=? 32)
   || (n =? 133) || (n =? 160))%nat.

Fixpoint lstrip (s : string) : string :=
  match s with
  | "" => ""
  | String c s' => if isspace c then lstrip s' else s
  end.

Fixpoint rstrip (s : string) : string :=
  match s with
  | "" => ""
  | String c s' =>
      match rstrip s' with
      | "" => if isspace c then "" else String c ""
      | r => String c r
      end
  end.

(** [s.strip()] *)
Definition strip (s : string) : string := rstrip (lstrip s).

End PyStr.

(** ** [re.findall] for the patterns of CODE_REGEXPS

  Every pattern used by the code runner has the shape
  [<literal>(.*?)<literal>] and is matched with [re.DOTALL]: a literal
  opening, one lazy group matching any characters, a literal closing. *)
Module PyRe.
Import PyStr.

Record regexp := Lazy { re_open : string; re_close : string }.

(** The lazy group: the shortest text followed by the closing literal. *)
Fixpoint lazy_group (close s : string) : option string :=
  if startswith s close then Some ""
  else match s with
       | "" => None
       | String c s' => String c <$> lazy_group close s'
       end.

(** Scan from the left; a match that starts at the current position consumes
    opening, group and closing, and the scan resumes behind it ([skip] counts
    the characters of the last match not yet passed). The result lists the
    group of every match. *)
Fixpoint findall_from (r : regexp) (s : string) (skip : nat) : list string :=
  match s with
  | "" => []
  | String _ s' =>
      match skip with
      | S k => findall_from r s' k
      | O =>
          if startswith s (re_open r) then
            match lazy_group (re_close r) (drop (String.length (re_open r)) s) with
            | Some g =>
                g :: findall_from r s'
                       (String.length (re_open r) + String.length g
                        + String.length (re_close r) - 1)
            | None => findall_from r s' O
            end
          else findall_from r s' O
      end
  end.

Definition findall (r : regexp) (s : string) : list string := findall_from r s O.

End PyRe.

(** ** scientistgpt/run_gpt_code/code_runner.py *)
Module CodeRunner.
Import PyStr PyRe.

(** CODE_REGEXPS = ["```python\n(.*?)\n```", "``` python\n(.*?)\n```", "```\n(.*?)\n```"] *)
Definition CODE_REGEXPS : list regexp :=
  [ Lazy (FENCE +:+ "python" +:+ NL) (NL +:+ FENCE);
    Lazy (FENCE +:+ " python" +:+ NL) (NL +:+ FENCE);
    Lazy (FENCE +:+ NL) (NL +:+ FENCE) ].

(** Either the extracted code, or the exception FailedExtractingCode with the
    number of block edges it was raised with. *)
Inductive extraction :=
| Code (code : string)
| FailedExtractingCode (num_block_edges : nat).

(** The [for regexp in CODE_REGEXPS] loop; [None] when it falls through. *)
Fixpoint first_single_match (regexps : list regexp) (response : string) : option string :=
  match regexps with
  | [] => None
  | regexp :: rest =>
      match findall regexp response with
      | [m] => Some (strip m)
      | _ => first_single_match rest response
      end
  end.

Definition extract_code (response : string) : extraction :=
  let num_block_edges := count response FENCE in
  if (num_block_edges =? 2)%nat then
    match first_single_match CODE_REGEXPS response with
    | Some code => Code code
    | None => FailedExtractingCode num_block_edges
    end
  else FailedExtractingCode num_block_edges.

End CodeRunner.

(** ** Responses made of fenced blocks: the vocabulary of the extraction claims *)
Module FencedResponse.
Import PyStr PyRe.

Record block := Block { block_tag : string; block_body : string }.

(** No fence delimiter occurs in [s]. *)
Definition fence_free (s : string) : Prop := contains s FENCE = false.

Fixpoint tick_free (s : string) : Prop :=
  match s with
  | "" => True
  | String c s' => c ≠ backtick ∧ tick_free s'
  end.

(** The language tags of CODE_REGEXPS. *)
Definition accepted_tag (t : string) : Prop :=
  t = "python" ∨ t = " python" ∨ t = "".

(** [seg0] followed by the blocks, each with the text that follows it:
    seg0 ```tag\n body \n``` seg1 ```tag\n body \n``` seg2 ... *)
Fixpoint render (seg0 : string) (blocks : list (block * string)) : string :=
  match blocks with
  | [] => seg0
  | (b, seg) :: rest =>
      seg0 +:+ FENCE +:+ block_tag b +:+ NL +:+ block_body b +:+ NL +:+ FENCE
           +:+ render seg rest
  end.

Definition well_formed (bs : block * string) : Prop :=
  tick_free (block_tag bs.1) ∧ fence_free (block_body bs.1) ∧ fence_free bs.2.

Definition starts_without_tick (s : string) : Prop :=
  match s with
  | "" => True
  | String c _ => c ≠ backtick
  end.

(** The pattern of CODE_REGEXPS with language tag [t]. *)
Definition fence_regexp (t : string) : regexp :=
  Lazy (FENCE +:+ t +:+ NL) (NL +:+ FENCE).

(** A response with one python block. *)
Definition resp1 : string :=
  "Here is the code:" +:+ NL +:+ FENCE +:+ "python" +:+ NL +:+ "  x = 1 " +:+ NL
  +:+ NL +:+ FENCE +:+ NL +:+ "bye".

End FencedResponse.


(** ** Python values shared by the models below *)
Module Py.

(** The exceptions the modelled code can raise. *)
Inductive exn :=
| FileNotFoundError (path : string)
| UnpicklingError
| AttributeError
| TypeError
| IndexError
| AssertionError (msg : string).

(** A [dict] keeps its keys unique and in insertion order. *)
Section Dict.
Context {K V : Type} `{EqDecision K}.

Fixpoint dict_get (k : K) (d : list (K * V)) : option V :=
  match d with
  | [] => None
  | (k', v) :: d' => if decide (k = k') then Some v else dict_get k d'
  end.

(** [d[k] = v] *)
Fixpoint dict_set (k : K) (v : V) (d : list (K * V)) : list (K * V) :=
  match d with
  | [] => [(k, v)]
  | (k', v') :: d' =>
      if decide (k = k') then (k, v) :: d' else (k', v') :: dict_set k v d'
  end.

End Dict.

(** The double quote character, as a one-character string. *)
Definition dq : string := String (ascii_of_nat 34) "".

(** [template.format(a, b, ...)] for templates whose only fields are [{}]. *)
Fixpoint str_format (template : string) (args : list string) : string :=
  match template with
  | "" => ""
  | String c rest =>
      if Ascii.eqb c "{" then
        match rest with
        | "" => String c ""
        | String d rest' =>
            if Ascii.eqb d "}" then
              match args with
              | a :: args' => a +:+ str_format rest' args'
              | [] => str_format rest' []
              end
            else String c (str_format rest args)
        end
      else String c (str_format rest args)
  end.

(** [str(n)] for an int. *)
Definition str_of_Z (z : Z) : string := NilZero.string_of_int (Z.to_int z).
Definition str_of_nat (n : nat) : string := NilZero.string_of_uint (Nat.to_uint n).

(** [', '.join(texts)] and the text of a list, [[a, b]]. *)
Definition join_comma (texts : list string) : string := String.concat ", " texts.
Definition list_text (texts : list string) : string := "[" +:+ join_comma texts +:+ "]".

(** The text of a str inside a list: the str between single quotes. *)
Definition quoted (s : string) : string := "'" +:+ s +:+ "'".

(** [sorted(names)] on strings. *)
Definition sorted (names : list string) : list string := merge_sort String.le names.

End Py.

(** ** data_to_paper/run_gpt_code/run_issues.py *)
Module RunIssues.

(** Modelled from the spec: run_issues.py is not among the sources. The
    severity code is an enumerated ranking of code problems; these are the
    members the checked modules refer to. *)
Inductive CodeProblem :=
| OutputFileCallingSyntax
| OutputFileContentA
| OutputFileContentLevelA
| OutputFileContentLevelC.

(** Modelled from the spec: a RunIssue has a category, an item (usually a
    file name), the issue text, correction instructions, a severity code and an
    optional forgive-after counter; an argument left out is [None]. *)
Record RunIssue := {
  category : option string;
  item : option string;
  issue : string;
  instructions : string;
  code_problem : option CodeProblem;
  forgive_after : option Z;
}.

#[global] Instance CodeProblem_eq_dec : EqDecision CodeProblem.
Proof. solve_decision. Defined.

Definition has_code (c : CodeProblem) (i : RunIssue) : bool :=
  bool_decide (code_problem i = Some c).

End RunIssues.

(** ** data_to_paper/run_gpt_code/output_file_requirements.py *)
Module OutputFiles.
Import Py RunIssues.

(** What the module imports from outside the sources. *)
Class Imports := {
  (** [fnmatch.fnmatch(name, pattern)] *)
  fnmatch : string → string → bool;
  (** [Path(filename).suffix] *)
  path_suffix : string → string;
  (** [run_folder / output_file] *)
  path_join : string → string → string;
  ModelEngine : Type;
  max_ModelEngine : ModelEngine;
  count_number_of_tokens_in_message : string → ModelEngine → Z;
  dedent_triple_quote_str : string → string;
  extract_to_nearest_newline : string → Z → string;
  round_floats : string → Z → Z → string;
  (** The modes of [OnStrPValue], and an unpickled object. *)
  OnStr : Type;
  PyObject : Type;
  (** [str(obj)] inside [with OnStrPValue(mode)] *)
  py_str : option OnStr → PyObject → string;
  (** [pickle.load]; [None] when unpickling raises *)
  pickle_load : string → option PyObject;
}.

(** EXTS_TO_LABELS *)
Definition EXTS_TO_LABELS : list (string * string) :=
  [(".tex", "latex"); (".txt", "output"); (".csv", "csv")].

(** The declared value of [should_keep_file]: a bool, or the class default
    [NotImplemented]. *)
Inductive keep_flag := Keep (b : bool) | NotImplemented.

(** [bool(flag)]: NotImplemented is truthy. *)
Definition truth (k : keep_flag) : bool :=
  match k with
  | Keep b => b
  | NotImplemented => true
  end.

(** The fields of the base dataclass. *)
Record base_fields := {
  filename : string;
  minimal_count : Z;
  should_keep_file : keep_flag;
}.

(** The frozen dataclasses of the module, each with the fields it adds. Two
    requirements are equal when they are of the same class with equal fields. *)
Inductive OutputFileRequirement :=
| PlainRequirement (f : base_fields)
| DataOutputFileRequirement (f : base_fields)
| BaseContentOutputFileRequirement (f : base_fields)
    (hypertarget_prefixes : option (list string))
| PickleContentOutputFileRequirement (f : base_fields)
    (hypertarget_prefixes : option (list string))
| TextContentOutputFileRequirement (f : base_fields)
    (hypertarget_prefixes : option (list string)) (max_tokens : option Z)
| NumericTextContentOutputFileRequirement (f : base_fields)
    (hypertarget_prefixes : option (list string))
    (target_precision source_precision : Z).

#[global] Instance keep_flag_eq_dec : EqDecision keep_flag.
Proof. solve_decision. Defined.
#[global] Instance base_fields_eq_dec : EqDecision base_fields.
Proof. solve_decision. Defined.
#[global] Instance OutputFileRequirement_eq_dec : EqDecision OutputFileRequirement.
Proof. solve_decision. Defined.

Definition fields (r : OutputFileRequirement) : base_fields :=
  match r with
  | PlainRequirement f | DataOutputFileRequirement f
  | BaseContentOutputFileRequirement f _ | PickleContentOutputFileRequirement f _
  | TextContentOutputFileRequirement f _ _
  | NumericTextContentOutputFileRequirement f _ _ _ => f
  end.

(** [isinstance(r, BaseContentOutputFileRequirement)] *)
Definition is_content (r : OutputFileRequirement) : bool :=
  match r with
  | PlainRequirement _ | DataOutputFileRequirement _ => false
  | _ => true
  end.

Definition is_wildcard (r : OutputFileRequirement) : bool :=
  PyStr.contains (filename (fields r)) "*" || PyStr.contains (filename (fields r)) "?".

(** The decoded content of an output file: [None] for a data file, the text
    of a text file, the object of a pickle file. *)
Inductive content `{Imports} :=
| NoContent
| Text (s : string)
| Obj (o : PyObject).

(** The run folder's files, by path. *)
Abbreviation files := (gmap string string).

(** The result of a call that reads or changes the files: the value returned
    or the exception raised, with the files as the call leaves them. *)
Inductive outcome (A : Type) :=
| Returned (a : A) (fs : files)
| Raised (e : exn) (fs : files).
Arguments Returned {A} a fs.
Arguments Raised {A} e fs.

Section Requirements.
Context `{Imports}.

Definition matches (r : OutputFileRequirement) (name : string) : bool :=
  fnmatch name (filename (fields r)).

(** [os.remove(file_path)] unless the file is to be kept. *)
Definition delete_if_needed (r : OutputFileRequirement) (file_path : string)
    (fs : files) : outcome unit :=
  if negb (truth (should_keep_file (fields r))) then
    match fs !! file_path with
    | Some _ => Returned () (delete file_path fs)
    | None => Raised (FileNotFoundError file_path) fs
    end
  else Returned () fs.

(** [get_content], by class: the base class returns None without opening the
    file, the content classes read it, the pickle class unpickles it. *)
Definition get_content (r : OutputFileRequirement) (file_path : string)
    (fs : files) : outcome content :=
  match r with
  | PlainRequirement _ | DataOutputFileRequirement _ => Returned NoContent fs
  | PickleContentOutputFileRequirement _ _ =>
      match fs !! file_path with
      | Some data =>
          match pickle_load data with
          | Some o => Returned (Obj o) fs
          | None => Raised UnpicklingError fs
          end
      | None => Raised (FileNotFoundError file_path) fs
      end
  | _ =>
      match fs !! file_path with
      | Some data => Returned (Text data) fs
      | None => Raised (FileNotFoundError file_path) fs
      end
  end.

(** What the requirement's decoder makes of the data of a file. *)
Definition decode (r : OutputFileRequirement) (data : string) : option content :=
  match r with
  | PlainRequirement _ | DataOutputFileRequirement _ => Some NoContent
  | PickleContentOutputFileRequirement _ _ => Obj <$> pickle_load data
  | _ => Some (Text data)
  end.

(** The retain flag of the requirement is set. *)
Definition retained (r : OutputFileRequirement) : bool :=
  truth (should_keep_file (fields r)).

Definition get_content_and_delete_if_needed (r : OutputFileRequirement)
    (file_path : string) (fs : files) : outcome content :=
  match get_content r file_path fs with
  | Returned c fs1 =>
      match delete_if_needed r file_path fs1 with
      | Returned _ fs2 => Returned c fs2
      | Raised e fs2 => Raised e fs2
      end
  | Raised e fs1 => Raised e fs1
  end.

(** [BaseContentOutputFileRequirement.get_issues_for_output_file_content] *)
Definition base_get_issues (name : string) (c : content) : list RunIssue := [].

Definition TOO_LONG_TEMPLATE : string :=
  PyStr.NL
  +:+ "                    The code created the output file " +:+ dq +:+ "{}" +:+ dq
  +:+ ", but the file is too long!" +:+ PyStr.NL
  +:+ PyStr.NL
  +:+ "                    Here, for context, is the beginning of the output:" +:+ PyStr.NL
  +:+ "                    " +:+ PyStr.FENCE +:+ "output" +:+ PyStr.NL
  +:+ "                    {}" +:+ PyStr.NL
  +:+ "                    " +:+ PyStr.FENCE +:+ PyStr.NL
  +:+ "                    ".

Definition empty_file_issue (name : string) : RunIssue :=
  {| category := Some "Output file content";
     item := Some name;
     issue := "The code created the output file " +:+ dq +:+ name +:+ dq
              +:+ ", but the file is just empty!";
     instructions := "Please revise the code to make sure it correctly writes to the output file.";
     code_problem := Some OutputFileContentLevelA;
     forgive_after := None |}.

Definition too_long_issue (name : string) (preview : string) : RunIssue :=
  {| category := Some "Output file content";
     item := Some name;
     issue := str_format (dedent_triple_quote_str TOO_LONG_TEMPLATE) [name; preview];
     instructions := "Only sensible-length output should be written to the file.";
     code_problem := Some OutputFileContentLevelC;
     forgive_after := None |}.

(** [TextContentOutputFileRequirement.get_issues_for_output_file_content] *)
Definition text_get_issues (max_tokens : option Z) (name : string) (c : string)
    : list RunIssue :=
  let issues := base_get_issues name (Text c) in
  let issues :=
    if (String.length (PyStr.strip c) =? 0)%nat
    then issues ++ [empty_file_issue name] else issues in
  let issues :=
    match max_tokens with
    | Some m =>
        if m <? count_number_of_tokens_in_message c max_ModelEngine
        then issues ++ [too_long_issue name (extract_to_nearest_newline c m)]
        else issues
    | None => issues
    end in
  issues.

(** The method a requirement answers [get_issues_for_output_file_content]
    with: the text class overrides it (and calls [strip] on its content, which
    only a str has), the other content classes inherit the base method, the
    classes without content have none. *)
Definition get_issues_for_output_file_content (r : OutputFileRequirement)
    (name : string) (c : content) : exn + list RunIssue :=
  match r with
  | PlainRequirement _ | DataOutputFileRequirement _ => inl AttributeError
  | TextContentOutputFileRequirement _ _ max_tokens =>
      match c with
      | Text s => inr (text_get_issues max_tokens name s)
      | _ => inl AttributeError
      end
  | _ => inr (base_get_issues name c)
  end.

(** [str(content)] inside [with OnStrPValue(pvalue_on_str)] *)
Definition str_content (pvalue_on_str : option OnStr) (c : content) : string :=
  match c with
  | NoContent => "None"
  | Text s => s
  | Obj o => py_str pvalue_on_str o
  end.

(** [BaseContentOutputFileRequirement.get_pretty_content] *)
Definition base_get_pretty_content (c : content) (name : option string)
    (pvalue_on_str : option OnStr) : string :=
  let text := str_content pvalue_on_str c in
  match name with
  | Some n =>
      let label := default "output" (dict_get (path_suffix n) EXTS_TO_LABELS) in
      dq +:+ n +:+ dq +:+ ":" +:+ PyStr.NL +:+ PyStr.FENCE +:+ label +:+ PyStr.NL
         +:+ text +:+ PyStr.NL +:+ PyStr.FENCE +:+ PyStr.NL
  | None => text
  end.

(** The method a requirement answers [get_pretty_content] with: the numeric
    class rounds what the base method renders. *)
Definition get_pretty_content (r : OutputFileRequirement) (c : content)
    (name : option string) (pvalue_on_str : option OnStr) : exn + string :=
  match r with
  | PlainRequirement _ | DataOutputFileRequirement _ => inl AttributeError
  | NumericTextContentOutputFileRequirement _ _ target_precision source_precision =>
      inr (round_floats (base_get_pretty_content c name pvalue_on_str)
             target_precision source_precision)
  | _ => inr (base_get_pretty_content c name pvalue_on_str)
  end.

(** *** OutputFileRequirements, a tuple of requirements *)

Definition get_single_content_file (self : list OutputFileRequirement) : option string :=
  let content_file_requirements :=
    List.filter (λ req, is_content req && negb (is_wildcard req)
                        && (minimal_count (fields req) =? 1)) self in
  match content_file_requirements with
  | [req] => Some (filename (fields req))
  | _ => None
  end.

(** A requirement that bears content, is no wildcard and asks for exactly one
    file. *)
Definition single_content_requirement (r : OutputFileRequirement) : Prop :=
  is_content r = true ∧ is_wildcard r = false ∧ minimal_count (fields r) = 1.

(** [r] is the only such requirement of [self]. *)
Definition only_single_content_requirement (self : list OutputFileRequirement)
    (r : OutputFileRequirement) : Prop :=
  ∃ before after,
    self = before ++ r :: after
    ∧ single_content_requirement r
    ∧ ∀ other, other ∈ before ++ after → ¬ single_content_requirement other.

(** The inner [for requirement in self] loop with its [break]: the first
    requirement matching the file, or [None] when the loop runs into [else]. *)
Fixpoint matching_requirement (self : list OutputFileRequirement) (created_file : string)
    : option OutputFileRequirement :=
  match self with
  | [] => None
  | requirement :: rest =>
      if matches requirement created_file then Some requirement
      else matching_requirement rest created_file
  end.

(** [requirement] is the first requirement of [self], in declaration order,
    whose pattern matches [name]. *)
Definition first_match (self : list OutputFileRequirement) (name : string)
    (requirement : OutputFileRequirement) : Prop :=
  ∃ before after,
    self = before ++ requirement :: after
    ∧ matches requirement name = true
    ∧ ∀ earlier, earlier ∈ before → matches earlier name = false.

(** The outer [for created_file in created_files] loop, on the dictionary and
    the list of unmatched files built so far. *)
Fixpoint assign_files (self : list OutputFileRequirement) (created_files : list string)
    (requirements_to_output_files : list (OutputFileRequirement * list string))
    (unmatched_files : list string)
    : list (OutputFileRequirement * list string) * list string :=
  match created_files with
  | [] => (requirements_to_output_files, unmatched_files)
  | created_file :: rest =>
      match matching_requirement self created_file with
      | Some requirement =>
          let so_far := default [] (dict_get requirement requirements_to_output_files) in
          assign_files self rest
            (dict_set requirement (so_far ++ [created_file]) requirements_to_output_files)
            unmatched_files
      | None =>
          assign_files self rest requirements_to_output_files
            (unmatched_files ++ [created_file])
      end
  end.

(** [{requirement: [] for requirement in self}] *)
Definition empty_assignment (self : list OutputFileRequirement)
    : list (OutputFileRequirement * list string) :=
  foldl (λ d requirement, dict_set requirement [] d) [] self.

Definition _get_requirements_to_output_files_and_unmatched_files
    (self : list OutputFileRequirement) (created_files : list string)
    : list (OutputFileRequirement * list string) * list string :=
  assign_files self created_files (empty_assignment self) [].

Definition get_requirements_to_output_files self created_files :=
  (_get_requirements_to_output_files_and_unmatched_files self created_files).1.

Definition get_unmatched_files self created_files :=
  (_get_requirements_to_output_files_and_unmatched_files self created_files).2.

(** [run_folder / output_file if run_folder else output_file] *)
Definition file_path (run_folder : option string) (output_file : string) : string :=
  match run_folder with
  | Some folder => path_join folder output_file
  | None => output_file
  end.

(** The inner dictionary comprehension of the conversion, for one
    requirement: every file is read and, if needed, deleted, in order. *)
Fixpoint contents_of_files (requirement : OutputFileRequirement)
    (run_folder : option string) (output_files : list string)
    (so_far : list (string * content)) (fs : files)
    : outcome (list (string * content)) :=
  match output_files with
  | [] => Returned so_far fs
  | output_file :: rest =>
      match get_content_and_delete_if_needed requirement
              (file_path run_folder output_file) fs with
      | Returned c fs' =>
          contents_of_files requirement run_folder rest (dict_set output_file c so_far) fs'
      | Raised e fs' => Raised e fs'
      end
  end.

(** The outer dictionary comprehension, over the items of the assignment. *)
Fixpoint contents_of_requirements (run_folder : option string)
    (items : list (OutputFileRequirement * list string))
    (so_far : list (OutputFileRequirement * list (string * content))) (fs : files)
    : outcome (list (OutputFileRequirement * list (string * content))) :=
  match items with
  | [] => Returned so_far fs
  | (requirement, output_files) :: rest =>
      match contents_of_files requirement run_folder output_files [] fs with
      | Returned contents fs' =>
          contents_of_requirements run_folder rest
            (dict_set requirement contents so_far) fs'
      | Raised e fs' => Raised e fs'
      end
  end.

(** The paths of the files assigned to requirements that do not retain
    their files. *)
Definition deleted_paths (run_folder : option string)
    (items : list (OutputFileRequirement * list string)) : list string :=
  items ≫= λ item, if retained item.1 then [] else file_path run_folder <$> item.2.

Definition convert_to_output_file_requirements_with_content
    (self : list OutputFileRequirement) (created_files : list string)
    (run_folder : option string) (fs : files)
    : outcome (list (OutputFileRequirement * list (string * content))) :=
  let requirements_to_files := get_requirements_to_output_files self (sorted created_files) in
  contents_of_requirements run_folder requirements_to_files [] fs.

End Requirements.

End OutputFiles.

(** ** A concrete instance of the imports, to run the model on examples *)
Module ExampleImports.
Import OutputFiles.

(** Shell-style matching with [*] (any text) and [?] (any one character). *)
Fixpoint glob (pattern name : string) {struct pattern} : bool :=
  match pattern with
  | "" => match name with "" => true | _ => false end
  | String "*" pattern' =>
      (fix star (n : string) : bool :=
         glob pattern' n || match n with "" => false | String _ n' => star n' end) name
  | String "?" pattern' =>
      match name with
      | "" => false
      | String _ name' => glob pattern' name'
      end
  | String c pattern' =>
      match name with
      | "" => false
      | String d name' => Ascii.eqb c d && glob pattern' name'
      end
  end.

(** The text from the last dot on, or nothing. *)
Fixpoint from_last_dot (s : string) : string :=
  match s with
  | "" => ""
  | String c s' =>
      match from_last_dot s' with
      | "" => if Ascii.eqb c "." then s else ""
      | found => found
      end
  end.

(** Drops the spaces that open each line ([at_line_start] tells whether the
    scan is still before the first other character of the line). *)
Fixpoint unindent (at_line_start : bool) (s : string) : string :=
  match s with
  | "" => ""
  | String c s' =>
      if Ascii.eqb c PyStr.newline then String c (unindent true s')
      else if at_line_start && Ascii.eqb c " " then unindent true s'
      else String c (unindent false s')
  end.

(** The first [n] characters. *)
Fixpoint take (n : nat) (s : string) : string :=
  match n, s with
  | S n', String c s' => String c (take n' s')
  | _, _ => ""
  end.

Definition example_imports : Imports := {|
  fnmatch name pattern := glob pattern name;
  path_suffix := from_last_dot;
  path_join folder name := folder +:+ "/" +:+ name;
  ModelEngine := unit;
  max_ModelEngine := ();
  count_number_of_tokens_in_message text _ := Z.of_nat (String.length text);
  dedent_triple_quote_str text := PyStr.strip (unindent true text);
  extract_to_nearest_newline text n := take (Z.to_nat n) text;
  round_floats text _ _ := text;
  OnStr := unit;
  PyObject := string;
  py_str _ o := o;
  pickle_load data := Some data;
|}.

(** The fields of a requirement for the one file [out.txt]. *)
Definition out_txt : base_fields :=
  {| filename := "out.txt"; minimal_count := 1; should_keep_file := Keep false |}.

(** A run that is to leave one text file, read and deleted, and any number
    of csv files, kept. *)
Definition example_requirements : list OutputFileRequirement :=
  [ TextContentOutputFileRequirement out_txt None None;
    DataOutputFileRequirement
      {| filename := "*.csv"; minimal_count := 0; should_keep_file := Keep true |} ].

Definition example_files : gmap string string :=
  {[ "run/data.csv" := "1,2"; "run/out.txt" := "hello"; "run/notes" := "x" ]}.

End ExampleImports.

(** ** The pandas objects the checkers look at *)
Module Pandas.

(** A Python float: not-a-number, an infinity, or a finite value. *)
Inductive pyfloat :=
| NaN
| Inf (negative : bool)
| Finite (q : Q).

(** An object of another type than the ones [value] names (a Decimal, a
    complex, a Timestamp, a Series, ...), kept by what the checks can see of
    it: the name of its type and its text, whether it is a [numbers.Number]
    and the number it is equal to, if any, whether pandas takes it for a
    missing value, and whether it is a Series or a DataFrame. Its comparison
    with a number answers True or False, as that of every scalar does; a
    Series or a DataFrame, whose comparison does not, is kept for the check
    that looks for one, and the properties that compare the cells are stated
    for tables without one. *)
Record other_value := {
  value_type : string;
  value_repr : string;
  value_is_number : bool;
  value_number : option pyfloat;
  value_is_null : bool;
  value_is_frame : bool;
}.

(** A scalar found in a cell or used as a label. A tuple is kept by its
    text.
    Modelled from the spec: the PValue class (overrides/pvalue.py) is not among
    the sources; a provenance-tagged value wraps a numeric payload, which is
    what [is_p_value] and [.value] give the checks, and it behaves as that
    payload where it is compared. *)
Inductive value :=
| VNone
| VBool (b : bool)
| VInt (z : Z)
| VFloat (x : pyfloat)
| VStr (s : string)
| VTuple (repr : string)
| VPValue (x : pyfloat)
| VOther (o : other_value).

Definition float_eq (x y : pyfloat) : bool :=
  match x, y with
  | Finite p, Finite q => Qeq_bool p q
  | Inf a, Inf b => Bool.eqb a b
  | _, _ => false
  end.

(** The number a value stands for where it is compared: a bool, an int, a
    float, the payload of a PValue, the number another object is equal to. *)
Definition as_number (v : value) : option pyfloat :=
  match v with
  | VBool b => Some (Finite (inject_Z (if b then 1 else 0)))
  | VInt z => Some (Finite (inject_Z z))
  | VFloat x => Some x
  | VPValue x => Some x
  | VOther o => value_number o
  | _ => None
  end.

(** [v == w], where one of the two is a bool, an int, a float or a str, as in
    every comparison of the checks: numbers compare by value across their
    types, a PValue as its payload; a NaN equals nothing; None, strings and
    tuples compare within their own type. *)
Definition py_eq (v w : value) : bool :=
  match as_number v, as_number w with
  | Some x, Some y => float_eq x y
  | None, None =>
      match v, w with
      | VNone, VNone => true
      | VStr a, VStr b => bool_decide (a = b)
      | VTuple a, VTuple b => bool_decide (a = b)
      | _, _ => false
      end
  | _, _ => false
  end.

(** [type(v).__name__] *)
Definition type_name_of (v : value) : string :=
  match v with
  | VNone => "NoneType"
  | VBool _ => "bool"
  | VInt _ => "int"
  | VFloat _ => "float"
  | VStr _ => "str"
  | VTuple _ => "tuple"
  | VPValue _ => "PValue"
  | VOther o => value_type o
  end.

(** [pd.isnull(v)] *)
Definition isnull (v : value) : bool :=
  match v with
  | VNone | VFloat NaN => true
  | VOther o => value_is_null o
  | _ => false
  end.

(** The integer dtypes other than the default one. *)
Inductive int_dtype := int8 | int16 | int32 | uint8 | uint16 | uint32 | uint64.

(** The dtype of an index, as far as the checks compare it: the default
    integer dtype, another integer dtype, a float dtype, bool, object. *)
Inductive dtype :=
| int64
| other_int (d : int_dtype)
| float64
| bool_
| object_.

(** [dtype == int]: numpy reads [int] as its default integer dtype, which is
    int64; the comparison is true of that dtype only. *)
Definition dtype_is_int (d : dtype) : bool :=
  match d with
  | int64 => true
  | _ => false
  end.

(** A row or column index: a flat index holds labels of one dtype (an object
    index holds any labels), a MultiIndex holds one tuple of labels per entry. *)
Inductive Index :=
| Int64Index (labels : list Z)
| IntIndex (d : int_dtype) (labels : list Z)
| Float64Index (labels : list pyfloat)
| BoolIndex (labels : list bool)
| ObjectIndex (labels : list value)
| MultiIndex (nlevels : nat) (labels : list (list value)).

Definition index_dtype (idx : Index) : dtype :=
  match idx with
  | Int64Index _ => int64
  | IntIndex d _ => other_int d
  | Float64Index _ => float64
  | BoolIndex _ => bool_
  | ObjectIndex _ | MultiIndex _ _ => object_
  end.

Definition is_MultiIndex (idx : Index) : bool :=
  match idx with
  | MultiIndex _ _ => true
  | _ => false
  end.

(** Each entry of a MultiIndex is a tuple of labels; the tuple is kept by the
    text of its labels. *)
Definition label_text (v : value) : string :=
  match v with
  | VStr s => s
  | VInt z => Py.str_of_Z z
  | VBool b => if b then "True" else "False"
  | VTuple repr => repr
  | VOther o => value_repr o
  | _ => type_name_of v
  end.

Definition tuple_of (labels : list value) : value :=
  VTuple ("(" +:+ String.concat ", " (label_text <$> labels) +:+ ")").

(** [[label for label in idx]]: an index of numbers gives Python numbers. *)
Definition index_to_list (idx : Index) : list value :=
  match idx with
  | Int64Index l | IntIndex _ l => VInt <$> l
  | Float64Index l => VFloat <$> l
  | BoolIndex l => VBool <$> l
  | ObjectIndex l => l
  | MultiIndex _ l => tuple_of <$> l
  end.

Definition index_length (idx : Index) : nat := length (index_to_list idx).

(** [label in set(idx)], for a str [label]: the labels the index gives are
    put in a set, where the label is found when one of them equals it. *)
Definition in_set_of (idx : Index) (label : value) : bool :=
  existsb (py_eq label) (index_to_list idx).

(** [idx[mask]] *)
Fixpoint select {A} (mask : list bool) (l : list A) : list A :=
  match mask, l with
  | true :: mask', x :: l' => x :: select mask' l'
  | false :: mask', _ :: l' => select mask' l'
  | _, _ => []
  end.

Definition index_select (mask : list bool) (idx : Index) : Index :=
  match idx with
  | Int64Index l => Int64Index (select mask l)
  | IntIndex d l => IntIndex d (select mask l)
  | Float64Index l => Float64Index (select mask l)
  | BoolIndex l => BoolIndex (select mask l)
  | ObjectIndex l => ObjectIndex (select mask l)
  | MultiIndex n l => MultiIndex n (select mask l)
  end.

Definition index_head (n : nat) (idx : Index) : Index :=
  match idx with
  | Int64Index l => Int64Index (firstn n l)
  | IntIndex d l => IntIndex d (firstn n l)
  | Float64Index l => Float64Index (firstn n l)
  | BoolIndex l => BoolIndex (firstn n l)
  | ObjectIndex l => ObjectIndex (firstn n l)
  | MultiIndex k l => MultiIndex k (firstn n l)
  end.

(** A DataFrame: its row index, its column index, and its cells by row. *)
Record DataFrame := {
  index : Index;
  columns : Index;
  values : list (list value);
}.

(** [df.shape] *)
Definition shape (df : DataFrame) : nat * nat :=
  (index_length (index df), index_length (columns df)).

(** [df.values.flatten()] *)
Definition flatten (df : DataFrame) : list value := concat (values df).

(** [df.applymap(f)] *)
Definition applymap (f : value → value) (df : DataFrame) : DataFrame :=
  {| index := index df; columns := columns df; values := List.map (List.map f) (values df) |}.

(** [df[mask]], a row per true entry of the mask *)
Definition select_rows (mask : list bool) (df : DataFrame) : DataFrame :=
  {| index := index_select mask (index df); columns := columns df;
     values := select mask (values df) |}.

(** [df.head(n)] *)
Definition head (n : nat) (df : DataFrame) : DataFrame :=
  {| index := index_head n (index df); columns := columns df;
     values := firstn n (values df) |}.

(** [list(zip(np.where(df.values == v)))]: the (row, column) positions of the
    cells equal to [v], by rows. *)
Definition where_equal (df : DataFrame) (v : value) : list (nat * nat) :=
  concat (imap (λ row cells,
                  concat (imap (λ col cell,
                                  if py_eq cell v then [(row, col)] else [])
                               cells))
               (values df)).

End Pandas.

(** ** df_checker.py: BaseChecker and ChainChecker *)
Module BaseChecker.
Import Py RunIssues.

(** A value stored among the intermediate results. *)
Inductive result_value :=
| RNone
| RFloat (q : Q)
| RText (s : string).

Section Checker.
(** The dataclass fields a subclass adds. *)
Context {Fields : Type}.

Record Checker := {
  issues : list RunIssue;
  intermediate_results : gmap string result_value;
  stop_after_first_issue : bool;
  fields : Fields;
}.

(** What a call of a check method leaves behind: the issues it appended with
    [_append_issue], in order, the intermediate results as it leaves them, and
    whether the value it returned is true. *)
Record check_effect := {
  appended : list RunIssue;
  results_after : gmap string result_value;
  should_stop : bool;
}.

(** A check method, by its name; calling it may raise. *)
Record check_method := {
  check_name : string;
  call : Checker → exn + check_effect;
}.

(** A checker class: the methods whose name starts with [check], as
    [dir(self)] lists them, and the class attribute CHOICE_OF_CHECKS. *)
Record checker_class := {
  check_methods : list check_method;
  CHOICE_OF_CHECKS : option (list (check_method * bool));
}.

Definition same_method (a b : check_method) : bool :=
  String.eqb (check_name a) (check_name b).

(** [BaseChecker._append_issue] *)
Definition _append_issue (category item : option string) (issue instructions : string)
    (code_problem : option CodeProblem) (forgive_after : option Z) : RunIssue :=
  {| RunIssues.category := category; RunIssues.item := item;
     RunIssues.issue := issue; RunIssues.instructions := instructions;
     RunIssues.code_problem := code_problem;
     RunIssues.forgive_after := forgive_after |}.

Definition _automatically_get_all_check_methods (cls : checker_class)
    : list check_method :=
  check_methods cls.

(** The assertion that a provided choice of checks names every check method;
    [Some] of the AssertionError when it fails. *)
Definition _assert_if_provided_choice_of_checks_include_all_check_methods
    (cls : checker_class) : option exn :=
  match CHOICE_OF_CHECKS cls with
  | None => None
  | Some choice =>
      match List.find (λ m, negb (existsb (λ c, same_method m c.1) choice))
              (_automatically_get_all_check_methods cls) with
      | Some missing => Some (AssertionError ("Missing check method: " +:+ check_name missing))
      | None => None
      end
  end.

Definition _get_checks_to_run (cls : checker_class) : list check_method :=
  match CHOICE_OF_CHECKS cls with
  | None => _automatically_get_all_check_methods cls
  | Some choice => fst <$> List.filter snd choice
  end.

(** How one pass through the body of the loop of [_run_checks] ends. *)
Inductive pass :=
| Continue (self : Checker)
| Break (self : Checker)
| Raise (e : exn).

Definition no_issues_message (check : check_method) : string :=
  "Check " +:+ check_name check +:+ " returned True, but no issues were created.".

(** The body of the loop, for one check. *)
Definition run_one_check (check : check_method) (self : Checker) : pass :=
  let num_issues_before := Z.of_nat (length (issues self)) in
  match call check self with
  | inl e => Raise e
  | inr effect =>
      let self' := {| issues := issues self ++ appended effect;
                      intermediate_results := results_after effect;
                      stop_after_first_issue := stop_after_first_issue self;
                      fields := fields self |} in
      let num_created_issues := Z.of_nat (length (issues self')) - num_issues_before in
      if should_stop effect && (num_created_issues =? 0)
      then Raise (AssertionError (no_issues_message check))
      else if negb (bool_decide (issues self' = []))
              && (stop_after_first_issue self' || should_stop effect)
           then Break self'
           else Continue self'
  end.

(** [for check in self._get_checks_to_run(): ...] *)
Fixpoint run_checks_loop (checks : list check_method) (self : Checker) : exn + Checker :=
  match checks with
  | [] => inr self
  | check :: rest =>
      match run_one_check check self with
      | Continue self' => run_checks_loop rest self'
      | Break self' => inr self'
      | Raise e => inl e
      end
  end.

(** The checker as the checks of [checks] leave it when every one of them is
    passed without a break and without an exception. *)
Fixpoint passed_through (checks : list check_method) (self : Checker) : option Checker :=
  match checks with
  | [] => Some self
  | check :: rest =>
      match run_one_check check self with
      | Continue self' => passed_through rest self'
      | _ => None
      end
  end.

(** The checker after a check with the given effect. *)
Definition after_check (self : Checker) (effect : check_effect) : Checker :=
  {| issues := issues self ++ appended effect;
     intermediate_results := results_after effect;
     stop_after_first_issue := stop_after_first_issue self;
     fields := fields self |}.

Definition _run_checks (cls : checker_class) (self : Checker) : exn + Checker :=
  match _assert_if_provided_choice_of_checks_include_all_check_methods cls with
  | Some e => inl e
  | None => run_checks_loop (_get_checks_to_run cls) self
  end.

Definition run_checks (cls : checker_class) (self : Checker)
    : exn + (list RunIssue * gmap string result_value) :=
  match _run_checks cls self with
  | inl e => inl e
  | inr self' => inr (issues self', intermediate_results self')
  end.

(** *** ChainChecker *)

(** The chain's own issues, intermediate results and stop flag. *)
Record Chain := {
  chain_issues : list RunIssue;
  chain_intermediate_results : gmap string result_value;
  chain_stop_after_first_issue : bool;
}.

(** [ChainChecker._run_checks]: [d.update(e)] keeps the entries of [e] where
    both have one. *)
Fixpoint chain_run_checks_loop (checkers : list (checker_class * Checker))
    (self : Chain) : exn + Chain :=
  match checkers with
  | [] => inr self
  | (cls, checker) :: rest =>
      let checker :=
        {| issues := issues checker;
           intermediate_results :=
             chain_intermediate_results self ∪ intermediate_results checker;
           stop_after_first_issue := stop_after_first_issue checker;
           fields := fields checker |} in
      match run_checks cls checker with
      | inl e => inl e
      | inr (found, results) =>
          let self' :=
            {| chain_issues := chain_issues self ++ found;
               chain_intermediate_results := results ∪ chain_intermediate_results self;
               chain_stop_after_first_issue := chain_stop_after_first_issue self |} in
          if negb (bool_decide (found = [])) && chain_stop_after_first_issue self'
          then inr self'
          else chain_run_checks_loop rest self'
      end
  end.

(** [create_and_run_chain_checker], given the checkers already created from
    the keyword arguments. *)
Definition create_and_run_chain_checker (checkers : list (checker_class * Checker))
    (stop_after_first_issue : bool) : exn + (list RunIssue * gmap string result_value) :=
  let chain_checker :=
    {| chain_issues := []; chain_intermediate_results := ∅;
       chain_stop_after_first_issue := stop_after_first_issue |} in
  match chain_run_checks_loop checkers chain_checker with
  | inl e => inl e
  | inr self' => inr (chain_issues self', chain_intermediate_results self')
  end.

End Checker.

Arguments Checker : clear implicits.
Arguments check_method : clear implicits.
Arguments check_effect : clear implicits.
Arguments checker_class : clear implicits.
Arguments pass : clear implicits.

(** Three checks of a checker without fields, to run the loop on: one that
    finds nothing, one that appends an issue, one that asks to stop without
    having appended any. *)
Module Example.

Definition an_issue : RunIssue :=
  _append_issue None None "something is wrong" "" None None.

Definition check_nothing : check_method unit :=
  {| check_name := "check_nothing";
     call self := inr {| appended := []; results_after := intermediate_results self;
                         should_stop := false |} |}.

Definition check_something : check_method unit :=
  {| check_name := "check_something";
     call self := inr {| appended := [an_issue]; results_after := intermediate_results self;
                         should_stop := false |} |}.

Definition check_stop_for_nothing : check_method unit :=
  {| check_name := "check_stop_for_nothing";
     call self := inr {| appended := []; results_after := intermediate_results self;
                         should_stop := true |} |}.

Definition fresh (stop : bool) : Checker unit :=
  {| issues := []; intermediate_results := ∅; stop_after_first_issue := stop;
     fields := () |}.

Definition example_class (checks : list (check_method unit)) : checker_class unit :=
  {| check_methods := checks; CHOICE_OF_CHECKS := None |}.

End Example.

End BaseChecker.

(** ** df_checker.py: the checkers of df_to_latex and df_to_figure calls *)
Module DfChecker.
Import Py RunIssues Pandas BaseChecker.

(** What the module uses from outside the sources. *)
Class Imports := {
  dedent_triple_quote_str : string → string;
  (** the text of a float, of an Index, of a ListBasedSet of types *)
  float_str : pyfloat → string;
  index_text : Index → string;
  types_text : list string → string;
  df_to_llm_readable_csv : DataFrame → string;
  (** [get_max_rows_and_columns(is_figure, kind=kind, to_show=False)] *)
  get_max_rows_and_columns : bool → option string → option Z * option Z;
  is_lower_eq : Z → option Z → bool;
  (** [label in idx], as pandas looks up in an Index a label that can be
      hashed *)
  index_has : Index → value → bool;
}.

(** ALLOWED_PLOT_KINDS, as llm_coding_utils/consts.py sets it. *)
Definition ALLOWED_PLOT_KINDS : list string := ["bar"].

(** An object that is neither None, a bool, a str nor a list (a number, a
    tuple, a dict, ...), kept by what the checks can see of it: its text in an
    f-string, its truth value, and its items when it can be iterated. It is
    equal to no str. *)
Record other_object := {
  object_text : string;
  object_truth : bool;
  object_items : option (list value);
}.

(** A keyword argument of the checked call. *)
Inductive kwarg :=
| KNone
| KBool (b : bool)
| KStr (s : string)
| KList (items : list value)
| KOther (o : other_object).

(** [bool(arg)] *)
Definition truthy (a : kwarg) : bool :=
  match a with
  | KNone => false
  | KBool b => b
  | KStr s => negb (bool_decide (s = ""))
  | KList l => negb (bool_decide (l = []))
  | KOther o => object_truth o
  end.

Definition is_None (a : kwarg) : bool :=
  match a with
  | KNone => true
  | _ => false
  end.

(** An entry of prior_dfs: the checked df itself, or another table. *)
Inductive prior :=
| ThisDf
| OtherDf (table : DataFrame).

(** The fields BaseDfChecker and BaseContentDfChecker add. *)
Record DfFields := {
  func_name : string;
  df : DataFrame;
  filename : string;
  kwargs : gmap string kwarg;
  prior_dfs : list (string * prior);
}.

Abbreviation DfChecker := (Checker DfFields).

Section Properties.
Implicit Types self : DfChecker.

(** [self.kwargs.get(name, default)] *)
Definition kwargs_get self (name : string) (default_value : kwarg) : kwarg :=
  default default_value (kwargs (fields self) !! name).

Definition is_figure self : bool :=
  bool_decide (func_name (fields self) = "df_to_figure").

Definition table_or_figure self : string :=
  if is_figure self then "figure" else "table".

Definition x self : kwarg := kwargs_get self "x" KNone.
Definition y self : kwarg := kwargs_get self "y" KNone.
Definition yerr self : kwarg := kwargs_get self "yerr" KNone.
Definition xerr self : kwarg := kwargs_get self "yerr" KNone.
Definition y_ci self : kwarg := kwargs_get self "y_ci" KNone.
Definition x_ci self : kwarg := kwargs_get self "x_ci" KNone.
Definition y_p_value self : kwarg := kwargs_get self "y_p_value" KNone.
Definition x_p_value self : kwarg := kwargs_get self "x_p_value" KNone.
Definition kind self : kwarg := kwargs_get self "kind" KNone.

(** The truth value of the property [index]. *)
Definition index_in_use self : bool :=
  if is_figure self
  then truthy (kwargs_get self "use_index" (KBool true)) && is_None (x self)
  else truthy (kwargs_get self "index" (KBool true)).

(** [[arg] if isinstance(arg, str) else arg] *)
Definition as_list (a : kwarg) : kwarg :=
  match a with
  | KStr s => KList [VStr s]
  | _ => a
  end.

(** [get_xy_err_ci_p_value(x_or_y, as_list=True)], with the name of each
    argument. *)
Definition get_xy_err_ci_p_value self (x_or_y : string) : list kwarg :=
  let args :=
    if bool_decide (x_or_y = "x")
    then [x self; xerr self; x_ci self; x_p_value self]
    else [y self; yerr self; y_ci self; y_p_value self] in
  as_list <$> args.

(** [BaseDfChecker._append_issue]: the class defaults fill what is left out. *)
Definition df_issue self (DEFAULT_CATEGORY : option string)
    (DEFAULT_CODE_PROBLEM : option CodeProblem)
    (category : option string) (issue instructions : string)
    (forgive_after : option Z) : RunIssue :=
  _append_issue
    (match category with None => DEFAULT_CATEGORY | _ => category end)
    (Some (filename (fields self)))
    issue instructions DEFAULT_CODE_PROBLEM forgive_after.

(** A check that returns None after appending [found]. *)
Definition done_with self (found : list RunIssue) : exn + check_effect :=
  inr {| appended := found; results_after := intermediate_results self;
         should_stop := false |}.

End Properties.

(** The text of a value inside a list. *)
Definition value_text `{Imports} (v : value) : string :=
  match v with
  | VNone => "None"
  | VBool b => if b then "True" else "False"
  | VInt z => str_of_Z z
  | VFloat x => float_str x
  | VStr s => quoted s
  | VTuple repr => repr
  | VPValue x => float_str x
  | VOther o => value_repr o
  end.

(** *** SyntaxDfChecker and its subclasses *)
Section Syntax.
Context `{Imports}.
Implicit Types self : DfChecker.

Definition SYNTAX_CATEGORY : option string :=
  Some "Checking df_to_figure/df_to_latex for call syntax".

Definition syntax_issue self (issue instructions : string) : RunIssue :=
  df_issue self SYNTAX_CATEGORY (Some OutputFileCallingSyntax) None issue instructions None.

(** A character the pattern [\w] matches, among the code points below 256. *)
Definition is_word (c : ascii) : bool :=
  let n := nat_of_ascii c in
  ((48 <=? n) && (n <=? 57) || (65 <=? n) && (n <=? 90) || (97 <=? n) && (n <=? 122)
   || (n =? 95) || (n =? 170) || (n =? 178) || (n =? 179) || (n =? 181)
   || (n =? 185) || (n =? 186) || (188 <=? n) && (n <=? 190)
   || (192 <=? n) && (n <=? 214) || (216 <=? n) && (n <=? 246) || (248 <=? n))%nat.

(** [\w*$]: word characters up to the end, or up to a newline that ends the
    text. *)
Fixpoint words_to_end (s : string) : bool :=
  match s with
  | "" => true
  | String c s' =>
      if is_word c then words_to_end s'
      else Ascii.eqb c PyStr.newline && bool_decide (s' = "")
  end.

(** [re.match(r'^df_\w+$', name)] *)
Definition matches_df_name (name : string) : bool :=
  PyStr.startswith name "df_"
  && match PyStr.drop 3 name with
     | "" => false
     | String c rest => is_word c && words_to_end rest
     end.

Definition check_filename self : exn + check_effect :=
  done_with self
    (if matches_df_name (filename (fields self)) then []
     else [syntax_issue self
             ("The filename of the " +:+ table_or_figure self
              +:+ " should be in the format `df_<alphanumeric>`, but got "
              +:+ dq +:+ filename (fields self) +:+ dq +:+ ".")
             ""]).

Definition check_no_label self : exn + check_effect :=
  done_with self
    (if truthy (kwargs_get self "label" KNone)
     then [syntax_issue self
             "The `label` argument should not be used in `df_to_figure` or `df_to_latex`; It is automatically generated from the filename."
             "Please remove the `label` argument."]
     else []).

Definition TAB : string := String "009" "".

Definition check_that_index_is_true self : exn + check_effect :=
  done_with self
    (if index_in_use self then []
     else [syntax_issue self
             "Do not call `df_to_latex` with `index=False`."
             (dedent_triple_quote_str
                (PyStr.NL
                 +:+ "                    Please revise the code making sure all tables are created with `index=True`, "
                 +:+ TAB +:+ PyStr.NL
                 +:+ "                    and that the index is meaningful." +:+ PyStr.NL
                 +:+ "                    "))]).

Definition check_column_arg_is_not_used self : exn + check_effect :=
  done_with self
    (if bool_decide (is_Some (kwargs (fields self) !! "columns"))
     then [syntax_issue self
             "Do not use the `columns` argument in `df_to_latex`."
             "If you want to drop columns, do it before calling `df_to_latex`."]
     else []).

Definition check_kind_arg self : exn + check_effect :=
  done_with self
    (match kind self with
     | KNone =>
         [syntax_issue self "Plot `kind` is not specified."
            ("Please explicitly specify the `kind` argument. available options are:"
             +:+ PyStr.NL +:+ list_text (quoted <$> ALLOWED_PLOT_KINDS) +:+ ".")]
     | KStr k =>
         if bool_decide (k ∈ ALLOWED_PLOT_KINDS) then []
         else [syntax_issue self
                 ("Plot kind " +:+ dq +:+ k +:+ dq +:+ " is not supported.")
                 ("Only use these kinds: " +:+ list_text (quoted <$> ALLOWED_PLOT_KINDS) +:+ ".")]
     | other =>
         [syntax_issue self
            ("Plot kind " +:+ dq
             +:+ match other with
                 | KBool b => if b then "True" else "False"
                 | KList l => list_text (value_text <$> l)
                 | KOther o => object_text o
                 | _ => ""
                 end
             +:+ dq +:+ " is not supported.")
            ("Only use these kinds: " +:+ list_text (quoted <$> ALLOWED_PLOT_KINDS) +:+ ".")]
     end).

Definition check_y_arg self : exn + check_effect :=
  done_with self
    (if is_None (y self)
     then [syntax_issue self "No y values are specified."
             "Please use the `y` argument to specify the columns to be plotted."]
     else []).

Definition check_yerr_arg self : exn + check_effect :=
  done_with self
    (if is_None (yerr self) then []
     else [syntax_issue self "Do not use the `yerr` argument in `df_to_figure`."
             "Instead, directly indicate the confidence intervals using the `y_ci` argument."]).

(** The issue for the columns of one argument that the df does not have. *)
Definition missing_columns_issue self (arg_name : string) (un_specified_columns : list value)
    : RunIssue :=
  syntax_issue self
    ("The columns " +:+ list_text (value_text <$> un_specified_columns)
     +:+ " specified in the `" +:+ arg_name +:+ "` argument do not exist in the df.")
    ("Available columns are: " +:+ index_text (columns (df (fields self))) +:+ ".").

(** [for col in arg]: the items of a list or of another object that can be
    iterated, the characters of a str; None and a bool cannot be iterated. *)
Definition items_of (arg : kwarg) : option (list value) :=
  match arg with
  | KList cols => Some cols
  | KOther o => object_items o
  | KStr s => Some ((λ c, VStr (String c "")) <$> list_ascii_of_string s)
  | KNone | KBool _ => None
  end.

(** The body of the inner loop, for one argument: nothing for None, an
    issue when columns are missing, a TypeError when the argument cannot be
    iterated. *)
Definition check_columns_of_arg self (arg : kwarg) (arg_name : string)
    : exn + list RunIssue :=
  match arg with
  | KNone => inr []
  | _ =>
      match items_of arg with
      | Some cols =>
          let un_specified_columns :=
            List.filter (λ col, negb (index_has (columns (df (fields self))) col)) cols in
          inr (match un_specified_columns with
               | [] => []
               | _ => [missing_columns_issue self arg_name un_specified_columns]
               end)
      | None => inl TypeError
      end
  end.

(** The loops over the arguments, collecting the issues appended. *)
Fixpoint check_columns_of_args self (args : list (kwarg * string)) : exn + list RunIssue :=
  match args with
  | [] => inr []
  | (arg, arg_name) :: rest =>
      match check_columns_of_arg self arg arg_name with
      | inl e => inl e
      | inr found =>
          match check_columns_of_args self rest with
          | inl e => inl e
          | inr more => inr (found ++ more)
          end
      end
  end.

Definition base_arg_names : list string := [""; "err"; "_ci"; "_p_value"].

Definition check_that_specified_columns_exist self : exn + check_effect :=
  let args_of xy :=
    zip (get_xy_err_ci_p_value self xy) ((λ arg_name, xy +:+ arg_name) <$> base_arg_names) in
  match check_columns_of_args self (args_of "x" ++ args_of "y") with
  | inl e => inl e
  | inr found => done_with self found
  end.

Definition method (name : string) (body : DfChecker → exn + check_effect)
    : check_method DfFields :=
  {| check_name := name; call := body |}.

Definition SyntaxDfChecker_CHOICE_OF_CHECKS : list (check_method DfFields * bool) :=
  [ (method "check_filename" check_filename, true);
    (method "check_no_label" check_no_label, true) ].

Definition TableSyntaxDfChecker : checker_class DfFields :=
  {| check_methods :=
       [ method "check_column_arg_is_not_used" check_column_arg_is_not_used;
         method "check_filename" check_filename;
         method "check_no_label" check_no_label;
         method "check_that_index_is_true" check_that_index_is_true ];
     CHOICE_OF_CHECKS :=
       Some (SyntaxDfChecker_CHOICE_OF_CHECKS
             ++ [ (method "check_that_index_is_true" check_that_index_is_true, true);
                  (method "check_column_arg_is_not_used" check_column_arg_is_not_used, true) ]) |}.

Definition FigureSyntaxDfChecker : checker_class DfFields :=
  {| check_methods :=
       [ method "check_filename" check_filename;
         method "check_kind_arg" check_kind_arg;
         method "check_no_label" check_no_label;
         method "check_that_specified_columns_exist" check_that_specified_columns_exist;
         method "check_y_arg" check_y_arg;
         method "check_yerr_arg" check_yerr_arg ];
     CHOICE_OF_CHECKS :=
       Some (SyntaxDfChecker_CHOICE_OF_CHECKS
             ++ [ (method "check_kind_arg" check_kind_arg, true);
                  (method "check_y_arg" check_y_arg, true);
                  (method "check_yerr_arg" check_yerr_arg, true);
                  (method "check_that_specified_columns_exist"
                     check_that_specified_columns_exist, true) ]) |}.

(** A syntax checker as the chain creates it: the class defaults, and the
    keyword arguments df, filename and kwargs. *)
Definition new_syntax_checker (name : string) (the_df : DataFrame)
    (the_filename : string) (the_kwargs : gmap string kwarg) : DfChecker :=
  {| issues := []; intermediate_results := ∅; stop_after_first_issue := false;
     fields := {| func_name := name; df := the_df; filename := the_filename;
                  kwargs := the_kwargs; prior_dfs := [] |} |}.

End Syntax.

(** *** DfContentChecker and TableDfContentChecker *)
Section Content.
Context `{Imports}.
Implicit Types self : DfChecker.

Definition CONTENT_CATEGORY : option string := Some "Checking content of created dfs".
Definition VALUES_CATEGORY : string := "Problem with df values".
Definition INDEX_COLUMN_CATEGORY : string := "Problem with df index/columns".
Definition SIZE_CATEGORY : string := "Too large df".
Definition OVERLAYING_VALUES_CATEGORY : string := "Overlapping values".
Definition DF_DISPLAY_CATEGORY : string :=
  "The df looks like a df.describe() table, not a scientific table".

Definition content_issue self (category : string) (issue instructions : string)
    (forgive_after : option Z) : RunIssue :=
  df_issue self CONTENT_CATEGORY (Some OutputFileContentA) (Some category)
    issue instructions forgive_after.

(** [isinstance(value, ALLOWED_VALUE_TYPES)], for
    (numbers.Number, str, bool, tuple, PValue) *)
Definition is_allowed_value (v : value) : bool :=
  match v with
  | VNone => false
  | VBool _ | VInt _ | VFloat _ => true
  | VStr _ | VTuple _ | VPValue _ => true
  | VOther o => value_is_number o
  end.

(** Modelled from the spec: utils.is_non_integer_numeric is not among the
    sources. A value is a non-integer numeric when it is a float with a finite
    value that is not a whole number. *)
Definition is_non_integer_numeric (v : value) : bool :=
  match v with
  | VFloat (Finite q) => negb (Qnum q mod Zpos (Qden q) =? 0)
  | _ => false
  end.

(** [isinstance(value, (pd.Series, pd.DataFrame))] *)
Definition is_frame (v : value) : bool :=
  match v with
  | VOther o => value_is_frame o
  | _ => false
  end.

(** [_check_if_df_within_df]: the issue for the first such value, if any. *)
Definition _check_if_df_within_df self : option RunIssue :=
  match List.find is_frame (flatten (df (fields self))) with
  | Some v =>
      Some (content_issue self VALUES_CATEGORY
              ("Something wierd in your dataframe. Iterating over df.values.flatten() returned a `"
               +:+ type_name_of v +:+ "` object.")
              "" None)
  | None => None
  end.

Definition check_df_value_types self : exn + check_effect :=
  match _check_if_df_within_df self with
  | Some found => done_with self [found]
  | None =>
      let un_allowed_type_names :=
        remove_dups (type_name_of <$>
                       List.filter (λ v, negb (is_allowed_value v))
                         (flatten (df (fields self)))) in
      done_with self
        (match un_allowed_type_names with
         | [] => []
         | _ =>
             [content_issue self VALUES_CATEGORY
                ("Your dataframe contains values of types "
                 +:+ list_text (quoted <$> sorted un_allowed_type_names)
                 +:+ " which are not allowed.")
                "Please make sure the saved dataframes have only numeric, str, bool, or tuple values."
                None]
         end)
  end.

(** [v.value if is_p_value(v) else v] *)
Definition raw_pvalue (v : value) : value :=
  match v with
  | VPValue x => VFloat x
  | _ => v
  end.

Definition check_df_for_nan_values self : exn + check_effect :=
  let the_df := df (fields self) in
  let df_with_raw_pvalues := applymap raw_pvalue the_df in
  let isnull_df := applymap (λ v, VBool (isnull v)) df_with_raw_pvalues in
  let num_nulls := length (List.filter isnull (flatten df_with_raw_pvalues)) in
  done_with self
    (if (0 <? num_nulls)%nat then
       let issue_text := "Note that the df has " +:+ str_of_nat num_nulls +:+ " NaN value(s)." in
       let '(shown, issue_text) :=
         if (index_length (index isnull_df) <? 20)%nat
         then (isnull_df, issue_text +:+ PyStr.NL +:+ "Here is the `isnull` of the df:")
         else (head 10 (select_rows (existsb isnull <$> values df_with_raw_pvalues) the_df),
               issue_text +:+ PyStr.NL +:+ "Here are some example lines with NaN values:") in
       let issue_text :=
         issue_text +:+ PyStr.NL +:+ PyStr.FENCE +:+ PyStr.NL
         +:+ df_to_llm_readable_csv shown +:+ PyStr.NL +:+ PyStr.FENCE +:+ PyStr.NL in
       let instructions :=
         "Please revise the code to avoid NaN values in the created "
         +:+ table_or_figure self +:+ "." in
       let instructions :=
         if is_figure self then instructions
         else instructions +:+ PyStr.NL
              +:+ "If the NaNs are legit and stand for missing values: replace them with the string '-'."
              +:+ PyStr.NL
              +:+ "Otherwise, if they are computational errors, please revise the code to fix it." in
       [content_issue self VALUES_CATEGORY issue_text instructions None]
     else []).

(** The labels of a MultiIndex, level by level. *)
Definition level_values (nlevels : nat) (labels : list (list value)) : list value :=
  seq 0 nlevels ≫= λ level, labels ≫= λ entry, option_list (entry !! level).

(** [isinstance(header, (int, str, bool))] *)
Definition is_allowed_header (v : value) : bool :=
  match v with
  | VInt _ | VStr _ | VBool _ => true
  | _ => false
  end.

(** [_get_unsupported_df_header_types], with the types by name. *)
Definition _get_unsupported_df_header_types (headers : Index) : list string :=
  let headers :=
    match headers with
    | MultiIndex nlevels labels => level_values nlevels labels
    | _ => index_to_list headers
    end in
  remove_dups (type_name_of <$> List.filter (λ h, negb (is_allowed_header h)) headers).

Definition ALLOWED_TYPES_TEXT : string := "(<class 'int'>, <class 'str'>, <class 'bool'>)".

(** [check_df_headers_type], where a multi-index is allowed for both the
    columns and the index. *)
Definition check_df_headers_type self : exn + check_effect :=
  let issue_for (column_or_index : string) (headers : Index) :=
    match _get_unsupported_df_header_types headers with
    | [] => []
    | unsupported_header_types =>
        [content_issue self INDEX_COLUMN_CATEGORY
           ("Your df has " +:+ column_or_index +:+ " headers of unsupported types: "
            +:+ types_text unsupported_header_types +:+ ".")
           ("The df " +:+ column_or_index +:+ " headers should be "
            +:+ ALLOWED_TYPES_TEXT +:+ ".")
           None]
    end in
  done_with self
    (issue_for "columns" (columns (df (fields self)))
     ++ issue_for "index" (index (df (fields self)))).

(** [[ind for ind in index] == list(range(num_rows))], label by label from
    [start]; both lists have num_rows entries, the length of the index. *)
Fixpoint equals_range (labels : list value) (start : Z) : bool :=
  match labels with
  | [] => true
  | label :: rest => py_eq label (VInt start) && equals_range rest (start + 1)
  end.

Definition RANGE_INSTRUCTIONS_FIGURE : string :=
  PyStr.NL
  +:+ "                    Please revise the code making sure the figure is built with an index that represents meaningful "
  +:+ TAB +:+ PyStr.NL
  +:+ "                    numeric data. Or, for categorical data, the index should be a list of strings."
  +:+ PyStr.NL +:+ "                    ".

Definition RANGE_INSTRUCTIONS_TABLE : string :=
  PyStr.NL
  +:+ "                    Please revise the code making sure the df is built with an index that has "
  +:+ TAB +:+ PyStr.NL
  +:+ "                    meaningful row labels." +:+ PyStr.NL
  +:+ "                    Labeling row with sequential numbers is not common in scientific tables. "
  +:+ PyStr.NL
  +:+ "                    Though, if you are sure that starting each row with a sequential number is really what you want, "
  +:+ TAB +:+ PyStr.NL
  +:+ "                    then convert it from int to strings, so that it is clear that it is not a mistake."
  +:+ PyStr.NL +:+ "                    ".

(** The issue of check_df_index_is_a_range. *)
Definition range_index_issue self : RunIssue :=
  let num_rows := Z.of_nat (shape (df (fields self))).1 in
  let range_text :=
    "                    But, the index of df " +:+ dq +:+ filename (fields self) +:+ dq
    +:+ " is just a range from 0 to " +:+ str_of_Z (num_rows - 1) +:+ "." +:+ PyStr.NL
    +:+ "                    " in
  if is_figure self then
    content_issue self INDEX_COLUMN_CATEGORY
      (dedent_triple_quote_str
         (PyStr.NL
          +:+ "                    We are using the index of the df as the x-values of the plot."
          +:+ PyStr.NL +:+ range_text))
      (dedent_triple_quote_str RANGE_INSTRUCTIONS_FIGURE) None
  else
    content_issue self INDEX_COLUMN_CATEGORY
      (dedent_triple_quote_str
         (PyStr.NL
          +:+ "                    The index of the df is used by `df_to_latex` as the row labels."
          +:+ PyStr.NL +:+ range_text))
      (dedent_triple_quote_str RANGE_INSTRUCTIONS_TABLE) None.

Definition check_df_index_is_a_range self : exn + check_effect :=
  if negb (index_in_use self) then done_with self []
  else
    let the_index := index (df (fields self)) in
    let index_is_range :=
      negb (is_MultiIndex the_index)
      && equals_range (index_to_list the_index) 0
      && dtype_is_int (index_dtype the_index) in
    done_with self (if index_is_range then [range_index_issue self] else []).

End Content.

Section TableContent.
Context `{Imports}.
Implicit Types self : DfChecker.

Definition kind_name self : option string :=
  match kind self with
  | KStr k => Some k
  | _ => None
  end.

Definition option_Z_text (n : option Z) : string :=
  match n with
  | Some z => str_of_Z z
  | None => "None"
  end.

Definition check_df_size self : exn + check_effect :=
  let '(rows, cols) := shape (df (fields self)) in
  let rows := Z.of_nat rows in
  let cols := Z.of_nat cols in
  let '(max_rows, max_columns) := get_max_rows_and_columns (is_figure self) (kind_name self) in
  if is_lower_eq rows max_rows && is_lower_eq cols max_columns then done_with self []
  else
    let transpose_note :=
      if is_lower_eq rows max_columns && is_lower_eq cols max_rows
      then "You might also consider transposing the df." +:+ PyStr.NL else "" in
    let trimming_note :=
      "Note that simply trimming the data is not always a good solution. You might instead consider a different representation/organization of the presented data."
      +:+ PyStr.NL in
    let trimming_note :=
      if is_figure self then trimming_note
      else trimming_note +:+ "Or, consider representing the data as a figure." +:+ PyStr.NL in
    let issue_for (size : Z) (maximum : option Z) (rows_or_columns : string) :=
      if is_lower_eq size maximum then []
      else [content_issue self SIZE_CATEGORY
              ("The " +:+ table_or_figure self +:+ " df has " +:+ str_of_Z size +:+ " "
               +:+ rows_or_columns +:+ ", which is too many for our "
               +:+ table_or_figure self +:+ " (max allowed: " +:+ option_Z_text maximum +:+ ").")
              ("Please revise the code so that df of created " +:+ table_or_figure self
               +:+ " have a maximum of " +:+ option_Z_text max_rows +:+ " rows and "
               +:+ option_Z_text max_columns +:+ " columns." +:+ PyStr.NL
               +:+ trimming_note +:+ transpose_note)
              None] in
    done_with self (issue_for rows max_rows "rows" ++ issue_for cols max_columns "columns").

Definition description_labels : list string :=
  ["mean"; "std"; "min"; "25%"; "50%"; "75%"; "max"].

(** [set(description_labels).issubset(headers)] *)
Definition has_description_labels (headers : Index) : bool :=
  forallb (λ label, in_set_of headers (VStr label)) description_labels.

Definition check_df_is_a_result_of_describe self : exn + check_effect :=
  done_with self
    (if has_description_labels (columns (df (fields self)))
        || has_description_labels (index (df (fields self)))
     then [content_issue self DF_DISPLAY_CATEGORY
             "The df includes mean, std, as well as quantiles and min/max values."
             (dedent_triple_quote_str
                (PyStr.NL
                 +:+ "                    Note that in scientific tables, it is not customary to include quantiles, or min/max values, "
                 +:+ TAB +:+ PyStr.NL
                 +:+ "                    especially if the mean and std are also included." +:+ PyStr.NL
                 +:+ "                    Please revise the code so that the tables only include scientifically relevant statistics."
                 +:+ PyStr.NL +:+ "                    "))
             (Some 3)]
     else []).

(** [len(set(values))] *)
Fixpoint distinct (l : list value) : list value :=
  match l with
  | [] => []
  | v :: rest => if existsb (py_eq v) rest then distinct rest else v :: distinct rest
  end.

(** [values.count(v)] *)
Definition count_value (l : list value) (v : value) : nat :=
  length (List.filter (py_eq v) l).

Definition position_text (p : nat * nat) : string :=
  "(" +:+ str_of_nat p.1 +:+ ", " +:+ str_of_nat p.2 +:+ ")".

Definition REPEATED_INSTRUCTIONS : string :=
  PyStr.NL
  +:+ "                    This is likely a mistake and is surely confusing to the reader." +:+ PyStr.NL
  +:+ "                    Please revise the code so that the df does not repeat the same values in multiple cells."
  +:+ PyStr.NL +:+ "                    ".

(** The issue of check_df_for_repeated_values for the example value. *)
Definition repeated_values_issue self (example_value : value) : RunIssue :=
  let duplicated_value_positions :=
    join_comma (position_text <$> where_equal (df (fields self)) example_value) in
  content_issue self OVERLAYING_VALUES_CATEGORY
    ("Note that the df " +:+ dq +:+ filename (fields self) +:+ dq
     +:+ " includes the same values in multiple cells." +:+ PyStr.NL
     +:+ "For example, the value " +:+ value_text example_value
     +:+ " appears in the following cells:" +:+ PyStr.NL
     +:+ duplicated_value_positions +:+ ".")
    (dedent_triple_quote_str REPEATED_INSTRUCTIONS)
    (Some 1).

Definition check_df_for_repeated_values self : exn + check_effect :=
  let df_values := List.filter is_non_integer_numeric (flatten (df (fields self))) in
  if negb (length df_values =? length (distinct df_values))%nat then
    let duplicated_values :=
      List.filter (λ v, (1 <? count_value df_values v)%nat) df_values in
    match duplicated_values with
    | example_value :: _ => done_with self [repeated_values_issue self example_value]
    | [] => inl IndexError
    end
  else done_with self [].

Definition check_df_for_repeated_values_in_prior_dfs self : exn + check_effect :=
  let df_values := List.filter is_non_integer_numeric (flatten (df (fields self))) in
  let issue_for (entry : string * prior) :=
    match entry.2 with
    | ThisDf => []
    | OtherDf prior_table =>
        let prior_table_values := List.filter is_non_integer_numeric (flatten prior_table) in
        if existsb (λ v, existsb (py_eq v) prior_table_values) df_values
        then [content_issue self OVERLAYING_VALUES_CATEGORY
                ("Table " +:+ dq +:+ filename (fields self) +:+ dq
                 +:+ " includes values that overlap with values in table "
                 +:+ dq +:+ entry.1 +:+ dq +:+ ".")
                (dedent_triple_quote_str
                   (PyStr.NL
                    +:+ "                        In scientific tables, it is not customary to include the same values in multiple tables."
                    +:+ PyStr.NL
                    +:+ "                        Please revise the code so that each table include its own unique data."
                    +:+ PyStr.NL +:+ "                        "))
                (Some 1)]
        else []
    end in
  done_with self (prior_dfs (fields self) ≫= issue_for).

Definition DfContentChecker_CHOICE_OF_CHECKS : list (check_method DfFields * bool) :=
  [ (method "check_df_for_nan_values" check_df_for_nan_values, true);
    (method "check_df_value_types" check_df_value_types, true);
    (method "check_df_headers_type" check_df_headers_type, true);
    (method "check_df_index_is_a_range" check_df_index_is_a_range, true);
    (method "check_df_size" check_df_size, true) ].

Definition TableDfContentChecker : checker_class DfFields :=
  {| check_methods :=
       [ method "check_df_for_nan_values" check_df_for_nan_values;
         method "check_df_for_repeated_values" check_df_for_repeated_values;
         method "check_df_for_repeated_values_in_prior_dfs"
           check_df_for_repeated_values_in_prior_dfs;
         method "check_df_headers_type" check_df_headers_type;
         method "check_df_index_is_a_range" check_df_index_is_a_range;
         method "check_df_is_a_result_of_describe" check_df_is_a_result_of_describe;
         method "check_df_size" check_df_size;
         method "check_df_value_types" check_df_value_types ];
     CHOICE_OF_CHECKS :=
       Some ([ (method "check_df_is_a_result_of_describe"
                  check_df_is_a_result_of_describe, true);
               (method "check_df_for_repeated_values" check_df_for_repeated_values, true);
               (method "check_df_for_repeated_values_in_prior_dfs"
                  check_df_for_repeated_values_in_prior_dfs, true) ]
             ++ DfContentChecker_CHOICE_OF_CHECKS) |}.

(** A content checker as the chain creates it: BaseContentDfChecker sets
    stop_after_first_issue and leaves prior_dfs empty. *)
Definition new_content_checker (name : string) (the_df : DataFrame)
    (the_filename : string) (the_kwargs : gmap string kwarg) : DfChecker :=
  {| issues := []; intermediate_results := ∅; stop_after_first_issue := true;
     fields := {| func_name := name; df := the_df; filename := the_filename;
                  kwargs := the_kwargs; prior_dfs := [] |} |}.

Definition check_df_to_latex_analysis (the_df : DataFrame) (the_filename : string)
    (the_kwargs : gmap string kwarg) : exn + list RunIssue :=
  let checkers :=
    [ (TableSyntaxDfChecker,
       new_syntax_checker "df_to_latex" the_df the_filename the_kwargs);
      (TableDfContentChecker,
       new_content_checker "df_to_latex" the_df the_filename the_kwargs) ] in
  match create_and_run_chain_checker checkers true with
  | inl e => inl e
  | inr (found, _) => inr found
  end.

End TableContent.

(** *** The vocabulary of the claims about the table checkers *)
Section Vocabulary.
Context `{Imports}.

(** The call has nothing for the syntax checks of a table to object to: the
    file name has the expected form, no label and no columns argument is
    given, and the index is in use. *)
Definition clean_call (flds : DfFields) : Prop :=
  matches_df_name (filename flds) = true
  ∧ truthy (default KNone (kwargs flds !! "label")) = false
  ∧ truthy (default (KBool true) (kwargs flds !! "index")) = true
  ∧ kwargs flds !! "columns" = None.

(** The non-integer numeric values of the table, by rows. *)
Definition numeric_values (table : DataFrame) : list value :=
  List.filter is_non_integer_numeric (flatten table).

(** Two cells of the table hold the same non-integer numeric value. *)
Definition has_repeated_value (table : DataFrame) : Prop :=
  ∃ before v after,
    numeric_values table = before ++ v :: after ∧ existsb (py_eq v) after = true.

(** [v] is the first duplicated value of the table: it is held by more than
    one cell, and no non-integer numeric value met before it, by rows, is. *)
Definition first_duplicated_value (table : DataFrame) (v : value) : Prop :=
  ∃ before after,
    numeric_values table = before ++ v :: after
    ∧ Forall (λ w, (count_value (numeric_values table) w ≤ 1)%nat) before
    ∧ (1 < count_value (numeric_values table) v)%nat.

(** No cell of the table is a Series or a DataFrame. *)
Definition scalar_cells (table : DataFrame) : Prop :=
  Forall (λ v, is_frame v = false) (flatten table).

(** The cell at a position of the table. *)
Definition cell_at (table : DataFrame) (position : nat * nat) : option value :=
  values table !! position.1 ≫= λ cells, cells !! position.2.

(** The table has none of the labels of a describe() table. *)
Definition not_a_description (table : DataFrame) : Prop :=
  has_description_labels (columns table) || has_description_labels (index table) = false.

(** The index is the integer range 0..n-1, held with the default integer
    dtype, int64. *)
Definition is_range_index (idx : Index) : Prop :=
  ∃ n : nat, idx = Int64Index (Z.of_nat <$> seq 0 n).

End Vocabulary.

End DfChecker.

(** ** A concrete instance of the checker's imports, and tables to check *)
Module DfExamples.
Import Py Pandas BaseChecker DfChecker.

(** The digits of [r / den] behind the decimal point, at most [fuel] of them. *)
Fixpoint fraction_digits (fuel : nat) (r den : Z) : string :=
  match fuel with
  | O => ""
  | S fuel' =>
      if r =? 0 then ""
      else str_of_Z (r * 10 / den) +:+ fraction_digits fuel' (r * 10 mod den) den
  end.

(** A finite float in decimal notation, as [3.14] or [2.0]. *)
Definition decimal_text (q : Q) : string :=
  let den := Zpos (Qden q) in
  let whole := Z.abs (Qnum q) / den in
  let r := Z.abs (Qnum q) mod den in
  (if Qnum q <? 0 then "-" else "")
  +:+ str_of_Z whole +:+ "."
  +:+ (if r =? 0 then "0" else fraction_digits 17 r den).

Definition example_float_str (x : pyfloat) : string :=
  match x with
  | NaN => "nan"
  | Inf negative => if negative then "-inf" else "inf"
  | Finite q => decimal_text q
  end.

Definition example_label_text (v : value) : string :=
  match v with
  | VStr s => quoted s
  | VFloat x => example_float_str x
  | _ => label_text v
  end.

(** Two keys of a hash table of objects are the same when they are equal, or
    are both a NaN. *)
Definition same_key (v w : value) : bool :=
  py_eq v w
  || match v, w with
     | VFloat NaN, VFloat NaN => true
     | _, _ => false
     end.

(** The whole number a float stands for, if it is one. *)
Definition whole_float (x : pyfloat) : option Z :=
  match x with
  | Finite q => if Qnum q mod Zpos (Qden q) =? 0 then Some (Qnum q / Zpos (Qden q)) else None
  | _ => None
  end.

(** [label in idx] as pandas 2 has it: an index of integers holds integers and
    floats that are whole, no bool; an index of floats holds integers and
    floats, no bool; an index of bools holds bools; an index of objects holds
    what equals one of its labels; a MultiIndex holds the labels of its first
    level, and the tuples that are one of its entries. *)
Definition example_index_has (idx : Index) (label : value) : bool :=
  match idx with
  | Int64Index l | IntIndex _ l =>
      match label with
      | VInt z => bool_decide (z ∈ l)
      | VFloat x =>
          match whole_float x with
          | Some z => bool_decide (z ∈ l)
          | None => false
          end
      | _ => false
      end
  | Float64Index l =>
      match label with
      | VInt _ | VFloat _ => existsb (same_key label) (VFloat <$> l)
      | _ => false
      end
  | BoolIndex l =>
      match label with
      | VBool b => bool_decide (b ∈ l)
      | _ => false
      end
  | ObjectIndex l => existsb (same_key label) l
  | MultiIndex _ l =>
      match label with
      | VTuple _ => existsb (λ entry, py_eq label (tuple_of entry)) l
      | _ => existsb (λ entry, match entry with
                               | first :: _ => same_key label first
                               | [] => false
                               end) l
      end
  end.

Definition example_imports : Imports := {|
  dedent_triple_quote_str text := PyStr.strip (ExampleImports.unindent true text);
  float_str := example_float_str;
  index_text idx := "Index(" +:+ list_text (example_label_text <$> index_to_list idx) +:+ ")";
  types_text := list_text;
  df_to_llm_readable_csv table :=
    String.concat PyStr.NL
      ((λ row, join_comma (example_label_text <$> row)) <$> values table);
  get_max_rows_and_columns _ _ := (Some 20, Some 6);
  is_lower_eq a maximum := match maximum with Some m => a <=? m | None => true end;
  index_has := example_index_has;
|}.

Definition f (num den : Z) : value := VFloat (Finite (Qmake num (Z.to_pos den))).

(** A 3x3 table with the index 0, 1, 2 and the value 3.14 in the cells
    (0, 0) and (1, 1). *)
Definition repeated_table : DataFrame :=
  {| index := Int64Index [0; 1; 2];
     columns := ObjectIndex [VStr "a"; VStr "b"; VStr "c"];
     values := [ [f 314 100; VInt 1; VStr "x"];
                 [f 25 10; f 314 100; VInt 2];
                 [VInt 3; f 15 10; f 25 100] ] |}.

(** The same table with the second 3.14 replaced. *)
Definition range_table : DataFrame :=
  {| index := Int64Index [0; 1; 2];
     columns := ObjectIndex [VStr "a"; VStr "b"; VStr "c"];
     values := [ [f 314 100; VInt 1; VStr "x"];
                 [f 25 10; f 271 100; VInt 2];
                 [VInt 3; f 15 10; f 25 100] ] |}.


(** The same table with its row labels as strings. *)
Definition labelled_table : DataFrame :=
  {| index := ObjectIndex [VStr "0"; VStr "1"; VStr "2"];
     columns := columns range_table;
     values := values range_table |}.

(** The number 0 given as a keyword argument. *)
Definition zero : kwarg :=
  KOther {| object_text := "0"; object_truth := false; object_items := None |}.

(** A figure call that names a column the df does not have in [xerr]. *)
Definition xerr_kwargs : gmap string kwarg :=
  {[ "kind" := KStr "bar"; "y" := KStr "a"; "xerr" := KStr "missing" ]}.

(** The same call with the column named in [x_ci] instead. *)
Definition x_ci_kwargs : gmap string kwarg :=
  {[ "kind" := KStr "bar"; "y" := KStr "a"; "x_ci" := KStr "missing" ]}.

End DfExamples.

(** ** code_runner.py: running the extracted code and reading its output *)
Module CodeRunnerRun.
Import PyStr PyRe CodeRunner.

(** The exceptions [run_code] can end with: the two of exceptions.py, the
    TypeError of [os.remove(None)], and whatever running the code raises. *)
Inductive error {E : Type} :=
| ExtractionFailed (num_block_edges : nat)
| FailedLoadingOutput
| RemoveTypeError
| FailedRunning (e : E).
Arguments error : clear implicits.

(** The result of a method: the value returned or the exception raised, with
    the files as the call leaves them. *)
Inductive outcome {E A : Type} :=
| Returned (a : A) (fs : gmap string string)
| Raised (e : error E) (fs : gmap string string).
Arguments outcome : clear implicits.

(** The fields of the dataclass. *)
Record CodeRunner := {
  response : string;
  output_file : option string;
  script_file : option string;
}.

(** CodeAndOutput *)
Record CodeAndOutput := {
  code : string;
  output : option string;
}.

Section Run.
(** [run_code_from_file(code, script_file)] of dynamic_code.py, which is not
    among the sources: it returns or raises, and leaves the files changed. *)
Context {E : Type}.
Variable run_code_from_file :
  string → option string → gmap string string → E * gmap string string + gmap string string.
Implicit Types (self : CodeRunner) (fs : gmap string string).

Definition read_output_file self fs : outcome E (option string) :=
  match output_file self with
  | None => Returned None fs
  | Some path =>
      match fs !! path with
      | Some text => Returned (Some text) fs
      | None => Raised FailedLoadingOutput fs
      end
  end.

(** [os.remove] raises TypeError on None; a missing file is passed over. *)
Definition delete_output_file self fs : outcome E unit :=
  match output_file self with
  | None => Raised RemoveTypeError fs
  | Some path => Returned () (delete path fs)
  end.

Definition run_code self fs : outcome E CodeAndOutput :=
  match extract_code (response self) with
  | FailedExtractingCode n => Raised (ExtractionFailed n) fs
  | Code the_code =>
      match delete_output_file self fs with
      | Raised e fs1 => Raised e fs1
      | Returned _ fs1 =>
          match run_code_from_file the_code (script_file self) fs1 with
          | inl (e, fs2) => Raised (FailedRunning e) fs2
          | inr fs2 =>
              match read_output_file self fs2 with
              | Raised e fs3 => Raised e fs3
              | Returned out fs3 =>
                  Returned {| code := the_code; output := out |} fs3
              end
          end
      end
  end.

End Run.

(** Two ways of running code, to run [run_code] on: a run that writes
    nothing, and a run that writes its code to out.txt. *)
Definition run_nothing (the_code : string) (script : option string)
    (fs : gmap string string) : Empty_set * gmap string string + gmap string string :=
  inr fs.

Definition run_echo (the_code : string) (script : option string)
    (fs : gmap string string) : Empty_set * gmap string string + gmap string string :=
  inr (<["out.txt" := the_code]> fs).

Definition example_runner : CodeRunner :=
  {| response := FencedResponse.resp1; output_file := Some "out.txt";
     script_file := None |}.

(** No character of [s] is a newline. *)
Fixpoint newline_free (s : string) : Prop :=
  match s with
  | "" => True
  | String c s' => c ≠ newline ∧ newline_free s'
  end.

End CodeRunnerRun.

(** ** output_file_requirements.py: OutputFileRequirementsWithContent *)
Module OutputFilesWithContent.
Import Py RunIssues OutputFiles.

(** What the class imports besides the imports of the requirements: the
    first component of [create_hypertargets_to_numeric_values(content, prefix)],
    or the exception it raises. *)
Class HypertargetImports `{Imports} := {
  create_hypertargets_to_numeric_values : content → string → exn + content;
}.

(** The files as a call leaves them, whether it returns or raises. *)
Definition files_after {A : Type} (o : outcome A) : gmap string string :=
  match o with
  | Returned _ fs | Raised _ fs => fs
  end.

(** How a call that looks a key up in a dictionary ends. *)
Inductive lookup_result (A : Type) :=
| Found (a : A)
| KeyError (key : string)
| Failed (e : exn).
Arguments Found {A} a.
Arguments KeyError {A} key.
Arguments Failed {A} e.

Section WithContent.
Context `{HypertargetImports}.

(** A dictionary from each requirement to a dictionary from each of its
    output files to the content of the file. *)
Definition with_content : Type :=
  list (OutputFileRequirement * list (string * content)).

Implicit Types (self : with_content) (fs : gmap string string).

(** [OutputFileRequirements.get_all_allowed_created_filenames] *)
Definition get_all_allowed_created_filenames (requirements : list OutputFileRequirement)
    : list string :=
  (λ requirement, filename (fields requirement)) <$> requirements.

Definition convert_to_output_file_requirements self : list OutputFileRequirement :=
  self.*1.

Definition get_single_content_file self : option string :=
  OutputFiles.get_single_content_file (convert_to_output_file_requirements self).

Definition get_all_created_files self : list string :=
  self ≫= λ item, item.2.*1.

Definition get_created_content_files self (match_filename : string) : list string :=
  self ≫= λ item,
    List.filter (λ name, is_content item.1 && fnmatch name match_filename) item.2.*1.

(** The attribute [hypertarget_prefixes] of the content classes. *)
Definition hypertarget_prefixes (requirement : OutputFileRequirement)
    : option (list string) :=
  match requirement with
  | PlainRequirement _ | DataOutputFileRequirement _ => None
  | BaseContentOutputFileRequirement _ prefixes
  | PickleContentOutputFileRequirement _ prefixes
  | TextContentOutputFileRequirement _ prefixes _
  | NumericTextContentOutputFileRequirement _ prefixes _ _ => prefixes
  end.

(** The content stored for one file of a content requirement. *)
Definition content_to_store (is_pretty : bool) (pvalue_on_str : option OnStr)
    (should_hypertarget is_block : bool) (requirement : OutputFileRequirement)
    (num_file : nat) (name : string) (c : content) : exn + content :=
  let shown :=
    if is_pretty then
      match get_pretty_content requirement c (if is_block then Some name else None)
              pvalue_on_str with
      | inl e => inl e
      | inr text => inr (Text text)
      end
    else inr c in
  match shown with
  | inl e => inl e
  | inr c' =>
      if should_hypertarget then
        match hypertarget_prefixes requirement with
        | Some (prefix0 :: prefixes) =>
            match (prefix0 :: prefixes) !! num_file with
            | Some prefix => create_hypertargets_to_numeric_values c' prefix
            | None => inl IndexError
            end
        | _ => inr c'
        end
      else inr c'
  end.

(** The inner loop, over the enumerated files of one requirement. *)
Fixpoint contents_of_requirement (is_pretty : bool) (pvalue_on_str : option OnStr)
    (should_hypertarget : bool) (match_filename : string) (is_block : bool)
    (requirement : OutputFileRequirement) (num_file : nat)
    (files_to_contents : list (string * content)) (result : list (string * content))
    : exn + list (string * content) :=
  match files_to_contents with
  | [] => inr result
  | (name, c) :: rest =>
      if is_content requirement && fnmatch name match_filename then
        match content_to_store is_pretty pvalue_on_str should_hypertarget is_block
                requirement num_file name c with
        | inl e => inl e
        | inr c' =>
            contents_of_requirement is_pretty pvalue_on_str should_hypertarget
              match_filename is_block requirement (S num_file) rest
              (dict_set name c' result)
        end
      else
        contents_of_requirement is_pretty pvalue_on_str should_hypertarget
          match_filename is_block requirement (S num_file) rest result
  end.

(** The outer loop, over the items of the dictionary. *)
Fixpoint contents_of_items (is_pretty : bool) (pvalue_on_str : option OnStr)
    (should_hypertarget : bool) (match_filename : string) (is_block : bool)
    (items : with_content) (result : list (string * content))
    : exn + list (string * content) :=
  match items with
  | [] => inr result
  | (requirement, files_to_contents) :: rest =>
      match contents_of_requirement is_pretty pvalue_on_str should_hypertarget
              match_filename is_block requirement 0 files_to_contents result with
      | inl e => inl e
      | inr result' =>
          contents_of_items is_pretty pvalue_on_str should_hypertarget
            match_filename is_block rest result'
      end
  end.

Definition _get_created_content_files_to_contents self (is_pretty : bool)
    (pvalue_on_str : option OnStr) (should_hypertarget : bool)
    (match_filename : string) (is_block : bool) : exn + list (string * content) :=
  contents_of_items is_pretty pvalue_on_str should_hypertarget match_filename
    is_block self [].

Definition get_created_content_files_to_pretty_contents self
    (pvalue_on_str : option OnStr) (should_hypertarget : bool)
    (match_filename : string) (is_block : bool) : exn + list (string * content) :=
  _get_created_content_files_to_contents self true pvalue_on_str should_hypertarget
    match_filename is_block.

Definition get_created_content_files_to_contents self (match_filename : string)
    : exn + list (string * content) :=
  _get_created_content_files_to_contents self false None false match_filename false.

(** [sep.join(values)]: a TypeError unless every value is a str. *)
Fixpoint texts_of (values : list content) : exn + list string :=
  match values with
  | [] => inr []
  | Text s :: rest =>
      match texts_of rest with
      | inl e => inl e
      | inr texts => inr (s :: texts)
      end
  | _ :: _ => inl TypeError
  end.

Definition get_created_content_files_description self (match_filename : string)
    (pvalue_on_str : option OnStr) : exn + string :=
  match get_created_content_files_to_pretty_contents self pvalue_on_str false
          match_filename true with
  | inl e => inl e
  | inr files_to_contents =>
      match texts_of files_to_contents.*2 with
      | inl e => inl e
      | inr texts => inr (String.concat (PyStr.NL +:+ PyStr.NL) texts)
      end
  end.

Definition get_single_output self (is_pretty : bool) (pvalue_on_str : option OnStr)
    : lookup_result (option content) :=
  match get_single_content_file self with
  | None => Found None
  | Some single_content_filename =>
      match _get_created_content_files_to_contents self is_pretty pvalue_on_str
              false "*" false with
      | inl e => Failed e
      | inr files_to_contents =>
          match dict_get single_content_filename files_to_contents with
          | Some c => Found (Some c)
          | None => KeyError single_content_filename
          end
      end
  end.

Definition get_created_data_files self (match_filename : string) : list string :=
  self ≫= λ item,
    List.filter (λ name, truth (should_keep_file (fields item.1))
                         && fnmatch name match_filename) item.2.*1.

(** [os.remove] on each path in turn. *)
Fixpoint remove_all (paths : list string) fs : outcome unit :=
  match paths with
  | [] => Returned () fs
  | path :: rest =>
      match fs !! path with
      | Some _ => remove_all rest (delete path fs)
      | None => Raised (FileNotFoundError path) fs
      end
  end.

Definition delete_all_created_files self (run_folder : option string) fs
    : outcome unit :=
  remove_all (file_path run_folder <$> get_created_data_files self "*") fs.

(** The files stored under the content requirements, with their contents. *)
Definition content_files self : list (string * content) :=
  self ≫= λ item, if is_content item.1 then item.2 else [].

End WithContent.

(** Hypertargets that leave the content as it is, to run the methods on. *)
Definition example_hypertargets : @HypertargetImports ExampleImports.example_imports :=
  {| create_hypertargets_to_numeric_values c prefix := inr c |}.

(** The files a run created, and what the conversion of the example
    requirements makes of them. *)
Definition example_created : list string := ["out.txt"; "notes"; "data.csv"].

Definition example_result : @with_content ExampleImports.example_imports :=
  [ (TextContentOutputFileRequirement ExampleImports.out_txt None None,
     [("out.txt", Text "hello")]);
    (DataOutputFileRequirement
       {| filename := "*.csv"; minimal_count := 0; should_keep_file := Keep true |},
     [("data.csv", NoContent)]) ].

(** Requirements in which a pattern for data files is declared before the
    text file it also matches. *)
Definition shadowed_requirements : list OutputFileRequirement :=
  [ DataOutputFileRequirement
      {| filename := "*.txt"; minimal_count := 0; should_keep_file := Keep true |};
    TextContentOutputFileRequirement ExampleImports.out_txt None None ].

Definition shadowed_result : @with_content ExampleImports.example_imports :=
  [ (DataOutputFileRequirement
       {| filename := "*.txt"; minimal_count := 0; should_keep_file := Keep true |},
     [("out.txt", NoContent)]);
    (TextContentOutputFileRequirement ExampleImports.out_txt None None, []) ].

End OutputFilesWithContent.

(** ** Checker classes to run the checker framework on *)
Module CheckerExamples.
Import Py RunIssues BaseChecker BaseChecker.Example.

(** A class whose CHOICE_OF_CHECKS leaves out one of its check methods. *)
Definition incomplete_class : checker_class unit :=
  {| check_methods := [check_nothing; check_something];
     CHOICE_OF_CHECKS := Some [(check_nothing, true)] |}.

(** A chain of three checkers: the first finds nothing, the second finds an
    issue, the third would find one too. *)
Definition example_chain : list (checker_class unit * Checker unit) :=
  [ (example_class [check_nothing], fresh false);
    (example_class [check_nothing; check_something], fresh false);
    (example_class [check_something], fresh false) ].

End CheckerExamples.

(** ** The vocabulary of the properties of the table checkers *)
Module DfCheckerVocabulary.
Import Py RunIssues Pandas BaseChecker DfChecker.

(** Every character of [s] is a word character. *)
Fixpoint all_word (s : string) : bool :=
  match s with
  | "" => true
  | String c s' => is_word c && all_word s'
  end.

(** [df_] followed by one word character or more, and possibly by one newline
    that ends the name. *)
Definition df_name (name : string) : Prop :=
  ∃ w, w ≠ "" ∧ all_word w = true
       ∧ (name = "df_" +:+ w ∨ name = "df_" +:+ w +:+ PyStr.NL).

(** The issues of the first check that found any, among the issues found by
    the checks in the order they run. *)
Fixpoint first_found (findings : list (list RunIssue)) : list RunIssue :=
  match findings with
  | [] => []
  | [] :: rest => first_found rest
  | found :: _ => found
  end.

Section Vocabulary.
Context `{Imports}.
Implicit Types (self : DfChecker) (table : DataFrame).

(** The issues a check appends. *)
Definition found_by (check : DfChecker → exn + check_effect) self : list RunIssue :=
  match check self with
  | inr effect => appended effect
  | inl _ => []
  end.

(** The issues of the four checks of TableSyntaxDfChecker, in the order of
    its CHOICE_OF_CHECKS. *)
Definition table_syntax_issues self : list RunIssue :=
  found_by check_filename self ++ found_by check_no_label self
  ++ found_by check_that_index_is_true self
  ++ found_by check_column_arg_is_not_used self.

(** The number of rules of the table syntax that the call violates. *)
Definition table_violations (flds : DfFields) : nat :=
  (Nat.b2n (negb (matches_df_name (filename flds)))
   + Nat.b2n (truthy (default KNone (kwargs flds !! "label")))
   + Nat.b2n (negb (truthy (default (KBool true) (kwargs flds !! "index"))))
   + Nat.b2n (bool_decide (is_Some (kwargs flds !! "columns"))))%nat.

(** An issue of the syntax checkers, for the file [name]. *)
Definition is_syntax_issue (name : string) (i : RunIssue) : Prop :=
  category i = SYNTAX_CATEGORY
  ∧ item i = Some name
  ∧ code_problem i = Some OutputFileCallingSyntax.

(** The issues of the six checks of FigureSyntaxDfChecker, in the order of
    its CHOICE_OF_CHECKS. *)
Definition figure_syntax_issues self : list RunIssue :=
  found_by check_filename self ++ found_by check_no_label self
  ++ found_by check_kind_arg self ++ found_by check_y_arg self
  ++ found_by check_yerr_arg self
  ++ found_by check_that_specified_columns_exist self.

(** The arguments that name columns, as the check of the columns reads them. *)
Definition column_args self : list kwarg :=
  get_xy_err_ci_p_value self "x" ++ get_xy_err_ci_p_value self "y".

(** The argument is left out, or is a list of names; a str has been made
    the list of that one name before. *)
Definition names_columns (a : kwarg) : Prop :=
  a = KNone ∨ ∃ names : list string, a = KList (VStr <$> names).

(** Every column an argument names is in the columns of the df. *)
Definition columns_exist self : Prop :=
  ∀ a (names : list string) name,
    a ∈ column_args self → a = KList (VStr <$> names) → name ∈ names →
    index_has (columns (df (fields self))) (VStr name) = true.

(** The call gives the syntax checks of a figure nothing to object to. *)
Definition figure_clean_call self : Prop :=
  df_name (filename (fields self))
  ∧ truthy (kwargs_get self "label" KNone) = false
  ∧ kind self = KStr "bar"
  ∧ y self ≠ KNone
  ∧ yerr self = KNone
  ∧ columns_exist self.

(** No cell is null, nor a PValue of a null value. *)
Definition no_nulls table : Prop :=
  ∀ v, v ∈ flatten table → isnull (raw_pvalue v) = false.

(** No cell is a Series or a DataFrame, and every cell is of an allowed
    type. *)
Definition only_allowed_values table : Prop :=
  ∀ v, v ∈ flatten table → is_frame v = false ∧ is_allowed_value v = true.

(** The column and the row headers are of supported types. *)
Definition supported_headers table : Prop :=
  _get_unsupported_df_header_types (columns table) = []
  ∧ _get_unsupported_df_header_types (index table) = [].

(** The table has no more rows and no more columns than allowed. *)
Definition within_size self : Prop :=
  let max_rows_and_columns := get_max_rows_and_columns (is_figure self) (kind_name self) in
  is_lower_eq (Z.of_nat (shape (df (fields self))).1) max_rows_and_columns.1 = true
  ∧ is_lower_eq (Z.of_nat (shape (df (fields self))).2) max_rows_and_columns.2 = true.

(** What each of the eight checks of TableDfContentChecker finds, in the
    order of its CHOICE_OF_CHECKS. *)
Definition table_content_findings self : list (list RunIssue) :=
  [ found_by check_df_is_a_result_of_describe self;
    found_by check_df_for_repeated_values self;
    found_by check_df_for_repeated_values_in_prior_dfs self;
    found_by check_df_for_nan_values self;
    found_by check_df_value_types self;
    found_by check_df_headers_type self;
    found_by check_df_index_is_a_range self;
    found_by check_df_size self ].

(** The table gives the content checks of a table nothing to object to. *)
Definition acceptable_table self : Prop :=
  not_a_description (df (fields self))
  ∧ ¬ has_repeated_value (df (fields self))
  ∧ no_nulls (df (fields self))
  ∧ only_allowed_values (df (fields self))
  ∧ supported_headers (df (fields self))
  ∧ ¬ is_range_index (index (df (fields self)))
  ∧ within_size self.

End Vocabulary.

(** A bar plot of two columns of the example table with its intervals. *)
Definition bar_kwargs : gmap string kwarg :=
  {[ "kind" := KStr "bar"; "y" := KList [VStr "a"; VStr "b"]; "y_ci" := KStr "c" ]}.

End DfCheckerVocabulary.

(** ** df_checker.py: checks of the display-item step

  SecondFigureContentChecker, and the checks of AnnotationDfChecker that look
  at the note and the caption of the call. *)
Module DfDisplayChecks.
Import Py RunIssues Pandas BaseChecker DfChecker.

(** [c.lower()] for a code point below 256: the capital letters of ASCII and
    of Latin-1 move up by 32. *)
Definition lower_char (c : ascii) : ascii :=
  let n := nat_of_ascii c in
  if ((65 <=? n) && (n <=? 90) || (192 <=? n) && (n <=? 214)
      || (216 <=? n) && (n <=? 222))%nat
  then ascii_of_nat (n + 32) else c.

(** [s.lower()] *)
Fixpoint lower (s : string) : string :=
  match s with
  | "" => ""
  | String c s' => String (lower_char c) (lower s')
  end.

(** [arg is True] *)
Definition is_True (a : kwarg) : bool :=
  match a with
  | KBool true => true
  | _ => false
  end.

Section Display.
Context `{Imports}.
Implicit Types self : DfChecker.

Definition note self : kwarg := kwargs_get self "note" KNone.
Definition caption self : kwarg := kwargs_get self "caption" KNone.

(** *** SecondFigureContentChecker *)

Definition ODDS_RATIO_TERMS_CAPS : list (string * bool) :=
  [("odds ratio", false); ("OR", true)].

(** [term in modified_label], where [modified_label] is [label.lower()]
    unless the term is in capitals. Only a str has [lower]; a list, or
    another object that can be iterated, is searched for an item equal to the
    term. *)
Definition term_in_label (label : kwarg) (term : string) (is_caps : bool)
    : exn + bool :=
  match label with
  | KStr s => inr (PyStr.contains (if is_caps then s else lower s) term)
  | _ =>
      if is_caps then
        match items_of label with
        | Some items => inr (existsb (py_eq (VStr term)) items)
        | None => inl TypeError
        end
      else inl AttributeError
  end.

(** The loop over the terms, with its [break]: the first term found. *)
Fixpoint first_term_in (label : kwarg) (terms : list (string * bool))
    : exn + option string :=
  match terms with
  | [] => inr None
  | (term, is_caps) :: rest =>
      match term_in_label label term is_caps with
      | inl e => inl e
      | inr true => inr (Some term)
      | inr false => first_term_in label rest
      end
  end.

Definition odds_ratio_issue self (axis term : string) : RunIssue :=
  content_issue self "Plotting odds ratios"
    ("The " +:+ axis +:+ "-axis label contains the term " +:+ dq +:+ term +:+ dq
     +:+ ". Are you plotting odds ratios?" +:+ PyStr.NL
     +:+ "If so, odds ratios are typically shown on a log scale; consider using a log scale for the "
     +:+ axis +:+ "-axis.")
    ("Consider using a log scale for the " +:+ axis +:+ "-axis (setting `log"
     +:+ axis +:+ "=True`).")
    (Some 1).

(** The body of the loop over the axes. *)
Definition check_log_scale_of_axis self (axis : string) : exn + list RunIssue :=
  let label := kwargs_get self (axis +:+ "label") KNone in
  let is_log := kwargs_get self ("log" +:+ axis) KNone in
  if negb (is_None label) && negb (is_True is_log) then
    match first_term_in label ODDS_RATIO_TERMS_CAPS with
    | inl e => inl e
    | inr (Some term) => inr [odds_ratio_issue self axis term]
    | inr None => inr []
    end
  else inr [].

Definition check_log_scale_for_odds_ratios self : exn + check_effect :=
  match check_log_scale_of_axis self "x" with
  | inl e => inl e
  | inr found_x =>
      match check_log_scale_of_axis self "y" with
      | inl e => inl e
      | inr found_y => done_with self (found_x ++ found_y)
      end
  end.

Definition SecondFigureContentChecker : checker_class DfFields :=
  {| check_methods :=
       [ method "check_log_scale_for_odds_ratios" check_log_scale_for_odds_ratios ];
     CHOICE_OF_CHECKS :=
       Some [ (method "check_log_scale_for_odds_ratios"
                 check_log_scale_for_odds_ratios, true) ] |}.

(** *** AnnotationDfChecker: the note and the caption *)

Definition CAPTION_INSTRUCTIONS : string :=
  PyStr.NL
  +:+ "                Please revise the code making sure all displayitems are created with a caption."
  +:+ PyStr.NL
  +:+ "                Use the arguments `caption` of `df_to_latex` or `df_to_figure`."
  +:+ PyStr.NL
  +:+ "                Captions should be suitable for tables/figures of a scientific paper."
  +:+ PyStr.NL
  +:+ "                In addition, you can add:" +:+ PyStr.NL
  +:+ "                - an optional note for further explanations (use the argument `note`)"
  +:+ PyStr.NL
  +:+ "                - a glossary mapping any abbreviated row/column labels to their definitions "
  +:+ TAB +:+ PyStr.NL
  +:+ "                (use the argument `glossary` argument). " +:+ PyStr.NL
  +:+ "                ".

Definition _create_displayitem_caption_label_issue self (issue : string) : RunIssue :=
  content_issue self "Problem with displayitem caption" issue
    (dedent_triple_quote_str CAPTION_INSTRUCTIONS) None.

(** A [>] ahead on the same line. *)
Fixpoint closes_on_line (s : string) : bool :=
  match s with
  | "" => false
  | String c s' =>
      if Ascii.eqb c ">" then true
      else if Ascii.eqb c PyStr.newline then false
      else closes_on_line s'
  end.

(** [re.search(r'<.*\>', s)]: a [<], then characters other than a newline,
    then a [>]. *)
Fixpoint search_angle (s : string) : bool :=
  match s with
  | "" => false
  | String c s' => Ascii.eqb c "<" && closes_on_line s' || search_angle s'
  end.

Definition forbidden_starts : list string := ["Figure"; "Table"].

(** [_check_caption_or_note]: the issues it appends; only a str has
    [startswith]. *)
Definition _check_caption_or_note self (text : kwarg) (item_name : string)
    (is_required : bool) : exn + list RunIssue :=
  match text with
  | KNone =>
      if is_required
      then inr [_create_displayitem_caption_label_issue self
                  ("The " +:+ table_or_figure self +:+ " does not have a "
                   +:+ item_name +:+ ".")]
      else inr []
  | KStr s =>
      inr ((forbidden_starts ≫= λ forbidden_start,
              if PyStr.startswith s forbidden_start
              then [_create_displayitem_caption_label_issue self
                      ("The " +:+ item_name +:+ " of the " +:+ table_or_figure self
                       +:+ " should not start with " +:+ dq +:+ forbidden_start
                       +:+ dq +:+ ".")]
              else [])
           ++ (if PyStr.contains s "..."
               then [_create_displayitem_caption_label_issue self
                       ("The " +:+ item_name +:+ " of the " +:+ table_or_figure self
                        +:+ " should not contain " +:+ dq +:+ "..." +:+ dq)]
               else [])
           ++ (if search_angle s
               then [_create_displayitem_caption_label_issue self
                       ("The " +:+ item_name +:+ " of the " +:+ table_or_figure self
                        +:+ " should not contain " +:+ dq +:+ "<...>" +:+ dq)]
               else []))
  | _ => inl AttributeError
  end.

Definition check_note self : exn + check_effect :=
  match _check_caption_or_note self (note self) "note" false with
  | inl e => inl e
  | inr found => done_with self found
  end.

Definition check_caption self : exn + check_effect :=
  match _check_caption_or_note self (caption self) "caption" true with
  | inl e => inl e
  | inr found => done_with self found
  end.

Definition check_note_is_different_than_caption self : exn + check_effect :=
  match note self, caption self with
  | KNone, _ | _, KNone => done_with self []
  | KStr the_note, KStr the_caption =>
      done_with self
        (if PyStr.contains (lower the_caption) (lower the_note)
            || PyStr.contains (lower the_note) (lower the_caption)
         then [_create_displayitem_caption_label_issue self
                 ("The note of the " +:+ table_or_figure self
                  +:+ " should not be the same as the caption." +:+ PyStr.NL
                  +:+ "Notes are meant to provide additional information, not to repeat the caption.")]
         else [])
  | _, _ => inl AttributeError
  end.

End Display.

(** *** The vocabulary of the properties of these checks *)

(** The label mentions odds ratios: the words in any letter case, or the
    capitals OR. *)
Definition mentions_odds_ratio (label : string) : bool :=
  PyStr.contains (lower label) "odds ratio" || PyStr.contains label "OR".

(** The axis has a label that mentions odds ratios and is not on a log
    scale. *)
Definition odds_ratio_axis (call_kwargs : gmap string kwarg) (axis : string) : bool :=
  match call_kwargs !! (axis +:+ "label") with
  | Some (KStr label) =>
      mentions_odds_ratio label
      && negb (is_True (default KNone (call_kwargs !! ("log" +:+ axis))))
  | _ => false
  end.

(** The label of the axis is a str, or there is none. *)
Definition label_is_text (call_kwargs : gmap string kwarg) (axis : string) : Prop :=
  match call_kwargs !! (axis +:+ "label") with
  | None | Some KNone | Some (KStr _) => True
  | _ => False
  end.

(** The text holds a [<] and, behind it on the same line, a [>]. *)
Definition has_angle_placeholder (s : string) : Prop :=
  ∃ before inside after,
    s = before +:+ "<" +:+ inside +:+ ">" +:+ after
    ∧ CodeRunnerRun.newline_free inside.

(** A figure call with an axis labelled for odds ratios. *)
Definition odds_kwargs : gmap string kwarg :=
  {[ "xlabel" := KStr "Adjusted Odds Ratio"; "ylabel" := KStr "Predictor";
     "logy" := KBool true ]}.

(** A call whose note repeats the caption in another letter case. *)
Definition repeated_note_kwargs : gmap string kwarg :=
  {[ "caption" := KStr "Mean height by age group";
     "note" := KStr "MEAN HEIGHT BY AGE GROUP" ]}.

End DfDisplayChecks.
(** * Properties of the code extraction *)

Module CodeRunnerExamples.
Import PyStr PyRe CodeRunner FencedResponse.

Example extract_resp1 : extract_code resp1 = Code "x = 1".
Proof. vm_compute. reflexivity. Qed.

Example extract_two_blocks :
  extract_code (resp1 +:+ resp1) = FailedExtractingCode 4.
Proof. vm_compute. reflexivity. Qed.

Example extract_four_ticks :
  extract_code ("`" +:+ FENCE +:+ NL +:+ "a" +:+ NL +:+ FENCE +:+ "``") = Code "a".
Proof. vm_compute. reflexivity. Qed.

End CodeRunnerExamples.

Module CodeRunnerProofs.
Import PyStr PyRe CodeRunner FencedResponse.

Local Arguments Ascii.eqb : simpl never.

Ltac tick_cases :=
  repeat match goal with
    | H : context [Ascii.eqb ?a ?b] |- _ =>
        destruct (Ascii.eqb_spec a b); simpl in H; try discriminate; subst
    | |- context [Ascii.eqb ?a ?b] =>
        destruct (Ascii.eqb_spec a b); simpl; try discriminate; subst
    end;
  try reflexivity; try congruence.

Lemma count_hit s : count (FENCE +:+ s) FENCE = S (count s FENCE).
Proof. reflexivity. Qed.

Lemma count_miss c s :
  startswith (String c s) FENCE = false →
  count (String c s) FENCE = count s FENCE.
Proof. unfold count. cbn [count_from]. intros ->. reflexivity. Qed.

Lemma fence_free_cons c s :
  fence_free (String c s) ↔ startswith (String c s) FENCE = false ∧ fence_free s.
Proof. unfold fence_free. cbn [contains]. apply orb_false_iff. Qed.

Lemma fence_free_count s : fence_free s → count s FENCE = O.
Proof.
  induction s as [|c s IH]; [reflexivity|].
  intros [Hm Hs]%fence_free_cons. rewrite count_miss; auto.
Qed.

(** A character other than a backtick right behind a fence-free text: no
    fence lies across the seam. *)
Lemma startswith_seam a p c z :
  startswith (String a p) FENCE = false → c ≠ backtick →
  startswith (String a (p +:+ String c z)) FENCE = false.
Proof.
  intros Hm Hc. destruct p as [|d [|e p]]; simpl in *; tick_cases.
Qed.

Lemma count_seam pre c z :
  fence_free pre → c ≠ backtick →
  count (pre +:+ String c z) FENCE = count (String c z) FENCE.
Proof.
  intros Hpre Hc. induction pre as [|a p IH]; [reflexivity|].
  apply fence_free_cons in Hpre as [Hm Hp].
  simpl String.append. rewrite count_miss; auto using startswith_seam.
Qed.

(** The opening fence behind a fence-free text is counted once, wherever the
    leftmost occurrence starts among the backticks that precede it. *)
Lemma count_open pre x :
  fence_free pre → starts_without_tick x →
  count (pre +:+ FENCE +:+ x) FENCE = S (count x FENCE).
Proof.
  intros Hpre Hx. induction pre as [|a p IH]; [reflexivity|].
  apply fence_free_cons in Hpre as [Hm Hp]. specialize (IH Hp).
  destruct (startswith (String a (p +:+ FENCE +:+ x)) FENCE) eqn:E.
  - destruct p as [|d [|e p]]; simpl in E, Hm.
    + destruct x; unfold count in *; simpl in *; tick_cases.
    + destruct x; unfold count in *; simpl in *; tick_cases.
    + congruence.
  - simpl String.append. rewrite count_miss; auto.
Qed.

Lemma tick_free_fence_free t : tick_free t → fence_free t.
Proof.
  induction t as [|c t IH]; [reflexivity|]. intros [Hc Ht].
  apply fence_free_cons. split; auto. simpl. tick_cases.
Qed.

Lemma tick_free_starts t z :
  tick_free t → starts_without_tick (t +:+ String newline z).
Proof. destruct t; simpl; [discriminate | tauto]. Qed.

Lemma newline_not_tick : newline ≠ backtick.
Proof. discriminate. Qed.

Lemma NL_app x : NL +:+ x = String newline x.
Proof. reflexivity. Qed.

(** One block contributes its two delimiters. *)
Lemma count_block seg0 tag body rest :
  fence_free seg0 → tick_free tag → fence_free body →
  count (seg0 +:+ FENCE +:+ tag +:+ NL +:+ body +:+ NL +:+ FENCE +:+ rest) FENCE
  = S (S (count rest FENCE)).
Proof.
  intros H0 Ht Hb. rewrite !NL_app.
  rewrite count_open by auto using tick_free_starts.
  rewrite count_seam by auto using tick_free_fence_free, newline_not_tick.
  rewrite count_miss by reflexivity.
  rewrite count_seam by auto using newline_not_tick.
  rewrite count_miss by reflexivity.
  now rewrite count_hit.
Qed.

Lemma count_render blocks : ∀ seg0,
  fence_free seg0 → Forall well_formed blocks →
  count (render seg0 blocks) FENCE = (2 * length blocks)%nat.
Proof.
  induction blocks as [|[b seg] blocks IH]; intros seg0 H0 Hwf.
  - simpl. auto using fence_free_count.
  - apply Forall_cons in Hwf as [(Ht & Hb & Hs) Hwf]. simpl in Ht, Hb, Hs.
    cbn [render]. rewrite count_block by assumption.
    rewrite IH by assumption. simpl. lia.
Qed.

(** *** findall on a response with one fenced block *)

Lemma CODE_REGEXPS_tags :
  CODE_REGEXPS = fence_regexp <$> ["python"; " python"; ""].
Proof. reflexivity. Qed.

Lemma startswith_app s a b :
  startswith s (a +:+ b) = startswith s a && startswith (drop (String.length a) s) b.
Proof.
  revert s. induction a as [|c a IH]; intros s; [reflexivity|].
  destruct s as [|d s]; simpl.
  - reflexivity.
  - rewrite IH. apply andb_assoc.
Qed.

Lemma startswith_self a b : startswith (a +:+ b) a = true.
Proof.
  induction a as [|c a IH]; [reflexivity|]. simpl.
  rewrite IH. now destruct (Ascii.eqb_spec c c).
Qed.

Lemma drop_app a b : drop (String.length a) (a +:+ b) = b.
Proof. induction a; [reflexivity | assumption]. Qed.

Lemma drop_drop n m s : drop (n + m) s = drop m (drop n s).
Proof.
  revert s. induction n as [|n IH]; intros s; [reflexivity|].
  destruct s; simpl; [now destruct m | apply IH].
Qed.

Lemma findall_miss r c s :
  startswith (String c s) (re_open r) = false →
  findall_from r (String c s) O = findall_from r s O.
Proof. cbn [findall_from]. intros ->. reflexivity. Qed.

Lemma findall_skip r s : ∀ k, findall_from r s k = findall_from r (drop k s) O.
Proof.
  induction s as [|c s IH]; intros [|k]; try reflexivity. apply IH.
Qed.

Lemma tag_after_tick t y :
  tick_free t → startswith (String backtick y) (t +:+ NL) = false.
Proof. destruct t; simpl; [reflexivity|]. intros [? _]. tick_cases. Qed.

(** No match of a fence pattern starts inside a fence-free text that
    precedes a fence. *)
Lemma findall_before_fence t pre y :
  fence_free pre → tick_free t →
  findall_from (fence_regexp t) (pre +:+ FENCE +:+ y) O
  = findall_from (fence_regexp t) (FENCE +:+ y) O.
Proof.
  intros Hpre Ht. induction pre as [|a p IH]; [reflexivity|].
  apply fence_free_cons in Hpre as [Hm Hp].
  change (String a p +:+ FENCE +:+ y) with (String a (p +:+ FENCE +:+ y)).
  rewrite findall_miss; [auto|].
  change (re_open (fence_regexp t)) with (FENCE +:+ (t +:+ NL)).
  rewrite startswith_app.
  destruct p as [|d [|e [|f p]]]; cbn [String.length drop String.append FENCE].
  1-3: rewrite tag_after_tick by assumption; apply andb_false_r.
  apply andb_false_intro1. exact Hm.
Qed.

Lemma fence_free_tail c s : fence_free (String c s) → fence_free s.
Proof. intros [_ H]%fence_free_cons. exact H. Qed.

Lemma fence_free_head s : fence_free s → startswith s FENCE = false.
Proof. destruct s; [reflexivity | now intros [H _]%fence_free_cons]. Qed.

Lemma fence_free_no_close s : fence_free s → contains s (NL +:+ FENCE) = false.
Proof.
  induction s as [|c s IH]; [reflexivity|]. intros H.
  pose proof (fence_free_tail _ _ H) as Hs.
  cbn [contains]. rewrite IH by assumption.
  change (NL +:+ FENCE) with (String newline FENCE). cbn [startswith].
  rewrite (fence_free_head s Hs). now rewrite andb_false_r.
Qed.

(** The lazy group stops at the closing fence of the block. *)
Lemma lazy_group_body body post :
  fence_free body →
  lazy_group (NL +:+ FENCE) (body +:+ NL +:+ FENCE +:+ post) = Some body.
Proof.
  intros Hb. induction body as [|c b IH].
  - reflexivity.
  - pose proof (fence_free_tail _ _ Hb) as Hb'.
    change (String c b +:+ NL +:+ FENCE +:+ post)
      with (String c (b +:+ NL +:+ FENCE +:+ post)).
    cbn [lazy_group]. rewrite IH by assumption.
    replace (startswith (String c (b +:+ NL +:+ FENCE +:+ post)) (NL +:+ FENCE))
      with false; [reflexivity|].
    symmetry. change (NL +:+ FENCE) with (String newline FENCE).
    cbn [startswith]. apply andb_false_intro2.
    destruct b as [|d [|e [|f b]]]; simpl; tick_cases.
    apply fence_free_head in Hb'. simpl in Hb'. tick_cases.
Qed.

Lemma contains_tail c s sub : contains (String c s) sub = false → contains s sub = false.
Proof. cbn [contains]. now intros [_ H]%orb_false_iff. Qed.

Lemma contains_drop sub n : ∀ s, contains s sub = false → contains (drop n s) sub = false.
Proof.
  induction n as [|n IH]; intros [|c s] H; try assumption.
  apply IH. eauto using contains_tail.
Qed.

Lemma lazy_group_none close s : contains s close = false → lazy_group close s = None.
Proof.
  induction s as [|c s IH]; cbn [contains lazy_group].
  - now intros [-> _]%orb_false_iff.
  - intros [-> H]%orb_false_iff. now rewrite IH.
Qed.

(** Without a closing literal ahead there is no match at all. *)
Lemma findall_none r s : ∀ k, contains s (re_close r) = false → findall_from r s k = [].
Proof.
  induction s as [|c s IH]; intros k H; [reflexivity|].
  pose proof (contains_tail _ _ _ H) as Hs.
  destruct k as [|k]; cbn [findall_from]; [|auto].
  rewrite (lazy_group_none _ _ (contains_drop _ _ _ H)).
  destruct (startswith _ _); auto.
Qed.

Lemma length_app a b :
  String.length (a +:+ b) = (String.length a + String.length b)%nat.
Proof. induction a; simpl; auto. Qed.

Lemma app_assoc a b c : (a +:+ b) +:+ c = a +:+ b +:+ c.
Proof. induction a; simpl; congruence. Qed.

(** A match at the very start of the text. *)
Lemma findall_hit r g rest :
  re_open r ≠ "" →
  lazy_group (re_close r) (g +:+ re_close r +:+ rest) = Some g →
  findall_from r (re_open r +:+ g +:+ re_close r +:+ rest) O
  = g :: findall_from r rest O.
Proof.
  intros Hne Hg. destruct (re_open r) as [|c o] eqn:Eo; [done|].
  change (String c o +:+ g +:+ re_close r +:+ rest)
    with (String c (o +:+ g +:+ re_close r +:+ rest)).
  cbn [findall_from]. rewrite Eo.
  change (String c (o +:+ g +:+ re_close r +:+ rest))
    with (String c o +:+ g +:+ re_close r +:+ rest).
  rewrite startswith_self, drop_app, Hg. f_equal.
  rewrite findall_skip. f_equal.
  replace (String.length (String c o) + String.length g
           + String.length (re_close r) - 1)%nat
    with (String.length o + (String.length g + String.length (re_close r)))%nat
    by (simpl; lia).
  now rewrite !drop_drop, !drop_app.
Qed.

(** At the opening fence of the block the pattern with the block's own tag
    matches, its group is the body, and nothing matches behind the block. *)
Lemma findall_block t body post :
  fence_free body → fence_free post →
  findall_from (fence_regexp t)
    (FENCE +:+ t +:+ NL +:+ body +:+ NL +:+ FENCE +:+ post) O = [body].
Proof.
  intros Hb Hp.
  pose proof (findall_hit (fence_regexp t) body post) as H.
  cbn [fence_regexp re_open re_close] in H.
  rewrite !app_assoc in H. rewrite H.
  - f_equal. apply findall_none, fence_free_no_close, Hp.
  - discriminate.
  - rewrite <- (app_assoc NL). now apply lazy_group_body.
Qed.

Lemma fence_free_seam a c z :
  fence_free a → c ≠ backtick → fence_free (String c z) →
  fence_free (a +:+ String c z).
Proof.
  intros Ha Hc Hz. induction a as [|d a IH]; [assumption|].
  apply fence_free_cons in Ha as [Hm Ha].
  change (String d a +:+ String c z) with (String d (a +:+ String c z)).
  apply fence_free_cons. auto using startswith_seam.
Qed.

Lemma fence_free_newline_cons z : fence_free z → fence_free (String newline z).
Proof. intros H. apply fence_free_cons. split; [reflexivity | assumption]. Qed.

(** The rest of the block behind the first backtick of its opening fence. *)
Lemma fence_free_inside tag body :
  tick_free tag → fence_free body →
  fence_free (String backtick (String backtick (tag +:+ NL +:+ body +:+ NL))).
Proof.
  intros Ht Hb. rewrite !NL_app.
  assert (fence_free (body +:+ NL)) as Hbn.
  { apply fence_free_seam; auto using newline_not_tick. reflexivity. }
  assert (fence_free (tag +:+ String newline (body +:+ NL))) as H.
  { apply fence_free_seam;
      auto using tick_free_fence_free, newline_not_tick, fence_free_newline_cons. }
  pose proof (tick_free_starts tag (body +:+ NL) Ht) as Hs.
  destruct (tag +:+ String newline (body +:+ NL)) as [|c s]; [reflexivity|].
  simpl in Hs. do 2 (apply fence_free_cons; split; [simpl; tick_cases|]).
  assumption.
Qed.

(** A pattern whose tag differs from the block's tag finds nothing. *)
Lemma findall_other_tag t tag body post :
  tick_free t → tick_free tag → fence_free body → fence_free post →
  (∀ z, startswith (tag +:+ NL +:+ z) (t +:+ NL) = false) →
  findall_from (fence_regexp t)
    (FENCE +:+ tag +:+ NL +:+ body +:+ NL +:+ FENCE +:+ post) O = [].
Proof.
  intros Ht Htag Hb Hp Hdiff.
  change (FENCE +:+ tag +:+ NL +:+ body +:+ NL +:+ FENCE +:+ post)
    with (String backtick (String backtick (String backtick
            (tag +:+ NL +:+ body +:+ NL +:+ FENCE +:+ post)))).
  rewrite findall_miss.
  2:{ change (re_open (fence_regexp t)) with (FENCE +:+ (t +:+ NL)).
      rewrite startswith_app. cbn [String.length drop FENCE].
      rewrite Hdiff. apply andb_false_r. }
  replace (String backtick (String backtick
             (tag +:+ NL +:+ body +:+ NL +:+ FENCE +:+ post)))
    with (String backtick (String backtick (tag +:+ NL +:+ body +:+ NL))
            +:+ FENCE +:+ post)
    by (repeat first [rewrite app_assoc | progress simpl]; reflexivity).
  rewrite findall_before_fence by auto using fence_free_inside.
  apply findall_none. cbn [fence_regexp re_close].
  pose proof (fence_free_no_close post Hp) as Hc.
  change (FENCE +:+ post)
    with (String backtick (String backtick (String backtick post))).
  cbn [contains]. rewrite Hc. reflexivity.
Qed.

Lemma accepted_tag_tick_free t : accepted_tag t → tick_free t.
Proof. intros [-> | [-> | ->]]; simpl; repeat split; discriminate. Qed.

Lemma first_single_match_block pre tag body post :
  accepted_tag tag → fence_free pre → fence_free body → fence_free post →
  first_single_match CODE_REGEXPS
    (pre +:+ FENCE +:+ tag +:+ NL +:+ body +:+ NL +:+ FENCE +:+ post)
  = Some (strip body).
Proof.
  intros Htag Hpre Hb Hp. rewrite CODE_REGEXPS_tags.
  assert (∀ t, accepted_tag t → tick_free t) as Htf
    by apply accepted_tag_tick_free.
  assert (accepted_tag "python" ∧ accepted_tag " python" ∧ accepted_tag "")
    as (A1 & A2 & A3) by (unfold accepted_tag; auto).
  cbn [fmap list_fmap first_single_match]. unfold findall.
  rewrite !findall_before_fence by auto.
  destruct Htag as [-> | [-> | ->]].
  - now rewrite findall_block.
  - rewrite findall_other_tag by (auto; reflexivity).
    now rewrite findall_block.
  - rewrite !findall_other_tag by (auto; reflexivity).
    now rewrite findall_block.
Qed.

Lemma extract_code_failure response n :
  extract_code response = FailedExtractingCode n → n = count response FENCE.
Proof.
  unfold extract_code. destruct (_ =? _)%nat; [destruct first_single_match|];
    congruence.
Qed.

(** C2. A response with exactly one fenced block carrying an accepted
    language tag yields the block's content, stripped of leading and trailing
    whitespace; a response with no block, or with two blocks or more, raises
    FailedExtractingCode with the number of fence delimiters counted in the
    response (two per block). *)
Theorem extract_code_by_block_count seg0 blocks :
  fence_free seg0 → Forall well_formed blocks →
  (∀ b post, blocks = [(b, post)] → accepted_tag (block_tag b) →
     extract_code (render seg0 blocks) = Code (strip (block_body b)))
  ∧ (length blocks ≠ 1%nat →
     extract_code (render seg0 blocks)
     = FailedExtractingCode (count (render seg0 blocks) FENCE)
     ∧ count (render seg0 blocks) FENCE = (2 * length blocks)%nat).
Proof.
  intros H0 Hwf. pose proof (count_render blocks seg0 H0 Hwf) as Hn. split.
  - intros [tag body] post -> Htag. unfold extract_code. rewrite Hn.
    apply Forall_cons in Hwf as [(_ & Hb & Hp) _]. simpl in Hb, Hp, Htag.
    cbn [length Nat.mul Nat.add Nat.eqb render block_tag block_body].
    now rewrite first_single_match_block.
  - intros Hlen. split; [|exact Hn]. unfold extract_code. rewrite Hn.
    destruct (Nat.eqb_spec (2 * length blocks) 2); [lia | reflexivity].
Qed.

Lemma extract_code_by_block_count_witness :
  extract_code
    (render "Here it is:" [(Block "python" (" print(1) " +:+ NL), "Done.")])
  = Code "print(1)"
  ∧ extract_code
      (render "" [(Block "" "a = 1", " and "); (Block "python" "b = 2", "")])
    = FailedExtractingCode 4.
Proof.
  split.
  - refine (proj1 (extract_code_by_block_count "Here it is:"
                     [(Block "python" (" print(1) " +:+ NL), "Done.")] _ _)
              _ _ eq_refl _).
    + reflexivity.
    + repeat constructor; simpl; discriminate.
    + left. reflexivity.
  - refine (proj1 (proj2 (extract_code_by_block_count ""
                     [(Block "" "a = 1", " and "); (Block "python" "b = 2", "")]
                     _ _) _)).
    + reflexivity.
    + repeat constructor; simpl; discriminate.
    + simpl. lia.
Defined.

End CodeRunnerProofs.

(** * Properties of the output-file requirements *)

Module DictFacts.
Import Py.

Section Dict.
Context {K V : Type} `{EqDecision K}.
Implicit Types (d : list (K * V)) (k : K) (v : V).

Lemma dict_get_set_eq k v d : dict_get k (dict_set k v d) = Some v.
Proof.
  induction d as [|[k' v'] d IH]; simpl.
  - by rewrite decide_True.
  - destruct (decide (k = k')) as [->|Hne]; simpl.
    + by rewrite decide_True.
    + by rewrite decide_False.
Qed.

Lemma dict_get_set_ne k k' v d : k ≠ k' → dict_get k' (dict_set k v d) = dict_get k' d.
Proof.
  intros Hne. induction d as [|[k0 v0] d IH]; simpl.
  - by rewrite decide_False.
  - destruct (decide (k = k0)) as [->|Hne0]; simpl.
    + by rewrite !decide_False.
    + destruct (decide (k' = k0)); auto.
Qed.

Lemma dict_get_None k d : dict_get k d = None ↔ k ∉ d.*1.
Proof.
  induction d as [|[k' v'] d IH]; simpl.
  - split; [intros _; apply not_elem_of_nil | done].
  - rewrite not_elem_of_cons. destruct (decide (k = k')); [|tauto].
    split; [done | tauto].
Qed.

Lemma dict_get_Some_in k v d : dict_get k d = Some v → (k, v) ∈ d.
Proof.
  induction d as [|[k' v'] d IH]; simpl; [done|].
  destruct (decide (k = k')) as [->|]; [intros [= ->]; left | right; auto].
Qed.

End Dict.

Section ListValues.
Context {K A : Type} `{EqDecision K}.
Implicit Types (d : list (K * list A)) (k : K).

(** Appending to the list stored under a key adds one element to the
    dictionary's values, whether or not the key was there. *)
Lemma concat_values_append k (x : A) d :
  concat (dict_set k (default [] (dict_get k d) ++ [x]) d).*2 ≡ₚ x :: concat d.*2.
Proof.
  induction d as [|[k' l'] d IH]; simpl; [done|].
  destruct (decide (k = k')) as [->|Hne]; simpl.
  - by rewrite <- Permutation_cons_append.
  - rewrite IH. by rewrite Permutation_middle.
Qed.

End ListValues.

End DictFacts.

Module OutputFilesProofs.
Import Py RunIssues OutputFiles DictFacts.

Section Reconcile.
Context `{Imports}.
Implicit Types (self : list OutputFileRequirement) (r : OutputFileRequirement).

Lemma matching_requirement_first self name r :
  matching_requirement self name = Some r ↔ first_match self name r.
Proof.
  induction self as [|x self IH]; simpl.
  - split; [done|]. intros (before & after & E & _). by destruct before.
  - destruct (matches x name) eqn:Hx.
    + split.
      * intros [= ->]. exists [], self. split_and!; [done..|].
        intros ? []%elem_of_nil.
      * intros (before & after & E & Hr & Hb). destruct before as [|y before].
        -- by injection E as ->.
        -- injection E as -> _. rewrite Hb in Hx; [done | left].
    + rewrite IH. split.
      * intros (before & after & -> & Hr & Hb). exists (x :: before), after.
        split_and!; [done..|]. intros y [->|?]%elem_of_cons; auto.
      * intros (before & after & E & Hr & Hb). destruct before as [|y before].
        -- injection E as -> _. congruence.
        -- injection E as -> ->. exists before, after.
           split_and!; [done..|]. intros ??. apply Hb. by right.
Qed.

Lemma matching_requirement_none self name :
  matching_requirement self name = None ↔ ∀ r, r ∈ self → matches r name = false.
Proof.
  induction self as [|x self IH]; simpl.
  - split; [|done]. intros _ ? []%elem_of_nil.
  - destruct (matches x name) eqn:Hx.
    + split; [done|]. intros Hall. rewrite Hall in Hx; [done | left].
    + rewrite IH. split.
      * intros Hall r [->|?]%elem_of_cons; auto.
      * intros Hall r ?. apply Hall. by right.
Qed.

Lemma matching_requirement_elem self name r :
  matching_requirement self name = Some r → r ∈ self.
Proof.
  intros (before & after & -> & _)%matching_requirement_first.
  apply elem_of_app. right. left.
Qed.

Lemma fold_empty_get self : ∀ (d0 : list (OutputFileRequirement * list string)) r,
  dict_get r (foldl (λ d requirement, dict_set requirement [] d) d0 self)
  = if decide (r ∈ self) then Some [] else dict_get r d0.
Proof.
  induction self as [|x self IH]; intros d0 r; cbn [foldl].
  - destruct (decide (r ∈ [])) as [[]%elem_of_nil|]; done.
  - rewrite IH. destruct (decide (r ∈ self)) as [Hin|Hnin].
    + rewrite decide_True; [done | by right].
    + destruct (decide (x = r)) as [->|Hne].
      * rewrite dict_get_set_eq, decide_True; [done | left].
      * rewrite dict_get_set_ne by done. rewrite decide_False; [done|].
        intros [->|?]%elem_of_cons; done.
Qed.

Lemma empty_assignment_get self r :
  dict_get r (empty_assignment self) = if decide (r ∈ self) then Some [] else None.
Proof. apply fold_empty_get. Qed.

Lemma dict_set_nil_values (d : list (OutputFileRequirement * list string)) r :
  concat d.*2 = [] → concat (dict_set r [] d).*2 = [].
Proof.
  induction d as [|[k l] d IH]; simpl; [done|].
  intros [-> Hd]%app_eq_nil. destruct (decide (r = k)); simpl; auto.
Qed.

Lemma empty_assignment_values self : concat (empty_assignment self).*2 = [].
Proof.
  unfold empty_assignment.
  assert (∀ d0 : list (OutputFileRequirement * list string),
            concat d0.*2 = [] →
            concat (foldl (λ d requirement, dict_set requirement [] d) d0 self).*2 = [])
    as Hgen.
  { induction self as [|x self IH]; intros d0 H0; simpl; [done|].
    apply IH. by apply dict_set_nil_values. }
  by apply Hgen.
Qed.

(** The loop over the created files, from any dictionary that has every
    requirement as a key. *)
Lemma assign_files_spec self created : ∀ d0 u0,
  (∀ r, r ∈ self → is_Some (dict_get r d0)) →
  let res := assign_files self created d0 u0 in
  (∀ r, dict_get r res.1
        = (λ l, l ++ filter (λ f, matching_requirement self f = Some r) created)
            <$> dict_get r d0)
  ∧ res.2 = u0 ++ filter (λ f, matching_requirement self f = None) created
  ∧ concat res.1.*2 ++ res.2 ≡ₚ (concat d0.*2 ++ u0) ++ created.
Proof.
  induction created as [|f rest IH]; intros d0 u0 Hkeys; simpl.
  - split_and!.
    + intros r. destruct (dict_get r d0); simpl; by rewrite ?app_nil_r.
    + by rewrite app_nil_r.
    + by rewrite app_nil_r.
  - destruct (matching_requirement self f) as [r0|] eqn:Hm.
    + pose proof (matching_requirement_elem _ _ _ Hm) as Hin.
      destruct (Hkeys r0 Hin) as [l0 Hl0].
      set (d1 := dict_set r0 (default [] (dict_get r0 d0) ++ [f]) d0).
      destruct (IH d1 u0) as (Hget & Hun & Hperm).
      { intros r Hr. subst d1. destruct (decide (r0 = r)) as [->|Hne].
        - rewrite dict_get_set_eq. eauto.
        - rewrite dict_get_set_ne by done. auto. }
      split_and!.
      * intros r. rewrite Hget. subst d1. destruct (decide (r0 = r)) as [->|Hne].
        -- rewrite dict_get_set_eq, Hl0. simpl.
           rewrite filter_cons_True by done. by rewrite <- app_assoc.
        -- rewrite dict_get_set_ne by done.
           rewrite filter_cons_False by congruence. done.
      * rewrite Hun. by rewrite filter_cons_False by congruence.
      * rewrite Hperm. subst d1. rewrite concat_values_append.
        simpl. by rewrite <- Permutation_middle.
    + destruct (IH d0 (u0 ++ [f]) Hkeys) as (Hget & Hun & Hperm).
      split_and!.
      * intros r. rewrite Hget. by rewrite filter_cons_False by congruence.
      * rewrite Hun. rewrite filter_cons_True by done. by rewrite <- app_assoc.
      * rewrite Hperm. rewrite !app_assoc.
        by rewrite <- (app_assoc _ [f] rest).
Qed.

(** The lists of the reconciliation, as selections from the created files. *)
Lemma reconcile_lists self created :
  let res := _get_requirements_to_output_files_and_unmatched_files self created in
  (∀ r, dict_get r res.1
        = if decide (r ∈ self)
          then Some (filter (λ f, matching_requirement self f = Some r) created)
          else None)
  ∧ res.2 = filter (λ f, matching_requirement self f = None) created
  ∧ concat res.1.*2 ++ res.2 ≡ₚ created.
Proof.
  unfold _get_requirements_to_output_files_and_unmatched_files.
  destruct (assign_files_spec self created (empty_assignment self) [])
    as (Hget & Hun & Hperm).
  { intros r Hr. rewrite empty_assignment_get, decide_True by done. eauto. }
  cbv zeta. split_and!.
  - intros r. rewrite Hget, empty_assignment_get. by destruct (decide (r ∈ self)).
  - done.
  - by rewrite Hperm, empty_assignment_values.
Qed.

Lemma first_match_elem self f r : first_match self f r → r ∈ self.
Proof. intros (before & after & -> & _). apply elem_of_app. right. left. Qed.

(** C3. Reconciliation puts every created file under the first requirement,
    in declaration order, whose pattern matches it and under no other, and puts
    the files that no requirement matches in the list of unmatched files; the
    lists of the dictionary and the unmatched list together hold the created
    files, each as often as it was created. *)
Theorem reconcile_first_match_wins self created :
  let res := _get_requirements_to_output_files_and_unmatched_files self created in
  (∀ f r, f ∈ created → first_match self f r →
     ∃ l, dict_get r res.1 = Some l ∧ f ∈ l)
  ∧ (∀ f r l, dict_get r res.1 = Some l → f ∈ l →
       f ∈ created ∧ first_match self f r)
  ∧ (∀ f, f ∈ res.2 ↔ f ∈ created ∧ ∀ r, r ∈ self → matches r f = false)
  ∧ concat res.1.*2 ++ res.2 ≡ₚ created.
Proof.
  destruct (reconcile_lists self created) as (Hget & Hun & Hperm).
  cbv zeta. split_and!.
  - intros f r Hf Hfirst.
    rewrite Hget, decide_True by (by eapply first_match_elem).
    eexists. split; [done|]. apply list_elem_of_filter.
    split; [by apply matching_requirement_first | done].
  - intros f r l. rewrite Hget.
    destruct (decide (r ∈ self)); [|done]. intros [= <-].
    intros [Hm Hf]%list_elem_of_filter. split; [done|].
    by apply matching_requirement_first.
  - intros f. rewrite Hun. rewrite list_elem_of_filter.
    rewrite matching_requirement_none. tauto.
  - done.
Qed.

End Reconcile.

Section SingleContentFile.
Context `{Imports}.
Implicit Types (self : list OutputFileRequirement) (r : OutputFileRequirement).

Lemma filter_singleton {A} (p : A → bool) (l : list A) (a : A) :
  List.filter p l = [a]
  ↔ ∃ before after, l = before ++ a :: after ∧ p a = true
                    ∧ ∀ x, x ∈ before ++ after → p x = false.
Proof.
  revert a. induction l as [|y l IH]; intros a; simpl.
  - split; [done|]. intros (before & after & E & _). by destruct before.
  - destruct (p y) eqn:Hy.
    + split.
      * intros [= -> Hnil]. exists [], l. split_and!; [done..|].
        intros x Hx. simpl in Hx.
        destruct (p x) eqn:Hpx; [|done].
        assert (In x (List.filter p l)) as Hin
          by (apply filter_In; split; [by apply list_elem_of_In | done]).
        rewrite Hnil in Hin. destruct Hin.
      * intros (before & after & E & Ha & Hrest). destruct before as [|z before].
        -- injection E as -> ->. f_equal.
           destruct (List.filter p after) as [|w rest] eqn:Hf; [done|].
           assert (In w (List.filter p after)) as Hin by (rewrite Hf; left; done).
           apply filter_In in Hin as [Hin Hpw].
           rewrite Hrest in Hpw; [done | by apply list_elem_of_In].
        -- injection E as -> _. rewrite Hrest in Hy; [done | left].
    + rewrite IH. split.
      * intros (before & after & -> & Ha & Hrest). exists (y :: before), after.
        split_and!; [done..|]. intros x [->|?]%elem_of_cons; auto.
      * intros (before & after & E & Ha & Hrest). destruct before as [|z before].
        -- injection E as -> _. congruence.
        -- injection E as -> ->. exists before, after.
           split_and!; [done..|]. intros x Hx. apply Hrest. by right.
Qed.

Lemma single_content_requirement_reflect r :
  is_content r && negb (is_wildcard r) && (minimal_count (fields r) =? 1) = true
  ↔ single_content_requirement r.
Proof.
  unfold single_content_requirement.
  rewrite !andb_true_iff, negb_true_iff, Z.eqb_eq. tauto.
Qed.

Lemma filter_only self r :
  List.filter (λ req, is_content req && negb (is_wildcard req)
                      && (minimal_count (fields req) =? 1)) self = [r]
  ↔ only_single_content_requirement self r.
Proof.
  rewrite filter_singleton. unfold only_single_content_requirement.
  split; intros (before & after & E & Hr & Hrest); exists before, after;
    (split_and!; [done|..]).
  - by apply single_content_requirement_reflect.
  - intros other Ho Hs%single_content_requirement_reflect.
    rewrite (Hrest _ Ho) in Hs. done.
  - by apply single_content_requirement_reflect.
  - intros x Hx. apply not_true_is_false.
    intros Hs%single_content_requirement_reflect. by destruct (Hrest x Hx).
Qed.

(** C10. get_single_content_file returns the file name of a requirement
    exactly when that requirement is the only one that bears content, is no
    wildcard and has minimal_count 1; it returns None exactly when there is no
    such only requirement (none qualifies, or more than one does). *)
Theorem get_single_content_file_spec self :
  (∀ name, get_single_content_file self = Some name
           ↔ ∃ r, only_single_content_requirement self r
                  ∧ filename (fields r) = name)
  ∧ (get_single_content_file self = None
     ↔ ¬ ∃ r, only_single_content_requirement self r).
Proof.
  unfold get_single_content_file.
  set (p := λ req, is_content req && negb (is_wildcard req)
                   && (minimal_count (fields req) =? 1)).
  pose proof (filter_only self) as Hone. fold p in Hone.
  destruct (List.filter p self) as [|r [|r' rest]] eqn:Hf.
  - split.
    + intros name. split; [done|]. intros (r & Hr%Hone & _). done.
    + split; [|done]. intros _ (r & Hr%Hone). done.
  - split.
    + intros name. split.
      * intros [= <-]. exists r. split; [by apply Hone | done].
      * intros (r0 & Hr%Hone & <-). by injection Hr as ->.
    + split; [done|]. intros Hno. destruct Hno. exists r. by apply Hone.
  - split.
    + intros name. split; [done|]. intros (r0 & Hr%Hone & _). done.
    + split; [|done]. intros _ (r0 & Hr%Hone). done.
Qed.

End SingleContentFile.

Section ContentIssues.
Context `{Imports}.

(** C4. For a text-content requirement, content that is empty once stripped
    produces exactly one issue with the code OutputFileContentLevelA; content
    whose token count exceeds max_tokens produces exactly one issue with the
    code OutputFileContentLevelC, its text being the too-long template
    formatted with the file name and the preview
    extract_to_nearest_newline(content, max_tokens); content that is neither
    produces no issue. *)
Theorem text_content_issues f hp max_tokens name c :
  ∃ issues,
    get_issues_for_output_file_content
      (TextContentOutputFileRequirement f hp max_tokens) name (Text c) = inr issues
    ∧ (String.length (PyStr.strip c) = 0%nat →
       List.filter (has_code OutputFileContentLevelA) issues = [empty_file_issue name])
    ∧ (∀ m, max_tokens = Some m →
            m < count_number_of_tokens_in_message c max_ModelEngine →
            ∃ i, List.filter (has_code OutputFileContentLevelC) issues = [i]
                 ∧ issue i = str_format (dedent_triple_quote_str TOO_LONG_TEMPLATE)
                               [name; extract_to_nearest_newline c m])
    ∧ (String.length (PyStr.strip c) ≠ 0%nat →
       (∀ m, max_tokens = Some m →
             count_number_of_tokens_in_message c max_ModelEngine ≤ m) →
       issues = []).
Proof.
  eexists. split; [reflexivity|]. unfold text_get_issues, base_get_issues.
  split_and!.
  - intros ->. simpl. destruct max_tokens as [m|]; [|done].
    destruct (m <? _); done.
  - intros m -> Hm. apply Z.ltb_lt in Hm. rewrite Hm.
    destruct (_ =? _)%nat; simpl; eexists; (split; [reflexivity|]); reflexivity.
  - intros Hne Hfit. apply Nat.eqb_neq in Hne. rewrite Hne.
    destruct max_tokens as [m|]; [|done].
    specialize (Hfit m eq_refl). apply Z.ltb_ge in Hfit. by rewrite Hfit.
Qed.

(** The two checks are independent: whitespace that exceeds the budget gets
    both issues. *)
Lemma text_content_both_issues max_tokens name c m :
  String.length (PyStr.strip c) = 0%nat → max_tokens = Some m →
  m < count_number_of_tokens_in_message c max_ModelEngine →
  text_get_issues max_tokens name c
  = [empty_file_issue name; too_long_issue name (extract_to_nearest_newline c m)].
Proof.
  intros Hc -> Hm%Z.ltb_lt. unfold text_get_issues, base_get_issues.
  by rewrite Hc, Hm.
Qed.

(** C7, as the code has it. Rendering a numeric text-content requirement
    rounds what the base class renders, with the requirement's target and
    source precision; its validation is the one inherited from the base content
    class, which reports no issue whatever the content and the precision, so the
    non-empty and token-budget checks of the text-content class are not made. *)
Theorem numeric_text_content_methods f hp target_precision source_precision
    (c : content) name (pvalue_on_str : option OnStr) issue_name :
  get_pretty_content
    (NumericTextContentOutputFileRequirement f hp target_precision source_precision)
    c name pvalue_on_str
  = inr (round_floats (base_get_pretty_content c name pvalue_on_str)
           target_precision source_precision)
  ∧ get_issues_for_output_file_content
      (NumericTextContentOutputFileRequirement f hp target_precision source_precision)
      issue_name c
    = inr [].
Proof. split; reflexivity. Qed.

End ContentIssues.

Section ContentExamples.
Import ExampleImports.
Existing Instance example_imports.

Example text_content_issues_example :
  get_issues_for_output_file_content
    (TextContentOutputFileRequirement out_txt None (Some 3)) "out.txt" (Text "  ")
  = inr [empty_file_issue "out.txt"]
  ∧ ∃ i, get_issues_for_output_file_content
           (TextContentOutputFileRequirement out_txt None (Some 3)) "out.txt"
           (Text "a long line")
         = inr [i]
         ∧ PyStr.contains (issue i) "a l" = true.
Proof.
  split; [reflexivity|]. eexists. split; [reflexivity|]. vm_compute. reflexivity.
Qed.

(** C7 as stated fails: on an empty file the text-content requirement reports
    the empty-file issue, the numeric text-content requirement with the same
    fields reports nothing. *)
Lemma numeric_text_content_skips_checks :
  get_issues_for_output_file_content
    (TextContentOutputFileRequirement out_txt None None) "out.txt" (Text "")
  = inr [empty_file_issue "out.txt"]
  ∧ get_issues_for_output_file_content
      (NumericTextContentOutputFileRequirement out_txt None 4 10) "out.txt" (Text "")
    = inr [].
Proof. split; reflexivity. Qed.

End ContentExamples.

Section Conversion.
Context `{Imports}.
Implicit Types (self : list OutputFileRequirement) (r : OutputFileRequirement).
Implicit Types (fs : gmap string string).

(** One matched file: the content is decoded from the file as it is before
    the call, and the file is gone afterwards unless it is retained. *)
Lemma get_content_and_delete_spec r path fs data c :
  fs !! path = Some data → decode r data = Some c →
  get_content_and_delete_if_needed r path fs
  = Returned c (if retained r then fs else delete path fs).
Proof.
  intros Hfs Hdec.
  unfold get_content_and_delete_if_needed, get_content, delete_if_needed, retained.
  destruct r; simpl in Hdec; rewrite ?Hfs; simplify_eq;
    try (destruct (pickle_load data); simplify_eq/=);
    destruct (truth _); simpl; by rewrite ?Hfs.
Qed.

Lemma dict_set_keys_NoDup {K V} `{EqDecision K} (k : K) (v : V) d :
  NoDup d.*1 → NoDup (dict_set k v d).*1.
Proof.
  induction d as [|[k' v'] d IH]; simpl.
  - intros _. apply NoDup_singleton.
  - intros [Hk' Hd]%NoDup_cons. destruct (decide (k = k')) as [->|Hne]; simpl.
    + by apply NoDup_cons.
    + apply NoDup_cons. split; [|auto].
      intros Hin. apply Hk'. clear -Hin Hne.
      induction d as [|[k0 v0] d IH]; simpl in *.
      * apply list_elem_of_singleton in Hin. congruence.
      * destruct (decide (k = k0)) as [->|]; simpl in *; [done|].
        apply elem_of_cons in Hin as [->|Hin]; [left | right; auto].
Qed.

Lemma dict_get_of_elem {K V} `{EqDecision K} (k : K) (v : V) d :
  NoDup d.*1 → (k, v) ∈ d → dict_get k d = Some v.
Proof.
  induction d as [|[k' v'] d IH]; simpl; [by intros _ ?%elem_of_nil|].
  intros [Hk' Hd]%NoDup_cons [[= -> ->]|Hin]%elem_of_cons.
  - by rewrite decide_True.
  - rewrite decide_False; [auto|]. intros ->. apply Hk'.
    apply list_elem_of_fmap. by exists (k', v).
Qed.

Lemma empty_assignment_NoDup self : NoDup (empty_assignment self).*1.
Proof.
  unfold empty_assignment.
  assert (∀ d0 : list (OutputFileRequirement * list string),
            NoDup d0.*1 →
            NoDup (foldl (λ d requirement, dict_set requirement [] d) d0 self).*1)
    as Hgen.
  { induction self as [|x self IH]; intros d0 H0; simpl; [done|].
    apply IH. by apply dict_set_keys_NoDup. }
  apply Hgen. constructor.
Qed.

Lemma assign_files_NoDup self created : ∀ d0 u0,
  NoDup d0.*1 → NoDup (assign_files self created d0 u0).1.*1.
Proof.
  induction created as [|f rest IH]; intros d0 u0 H0; simpl; [done|].
  destruct (matching_requirement self f); apply IH; [|done].
  by apply dict_set_keys_NoDup.
Qed.

(** The files of one requirement: all are decoded from the files as they
    were before, and all are deleted unless the requirement retains them. *)
Lemma contents_of_files_spec r run_folder output_files : ∀ so_far fs,
  NoDup (file_path run_folder <$> output_files) →
  (∀ f, f ∈ output_files →
     ∃ data c, fs !! file_path run_folder f = Some data ∧ decode r data = Some c) →
  ∃ contents fs',
    contents_of_files r run_folder output_files so_far fs = Returned contents fs'
    ∧ (∀ p, fs' !! p
            = if retained r then fs !! p
              else if decide (p ∈ file_path run_folder <$> output_files) then None
                   else fs !! p)
    ∧ (∀ f, dict_get f contents
            = if decide (f ∈ output_files)
              then fs !! file_path run_folder f ≫= decode r
              else dict_get f so_far).
Proof.
  induction output_files as [|f rest IH]; intros so_far fs Hnd Hex.
  - exists so_far, fs. split_and!; [done| |].
    + intros p. destruct (retained r); [done|].
      destruct (decide (p ∈ _)) as [[]%elem_of_nil|]; done.
    + intros g. destruct (decide (g ∈ [])) as [[]%elem_of_nil|]; done.
  - rewrite fmap_cons in Hnd. apply NoDup_cons in Hnd as [Hf Hnd].
    destruct (Hex f) as (data & c & Hdata & Hdec); [left|].
    set (fs1 := if retained r then fs else delete (file_path run_folder f) fs).
    assert (∀ g, g ∈ rest →
              fs1 !! file_path run_folder g = fs !! file_path run_folder g) as Hsame.
    { intros g Hg. subst fs1. destruct (retained r); [done|].
      apply lookup_delete_ne. intros E. apply Hf. rewrite E.
      apply list_elem_of_fmap. eauto. }
    destruct (IH (dict_set f c so_far) fs1 Hnd) as (contents & fs' & Hrun & Hfs & Hget).
    { intros g Hg. rewrite (Hsame g Hg). apply Hex. by right. }
    exists contents, fs'. split_and!.
    + cbn [contents_of_files].
      by rewrite (get_content_and_delete_spec _ _ _ _ _ Hdata Hdec).
    + intros p. rewrite Hfs. subst fs1. destruct (retained r); [done|].
      rewrite fmap_cons.
      destruct (decide (p ∈ file_path run_folder <$> rest)) as [Hin|Hnin].
      * rewrite decide_True; [done | by right].
      * destruct (decide (p = file_path run_folder f)) as [->|Hne].
        -- rewrite lookup_delete_eq, decide_True; [done | left].
        -- rewrite lookup_delete_ne by done. rewrite decide_False; [done|].
           intros [?|?]%elem_of_cons; done.
    + intros g. rewrite Hget.
      destruct (decide (g ∈ rest)) as [Hin|Hnin].
      * rewrite decide_True by (by right). by rewrite (Hsame g Hin).
      * destruct (decide (f = g)) as [<-|Hne].
        -- rewrite dict_get_set_eq, decide_True by left.
           by rewrite Hdata.
        -- rewrite dict_get_set_ne by done. rewrite decide_False; [done|].
           intros [?|?]%elem_of_cons; done.
Qed.

Lemma elem_of_concat {A} (x : A) (ls : list (list A)) :
  x ∈ concat ls ↔ ∃ l, l ∈ ls ∧ x ∈ l.
Proof.
  rewrite list_elem_of_In, in_concat.
  split; intros (l & Hl & Hx); exists l; split; by apply list_elem_of_In.
Qed.

(** The files of all requirements. *)
Lemma contents_of_requirements_spec run_folder items : ∀ so_far fs,
  NoDup items.*1 →
  NoDup (file_path run_folder <$> concat items.*2) →
  (∀ r output_files f, (r, output_files) ∈ items → f ∈ output_files →
     ∃ data c, fs !! file_path run_folder f = Some data ∧ decode r data = Some c) →
  ∃ result fs',
    contents_of_requirements run_folder items so_far fs = Returned result fs'
    ∧ (∀ p, fs' !! p
            = if decide (p ∈ deleted_paths run_folder items) then None else fs !! p)
    ∧ (∀ r output_files, (r, output_files) ∈ items →
         ∃ contents, dict_get r result = Some contents
           ∧ ∀ f, f ∈ output_files →
                  dict_get f contents = fs !! file_path run_folder f ≫= decode r)
    ∧ (∀ r, r ∉ items.*1 → dict_get r result = dict_get r so_far).
Proof.
  induction items as [|[r0 files0] items IH]; intros so_far fs Hkeys Hnd Hex.
  - exists so_far, fs. split_and!; [done| | |done].
    + intros p. destruct (decide (p ∈ _)) as [[]%elem_of_nil|]; done.
    + intros ?? []%elem_of_nil.
  - rewrite fmap_cons in Hkeys. apply NoDup_cons in Hkeys as [Hr0 Hkeys].
    rewrite fmap_cons in Hnd. cbn [concat snd] in Hnd. rewrite fmap_app in Hnd.
    apply NoDup_app in Hnd as (Hnd0 & Hdisj & Hnd).
    destruct (contents_of_files_spec r0 run_folder files0 [] fs Hnd0)
      as (contents0 & fs1 & Hrun0 & Hfs1 & Hget0).
    { intros f Hf. apply (Hex r0 files0); [left | done]. }
    assert (∀ g, g ∈ concat items.*2 →
              fs1 !! file_path run_folder g = fs !! file_path run_folder g) as Hsame.
    { intros g Hg. rewrite Hfs1. destruct (retained r0); [done|].
      rewrite decide_False; [done|]. intros Hin. apply (Hdisj _ Hin).
      apply list_elem_of_fmap. eauto. }
    assert (∀ r output_files g, (r, output_files) ∈ items → g ∈ output_files →
              g ∈ concat items.*2) as Hconcat.
    { intros r output_files g Hitem Hg. apply elem_of_concat.
      exists output_files. split; [|done]. apply list_elem_of_fmap.
      by exists (r, output_files). }
    destruct (IH (dict_set r0 contents0 so_far) fs1 Hkeys Hnd)
      as (result & fs' & Hrun & Hfs & Hres & Hother).
    { intros r output_files f Hitem Hf.
      rewrite (Hsame f) by eauto. apply (Hex r output_files); [by right | done]. }
    exists result, fs'. split_and!.
    + cbn [contents_of_requirements]. by rewrite Hrun0.
    + intros p. rewrite Hfs, Hfs1. unfold deleted_paths. rewrite bind_cons. simpl.
      fold (deleted_paths run_folder items).
      destruct (decide (p ∈ deleted_paths run_folder items)) as [Hin|Hnin].
      * rewrite decide_True; [done|]. apply elem_of_app. by right.
      * destruct (retained r0); simpl.
        -- by rewrite decide_False.
        -- destruct (decide (p ∈ file_path run_folder <$> files0)) as [Hin0|Hnin0].
           ++ rewrite decide_True; [done|]. apply elem_of_app. by left.
           ++ rewrite decide_False; [done|]. by intros [?|?]%elem_of_app.
    + intros r output_files [[= -> ->]|Hitem]%elem_of_cons.
      * exists contents0. split.
        -- rewrite Hother by done. apply dict_get_set_eq.
        -- intros f Hf. rewrite Hget0. by rewrite decide_True.
      * destruct (Hres r output_files Hitem) as (contents & Hget & Hall).
        exists contents. split; [done|]. intros f Hf. rewrite (Hall f Hf).
        by rewrite (Hsame f) by eauto.
    + intros r [Hne Hnin]%not_elem_of_cons. rewrite (Hother r Hnin).
      by apply dict_get_set_ne.
Qed.

Lemma first_match_unique self f r r' :
  first_match self f r → first_match self f r' → r = r'.
Proof. intros H1%matching_requirement_first H2%matching_requirement_first. congruence. Qed.

(** C8. The conversion reads every matched file through the decoder of the
    requirement it is assigned to, from the files as they are before the
    conversion, and afterwards the file is gone exactly when that requirement
    does not retain its files; retained files, and every other path, are as
    they were. *)
Theorem convert_decodes_then_deletes self created run_folder fs :
  NoDup created →
  (∀ f g, f ∈ created → g ∈ created →
          file_path run_folder f = file_path run_folder g → f = g) →
  (∀ f r, f ∈ created → first_match self f r →
          ∃ data c, fs !! file_path run_folder f = Some data ∧ decode r data = Some c) →
  ∃ result fs',
    convert_to_output_file_requirements_with_content self created run_folder fs
    = Returned result fs'
    ∧ (∀ f r, f ∈ created → first_match self f r →
         ∃ contents,
           dict_get r result = Some contents
           ∧ dict_get f contents = fs !! file_path run_folder f ≫= decode r
           ∧ fs' !! file_path run_folder f
             = if retained r then fs !! file_path run_folder f else None)
    ∧ (∀ p, (∀ f r, f ∈ created → first_match self f r → retained r = false →
                    p ≠ file_path run_folder f) →
            fs' !! p = fs !! p).
Proof.
  intros Hnd Hinj Hex.
  unfold convert_to_output_file_requirements_with_content,
    get_requirements_to_output_files.
  assert (sorted created ≡ₚ created) as Hsorted by apply merge_sort_Permutation.
  destruct (reconcile_lists self (sorted created)) as (Hlist & _ & Hperm).
  set (items := (_get_requirements_to_output_files_and_unmatched_files
                   self (sorted created)).1) in *.
  assert (∀ f r, f ∈ sorted created → first_match self f r →
            ∃ l, dict_get r items = Some l ∧ f ∈ l) as Hin.
  { intros f r Hf Hfirst.
    rewrite Hlist, decide_True by (by eapply first_match_elem).
    eexists. split; [done|]. apply list_elem_of_filter.
    split; [by apply matching_requirement_first | done]. }
  assert (∀ f r l, dict_get r items = Some l → f ∈ l →
            f ∈ sorted created ∧ first_match self f r) as Hout.
  { intros f r l. rewrite Hlist.
    destruct (decide (r ∈ self)); [|done]. intros [= <-].
    intros [Hm Hf]%list_elem_of_filter. split; [done|].
    by apply matching_requirement_first. }
  assert (NoDup items.*1) as Hkeys
    by apply assign_files_NoDup, empty_assignment_NoDup.
  assert (∀ r l f, (r, l) ∈ items → f ∈ l → f ∈ created ∧ first_match self f r)
    as Hitem.
  { intros r l f Hrl Hf.
    destruct (Hout f r l) as [Hc Hfirst]; [by apply dict_get_of_elem | done |].
    by rewrite <- Hsorted. }
  assert (∀ f, f ∈ concat items.*2 → f ∈ created) as Hconcat.
  { intros f (l & Hl & Hf)%elem_of_concat.
    apply list_elem_of_fmap in Hl as ([r l'] & -> & Hrl).
    by apply (Hitem r l'). }
  destruct (contents_of_requirements_spec run_folder items [] fs Hkeys)
    as (result & fs' & Hrun & Hfs & Hres & _).
  { apply NoDup_fmap_2_strong; [by auto|].
    pose proof (transitivity Hperm Hsorted) as Hall. rewrite <- Hall in Hnd.
    by apply NoDup_app in Hnd as (? & _ & _). }
  { intros r l f Hrl Hf. destruct (Hitem r l f Hrl Hf). by apply Hex. }
  assert (∀ p, p ∈ deleted_paths run_folder items
               ↔ ∃ f r, f ∈ created ∧ first_match self f r ∧ retained r = false
                        ∧ p = file_path run_folder f) as Hdel.
  { intros p. unfold deleted_paths. rewrite list_elem_of_bind. split.
    - intros ([r l] & Hp & Hrl). simpl in Hp.
      destruct (retained r) eqn:Hret; [by apply elem_of_nil in Hp|].
      apply list_elem_of_fmap in Hp as (f & -> & Hf).
      destruct (Hitem r l f Hrl Hf). by exists f, r.
    - intros (f & r & Hf & Hfirst & Hret & ->).
      destruct (Hin f r) as (l & Hl & Hfl); [by rewrite Hsorted | done |].
      exists (r, l). simpl. rewrite Hret.
      split; [|by apply dict_get_Some_in]. apply list_elem_of_fmap. eauto. }
  exists result, fs'. split_and!; [done | |].
  - intros f r Hf Hfirst.
    destruct (Hin f r) as (l & Hl & Hfl); [by rewrite Hsorted | done |].
    destruct (Hres r l) as (contents & Hget & Hall); [by apply dict_get_Some_in|].
    exists contents. split_and!; [done | by apply Hall |].
    rewrite Hfs. destruct (retained r) eqn:Hret.
    + rewrite decide_False; [done|].
      intros (g & r' & Hg & Hfirst' & Hret' & Hpath)%Hdel.
      apply Hinj in Hpath as <-; [|done..].
      rewrite (first_match_unique _ _ _ _ Hfirst Hfirst') in Hret. congruence.
    + rewrite decide_True; [done|]. apply Hdel. by exists f, r.
  - intros p Hp. rewrite Hfs, decide_False; [done|].
    intros (g & r' & Hg & Hfirst' & Hret' & ->)%Hdel. by eapply Hp.
Qed.

End Conversion.

Section ConversionExamples.
Import ExampleImports.
Existing Instance example_imports.

Example convert_example :
  convert_to_output_file_requirements_with_content example_requirements
    ["out.txt"; "data.csv"] (Some "run") example_files
  = Returned
      [ (TextContentOutputFileRequirement out_txt None None, [("out.txt", Text "hello")]);
        (DataOutputFileRequirement
           {| filename := "*.csv"; minimal_count := 0; should_keep_file := Keep true |},
         [("data.csv", NoContent)]) ]
      {[ "run/data.csv" := "1,2"; "run/notes" := "x" ]}.
Proof. vm_compute. reflexivity. Qed.

Lemma convert_decodes_then_deletes_witness :
  ∃ result fs',
    convert_to_output_file_requirements_with_content example_requirements
      ["out.txt"; "data.csv"] (Some "run") example_files
    = Returned result fs'
    ∧ (∀ f r, f ∈ ["out.txt"; "data.csv"] → first_match example_requirements f r →
         ∃ contents,
           dict_get r result = Some contents
           ∧ dict_get f contents = example_files !! file_path (Some "run") f ≫= decode r
           ∧ fs' !! file_path (Some "run") f
             = if retained r then example_files !! file_path (Some "run") f else None)
    ∧ (∀ p, (∀ f r, f ∈ ["out.txt"; "data.csv"] → first_match example_requirements f r →
                    retained r = false → p ≠ file_path (Some "run") f) →
            fs' !! p = example_files !! p).
Proof.
  apply (convert_decodes_then_deletes example_requirements
           ["out.txt"; "data.csv"] (Some "run") example_files).
  - apply (bool_decide_unpack _). vm_compute. reflexivity.
  - intros f g _ _ E. simpl in E. by simplify_eq.
  - intros f r Hf Hr%matching_requirement_first.
    apply elem_of_cons in Hf as [->|Hf];
      [|apply list_elem_of_singleton in Hf as ->];
      vm_compute in Hr; injection Hr as <-;
      eexists _, _; split; vm_compute; reflexivity.
Defined.

End ConversionExamples.

End OutputFilesProofs.

(** * Properties of the checker framework *)

Module BaseCheckerProofs.
Import Py RunIssues BaseChecker.

Section Loop.
Context {Fields : Type}.
Implicit Types (self : Checker Fields) (check : check_method Fields).

Lemma run_checks_loop_app before : ∀ self s1 rest,
  passed_through before self = Some s1 →
  run_checks_loop (before ++ rest) self = run_checks_loop rest s1.
Proof.
  induction before as [|c before IH]; intros self s1 rest; simpl.
  - by intros [= ->].
  - destruct (run_one_check c self); [apply IH | done..].
Qed.

(** The three ways the body of the loop ends, by what the check did. *)
Lemma run_one_check_cases check self effect :
  call check self = inr effect →
  run_one_check check self
  = if should_stop effect && bool_decide (appended effect = [])
    then Raise (AssertionError (no_issues_message check))
    else if negb (bool_decide (issues (after_check self effect) = []))
            && (stop_after_first_issue self || should_stop effect)
         then Break (after_check self effect)
         else Continue (after_check self effect).
Proof.
  intros Hcall. unfold run_one_check. rewrite Hcall. cbn [issues].
  replace (Z.of_nat (length (issues self ++ appended effect))
           - Z.of_nat (length (issues self)) =? 0)
    with (bool_decide (appended effect = [])); [done|].
  rewrite length_app. destruct (appended effect) as [|i l]; simpl.
  - symmetry. apply Z.eqb_eq. lia.
  - symmetry. apply Z.eqb_neq. lia.
Qed.

(** C5. In the loop of _run_checks, a check that returns true without having
    appended an issue makes the assertion fail; otherwise the loop stops after
    the check, leaving the remaining checks unrun, exactly when the checker has
    issues and either stop_after_first_issue is set or the check returned
    true, and goes on with the remaining checks when not. *)
Theorem run_checks_stop_rule (cls : checker_class Fields) before check rest
    self s1 effect :
  _assert_if_provided_choice_of_checks_include_all_check_methods cls = None →
  _get_checks_to_run cls = before ++ check :: rest →
  passed_through before self = Some s1 →
  call check s1 = inr effect →
  let s2 := after_check s1 effect in
  let halts := issues s2 ≠ []
               ∧ (stop_after_first_issue s1 = true ∨ should_stop effect = true) in
  (should_stop effect = true ∧ appended effect = [] →
   _run_checks cls self = inl (AssertionError (no_issues_message check)))
  ∧ (¬ (should_stop effect = true ∧ appended effect = []) →
     (halts → _run_checks cls self = inr s2)
     ∧ (¬ halts → _run_checks cls self = run_checks_loop rest s2)).
Proof.
  intros Hassert Hchecks Hbefore Hcall s2 halts. unfold _run_checks.
  rewrite Hassert, Hchecks, (run_checks_loop_app _ _ _ _ Hbefore).
  cbn [run_checks_loop]. rewrite (run_one_check_cases _ _ _ Hcall).
  fold s2. subst halts. split.
  - intros [-> ->]. done.
  - intros Hok.
    assert (should_stop effect && bool_decide (appended effect = []) = false) as ->.
    { apply not_true_is_false. intros [? ?%bool_decide_eq_true]%andb_true_iff. auto. }
    split.
    + intros [Hissues Hflag].
      rewrite bool_decide_eq_false_2 by done.
      destruct Hflag as [-> | ->]; simpl; by rewrite ?orb_true_r.
    + intros Hno.
      destruct (bool_decide (issues s2 = [])) eqn:Hnil; [done|].
      apply bool_decide_eq_false in Hnil.
      destruct (stop_after_first_issue s1) eqn:?, (should_stop effect) eqn:?;
        simpl; try done; destruct Hno; auto.
Qed.

End Loop.

Section LoopExamples.
Import BaseChecker.Example.

Example loop_breaks_after_first_issue :
  _run_checks (example_class [check_nothing; check_something; check_something])
    (fresh true)
  = inr {| issues := [an_issue]; intermediate_results := ∅;
           stop_after_first_issue := true; fields := () |}.
Proof. reflexivity. Qed.

Example loop_goes_on_without_flag :
  _run_checks (example_class [check_nothing; check_something; check_something])
    (fresh false)
  = inr {| issues := [an_issue; an_issue]; intermediate_results := ∅;
           stop_after_first_issue := false; fields := () |}.
Proof. reflexivity. Qed.

Lemma run_checks_stop_rule_witness :
  _run_checks (example_class [check_nothing; check_stop_for_nothing; check_something])
    (fresh false)
  = inl (AssertionError (no_issues_message check_stop_for_nothing))
  ∧ _run_checks (example_class [check_nothing; check_something; check_something])
      (fresh true)
    = inr {| issues := [an_issue]; intermediate_results := ∅;
             stop_after_first_issue := true; fields := () |}
  ∧ _run_checks (example_class [check_nothing; check_something; check_nothing])
      (fresh false)
    = run_checks_loop [check_nothing]
        {| issues := [an_issue]; intermediate_results := ∅;
           stop_after_first_issue := false; fields := () |}.
Proof.
  split_and!.
  - refine (proj1 (run_checks_stop_rule
                     (example_class [check_nothing; check_stop_for_nothing; check_something])
                     [check_nothing] check_stop_for_nothing [check_something]
                     (fresh false) (fresh false)
                     {| appended := []; results_after := ∅; should_stop := true |}
                     _ _ _ _) _); try reflexivity.
    split; reflexivity.
  - refine (proj1 (proj2 (run_checks_stop_rule
                     (example_class [check_nothing; check_something; check_something])
                     [check_nothing] check_something [check_something]
                     (fresh true) (fresh true)
                     {| appended := [an_issue]; results_after := ∅; should_stop := false |}
                     _ _ _ _) _) _); try reflexivity.
    + intros [? _]. discriminate.
    + split; [discriminate | left; reflexivity].
  - refine (proj2 (proj2 (run_checks_stop_rule
                     (example_class [check_nothing; check_something; check_nothing])
                     [check_nothing] check_something [check_nothing]
                     (fresh false) (fresh false)
                     {| appended := [an_issue]; results_after := ∅; should_stop := false |}
                     _ _ _ _) _) _); try reflexivity.
    + intros [? _]. discriminate.
    + intros [_ [?|?]]; discriminate.
Defined.

End LoopExamples.

End BaseCheckerProofs.

(** * Properties of the df checkers *)

Module DfCheckerProofs.
Import Py RunIssues Pandas BaseChecker DfChecker.

Section Runs.
Context `{Imports}.
Implicit Types (self : DfChecker) (flds : DfFields).

(** A checker without issues passes a check that finds nothing. *)
Lemma run_one_check_clean check ir stop flds :
  let self := {| issues := []; intermediate_results := ir;
                 stop_after_first_issue := stop; fields := flds |} in
  call check self = done_with self [] →
  run_one_check check self = Continue self.
Proof. intros self Hcall. unfold run_one_check. rewrite Hcall. reflexivity. Qed.

(** A checker that stops after the first issue breaks at the first check that
    finds something. *)
Lemma run_one_check_first_issue check ir flds i found :
  let self := {| issues := []; intermediate_results := ir;
                 stop_after_first_issue := true; fields := flds |} in
  call check self = done_with self (i :: found) →
  run_one_check check self
  = Break {| issues := i :: found; intermediate_results := ir;
             stop_after_first_issue := true; fields := flds |}.
Proof.
  intros self Hcall. unfold run_one_check. rewrite Hcall. cbn.
  replace (Z.pos (Pos.of_succ_nat (length found)) - 0 =? 0) with false
    by (symmetry; apply Z.eqb_neq; lia).
  reflexivity.
Qed.

Lemma TableSyntaxDfChecker_asserted :
  _assert_if_provided_choice_of_checks_include_all_check_methods TableSyntaxDfChecker = None.
Proof. reflexivity. Qed.

Lemma TableDfContentChecker_asserted :
  _assert_if_provided_choice_of_checks_include_all_check_methods TableDfContentChecker = None.
Proof. reflexivity. Qed.

Lemma TableSyntaxDfChecker_clean ir stop flds :
  func_name flds = "df_to_latex" → clean_call flds →
  run_checks TableSyntaxDfChecker
    {| issues := []; intermediate_results := ir; stop_after_first_issue := stop;
       fields := flds |}
  = inr ([], ir).
Proof.
  intros Hname (Hfile & Hlabel & Hindex & Hcolumns).
  unfold run_checks, _run_checks. rewrite TableSyntaxDfChecker_asserted.
  change (_get_checks_to_run TableSyntaxDfChecker)
    with [ method "check_filename" check_filename;
           method "check_no_label" check_no_label;
           method "check_that_index_is_true" check_that_index_is_true;
           method "check_column_arg_is_not_used" check_column_arg_is_not_used ].
  cbn [run_checks_loop].
  rewrite run_one_check_clean
    by (cbn [call method]; unfold check_filename; cbn [fields]; by rewrite Hfile).
  rewrite run_one_check_clean
    by (cbn [call method]; unfold check_no_label, kwargs_get; cbn [fields];
        by rewrite Hlabel).
  rewrite run_one_check_clean
    by (cbn [call method]; unfold check_that_index_is_true, index_in_use, is_figure,
          kwargs_get; cbn [fields]; rewrite Hname, Hindex; reflexivity).
  rewrite run_one_check_clean
    by (cbn [call method]; unfold check_column_arg_is_not_used; cbn [fields];
        rewrite Hcolumns; reflexivity).
  reflexivity.
Qed.

End Runs.

Section Repeated.
Context `{Imports}.

Lemma distinct_length_le l : (length (distinct l) ≤ length l)%nat.
Proof.
  induction l as [|v l IH]; simpl; [done|].
  destruct (existsb (py_eq v) l); simpl; lia.
Qed.

Lemma distinct_length_lt before v after :
  existsb (py_eq v) after = true →
  (length (distinct (before ++ v :: after)) < length (before ++ v :: after))%nat.
Proof.
  intros Hv. induction before as [|w before IH]; simpl.
  - rewrite Hv. pose proof (distinct_length_le after). lia.
  - destruct (existsb (py_eq w) _); simpl; [|lia].
    pose proof (distinct_length_le (before ++ v :: after)). simpl in *. lia.
Qed.

Lemma py_eq_refl_numeric v : is_non_integer_numeric v = true → py_eq v v = true.
Proof.
  destruct v as [| | |[| |q]| | | |]; try discriminate. intros _.
  unfold py_eq. simpl. apply Qeq_bool_iff. reflexivity.
Qed.

Lemma count_value_repeated before v after :
  py_eq v v = true → existsb (py_eq v) after = true →
  (1 < count_value (before ++ v :: after) v)%nat.
Proof.
  intros Hrefl Hv. unfold count_value.
  rewrite List.filter_app, length_app. simpl. rewrite Hrefl. simpl.
  apply existsb_exists in Hv as (w & Hin & Hw).
  apply in_split in Hin as (a & b & ->).
  rewrite List.filter_app, length_app. simpl. rewrite Hw. simpl. lia.
Qed.

(** With a repeated value the list of duplicated values has a first one. *)
Lemma duplicated_values_head l before v after :
  l = before ++ v :: after → Forall (λ w, is_non_integer_numeric w = true) l →
  existsb (py_eq v) after = true →
  ∃ example_value rest,
    List.filter (λ w, (1 <? count_value l w)%nat) l = example_value :: rest.
Proof.
  intros -> Hnum Hv.
  destruct (List.filter _ _) as [|e rest] eqn:Hf; [|eauto].
  assert (In v (List.filter (λ w, (1 <? count_value (before ++ v :: after) w)%nat)
                  (before ++ v :: after))) as Hin.
  { apply filter_In. split; [apply in_elt|]. apply Nat.ltb_lt.
    apply count_value_repeated; [|done]. apply py_eq_refl_numeric.
    rewrite Forall_forall in Hnum. apply Hnum. apply list_elem_of_In, in_elt. }
  rewrite Hf in Hin. destruct Hin.
Qed.

Lemma numeric_values_Forall table :
  Forall (λ w, is_non_integer_numeric w = true) (numeric_values table).
Proof.
  apply Forall_forall. intros w Hw%list_elem_of_In. by apply filter_In in Hw as [_ ?].
Qed.

(** [where_equal] finds every cell equal to the value. *)
Lemma where_equal_complete table v row col cells cell :
  values table !! row = Some cells → cells !! col = Some cell →
  py_eq cell v = true →
  (row, col) ∈ where_equal table v.
Proof.
  intros Hrow Hcol Heq. unfold where_equal.
  apply list_elem_of_In, in_concat. eexists. split.
  - apply list_elem_of_In, elem_of_lookup_imap. eauto.
  - apply in_concat. eexists. split.
    + apply list_elem_of_In, elem_of_lookup_imap. eauto.
    + rewrite Heq. by left.
Qed.

(** ... and the positions of such cells only. *)
Lemma where_equal_spec table v position :
  position ∈ where_equal table v
  ↔ ∃ cell, cell_at table position = Some cell ∧ py_eq cell v = true.
Proof.
  destruct position as [row col]. unfold cell_at. cbn [fst snd]. split.
  - unfold where_equal. intros (l & Hl & Hin)%list_elem_of_In%in_concat.
    apply list_elem_of_In, elem_of_lookup_imap in Hl as (r & cells & -> & Hrow).
    apply in_concat in Hin as (l & Hl & Hin).
    apply list_elem_of_In, elem_of_lookup_imap in Hl as (c & cell & -> & Hcol).
    destruct (py_eq cell v) eqn:Heq; [|destruct Hin].
    destruct Hin as [[= <- <-]|[]]. exists cell. by rewrite Hrow.
  - intros (cell & Hcell & Heq).
    destruct (values table !! row) as [cells|] eqn:Hrow; [|done].
    by apply (where_equal_complete table v row col cells cell).
Qed.

(** The head of a filtered list is the first item of the list that passes. *)
Lemma filter_head_split {A} (p : A → bool) (l : list A) x rest :
  List.filter p l = x :: rest →
  ∃ before after,
    l = before ++ x :: after ∧ Forall (λ w, p w = false) before ∧ p x = true.
Proof.
  induction l as [|a l IH]; [done|]. cbn [List.filter].
  destruct (p a) eqn:Ha.
  - intros [= -> _]. by exists [], l.
  - intros (before & after & -> & Hbefore & Hx)%IH.
    exists (a :: before), after. split_and!; [done| |done]. by constructor.
Qed.

End Repeated.

Section Analysis.
Context `{Imports}.

(** The issue about a repeated value is none about the index. *)
Lemma repeated_values_issue_is_no_index_issue (self : DfChecker) v :
  repeated_values_issue self v ≠ range_index_issue self.
Proof.
  intros Heq. apply (f_equal category) in Heq. revert Heq.
  unfold repeated_values_issue, range_index_issue, content_issue, df_issue,
    _append_issue.
  destruct (is_figure self); discriminate.
Qed.

(** The content checker of a table that is no description and repeats a
    value: the describe check passes, the repeated-values check finds its
    issue, and the loop breaks there. *)
Lemma TableDfContentChecker_repeated flds :
  not_a_description (df flds) → has_repeated_value (df flds) →
  ∃ example_value rest,
    List.filter (λ w, (1 <? count_value (numeric_values (df flds)) w)%nat)
      (numeric_values (df flds)) = example_value :: rest
    ∧ ∀ ir self, fields self = flds →
        run_checks TableDfContentChecker
          {| issues := []; intermediate_results := ir; stop_after_first_issue := true;
             fields := flds |}
        = inr ([repeated_values_issue self example_value], ir).
Proof.
  intros Hdesc (before & v & after & Hvalues & Hv).
  destruct (duplicated_values_head _ _ _ _ Hvalues (numeric_values_Forall _) Hv)
    as (example_value & rest & Hdup).
  exists example_value, rest. split; [done|]. intros ir self Hself.
  unfold run_checks, _run_checks. rewrite TableDfContentChecker_asserted.
  change (_get_checks_to_run TableDfContentChecker)
    with ([ method "check_df_is_a_result_of_describe" check_df_is_a_result_of_describe;
            method "check_df_for_repeated_values" check_df_for_repeated_values ]
          ++ [ method "check_df_for_repeated_values_in_prior_dfs"
                 check_df_for_repeated_values_in_prior_dfs;
               method "check_df_for_nan_values" check_df_for_nan_values;
               method "check_df_value_types" check_df_value_types;
               method "check_df_headers_type" check_df_headers_type;
               method "check_df_index_is_a_range" check_df_index_is_a_range;
               method "check_df_size" check_df_size ]).
  cbn [app run_checks_loop].
  rewrite run_one_check_clean
    by (cbn [call method]; unfold check_df_is_a_result_of_describe; cbn [fields];
        by rewrite Hdesc).
  rewrite (run_one_check_first_issue _ _ _ (repeated_values_issue self example_value) []).
  - reflexivity.
  - cbn [call method]. unfold check_df_for_repeated_values. cbn [fields].
    fold (numeric_values (df flds)). rewrite Hdup.
    assert (length (numeric_values (df flds))
            ≠ length (distinct (numeric_values (df flds)))) as Hlen.
    { rewrite Hvalues. pose proof (distinct_length_lt before v after Hv). lia. }
    apply Nat.eqb_neq in Hlen. rewrite Hlen. simpl.
    unfold repeated_values_issue, content_issue, df_issue. cbn [fields].
    by rewrite Hself.
Qed.

(** C1, as the code has it. For a table call that passes the syntax checks,
    on a table of scalar cells that is no describe() table and holds the same
    non-integer numeric value in two cells, the analysis chain returns exactly
    one issue:
    the repeated-values issue for the first duplicated value, that is, for the
    first of the non-integer numeric values, by rows, that more than one cell
    holds. The text of the issue lists the positions of [where_equal], which
    are the positions of the cells equal to that value, all of them and no
    other. The issue is not the one about the index: the content checker
    stops after its first issue, so the check of the index is not reached. *)
Theorem analysis_stops_at_repeated_value table name call_kwargs :
  let flds := {| func_name := "df_to_latex"; df := table; filename := name;
                 kwargs := call_kwargs; prior_dfs := [] |} in
  let checker := new_content_checker "df_to_latex" table name call_kwargs in
  clean_call flds → scalar_cells table →
  not_a_description table → has_repeated_value table →
  ∃ example_value,
    check_df_to_latex_analysis table name call_kwargs
    = inr [repeated_values_issue checker example_value]
    ∧ first_duplicated_value table example_value
    ∧ issue (repeated_values_issue checker example_value)
      = "Note that the df " +:+ dq +:+ name +:+ dq
        +:+ " includes the same values in multiple cells." +:+ PyStr.NL
        +:+ "For example, the value " +:+ value_text example_value
        +:+ " appears in the following cells:" +:+ PyStr.NL
        +:+ join_comma (position_text <$> where_equal table example_value) +:+ "."
    ∧ (∀ position,
         position ∈ where_equal table example_value
         ↔ ∃ cell, cell_at table position = Some cell
                   ∧ py_eq cell example_value = true)
    ∧ repeated_values_issue checker example_value ≠ range_index_issue checker.
Proof.
  intros flds checker Hclean _ Hdesc Hrep.
  destruct (TableDfContentChecker_repeated flds Hdesc Hrep)
    as (example_value & rest & Hdup & Hrun).
  exists example_value. split_and!.
  - unfold check_df_to_latex_analysis, create_and_run_chain_checker.
    cbn [chain_run_checks_loop new_syntax_checker new_content_checker
           issues intermediate_results stop_after_first_issue fields
           chain_issues chain_intermediate_results chain_stop_after_first_issue].
    fold flds.
    rewrite (TableSyntaxDfChecker_clean _ _ flds eq_refl Hclean).
    cbn [chain_issues chain_intermediate_results chain_stop_after_first_issue app].
    rewrite (bool_decide_eq_true_2 ([] = [])) by done. cbn [negb andb].
    rewrite (Hrun _ checker eq_refl).
    rewrite bool_decide_eq_false_2 by done. reflexivity.
  - cbn [df flds] in Hdup.
    apply filter_head_split in Hdup as (before & after & Hsplit & Hbefore & Hcount).
    exists before, after. split_and!; [done| |by apply Nat.ltb_lt].
    eapply Forall_impl; [exact Hbefore|]. intros w Hw. cbn beta in Hw.
    apply Nat.ltb_ge in Hw. lia.
  - reflexivity.
  - apply where_equal_spec.
  - apply repeated_values_issue_is_no_index_issue.
Qed.

End Analysis.

Section RangeIndex.
Context `{Imports}.

Lemma py_eq_ints a b : py_eq (VInt a) (VInt b) = bool_decide (a = b).
Proof.
  unfold py_eq. simpl. destruct (bool_decide_reflect (a = b)) as [->|Hne].
  - apply Qeq_bool_iff. reflexivity.
  - apply not_true_is_false. intros Heq%Qeq_bool_iff. apply Hne.
    by apply inject_Z_injective.
Qed.

Lemma equals_range_ints l : ∀ start : nat,
  equals_range (VInt <$> l) (Z.of_nat start) = true
  ↔ l = Z.of_nat <$> seq start (length l).
Proof.
  induction l as [|a l IH]; intros start; [done|].
  cbn [fmap list_fmap equals_range length seq].
  rewrite andb_true_iff, py_eq_ints, bool_decide_eq_true.
  replace (Z.of_nat start + 1) with (Z.of_nat (S start)) by lia.
  specialize (IH (S start)). cbn [fmap] in IH. split.
  - intros [-> Hl%IH]. by rewrite <- Hl.
  - intros [= -> Hl]. split; [done|]. by apply IH.
Qed.

Lemma is_range_index_ints l :
  is_range_index (Int64Index l) ↔ equals_range (VInt <$> l) 0 = true.
Proof.
  rewrite (equals_range_ints l 0). split.
  - intros [n [= ->]]. by rewrite length_fmap, length_seq.
  - intros ->. by eexists.
Qed.


End RangeIndex.

Section Xerr.
Context `{Imports}.

(** The issues about the columns of an argument depend on the checker through
    its df and its file name only. *)
Lemma check_columns_of_args_same (self self' : DfChecker) args :
  df (fields self) = df (fields self') →
  filename (fields self) = filename (fields self') →
  check_columns_of_args self args = check_columns_of_args self' args.
Proof.
  intros Hdf Hname. induction args as [|[arg arg_name] args IH]; [done|].
  cbn [check_columns_of_args]. rewrite IH.
  replace (check_columns_of_arg self arg arg_name)
    with (check_columns_of_arg self' arg arg_name); [done|].
  unfold check_columns_of_arg, missing_columns_issue, syntax_issue, df_issue.
  by rewrite Hdf, Hname.
Qed.

(** Whatever the keyword xerr is set to, the check of the specified columns
    does what it does without it: the property xerr reads the keyword yerr. *)
Lemma xerr_keyword_is_ignored (self : DfChecker) (v : kwarg) :
  let self' :=
    {| issues := issues self; intermediate_results := intermediate_results self;
       stop_after_first_issue := stop_after_first_issue self;
       fields := {| func_name := func_name (fields self); df := df (fields self);
                    filename := filename (fields self);
                    kwargs := <["xerr" := v]> (kwargs (fields self));
                    prior_dfs := prior_dfs (fields self) |} |} in
  check_that_specified_columns_exist self' = check_that_specified_columns_exist self.
Proof.
  intros self'. unfold check_that_specified_columns_exist.
  assert (∀ xy, get_xy_err_ci_p_value self' xy = get_xy_err_ci_p_value self xy) as Hargs.
  { intros xy. unfold get_xy_err_ci_p_value, x, xerr, x_ci, x_p_value, y, yerr, y_ci,
      y_p_value, kwargs_get. subst self'. cbn [fields kwargs].
    by rewrite !lookup_insert_ne by done. }
  rewrite !Hargs.
  rewrite (check_columns_of_args_same self' self) by done.
  reflexivity.
Qed.

End Xerr.

Section SpecifiedColumns.
Context `{Imports}.

(** The columns of [cols] that the df of the checker does not have. *)
Lemma check_columns_of_args_found (self : DfChecker) args : ∀ found arg_name cols,
  check_columns_of_args self args = inr found →
  (KList cols, arg_name) ∈ args →
  List.filter (λ col, negb (index_has (columns (df (fields self))) col)) cols ≠ [] →
  missing_columns_issue self arg_name
    (List.filter (λ col, negb (index_has (columns (df (fields self))) col)) cols)
  ∈ found.
Proof.
  induction args as [|[arg nm] args IH]; intros found arg_name cols Hrun Hin Hmiss.
  - by apply elem_of_nil in Hin.
  - cbn [check_columns_of_args] in Hrun.
    destruct (check_columns_of_arg self arg nm) as [|here] eqn:Hhere; [done|].
    destruct (check_columns_of_args self args) as [|more] eqn:Hmore; [done|].
    injection Hrun as <-. apply elem_of_app.
    apply elem_of_cons in Hin as [[= <- <-]|Hin].
    + left. cbn [check_columns_of_arg items_of] in Hhere. injection Hhere as <-.
      destruct (List.filter _ cols); [done | left].
    + right. by eapply IH.
Qed.

(** For each argument other than xerr, the columns it names that the df does
    not have are reported in an issue that names the argument. *)
Lemma specified_columns_are_checked (self : DfChecker) arg_name cols effect :
  arg_name ∈ ["x"; "x_ci"; "x_p_value"; "y"; "yerr"; "y_ci"; "y_p_value"] →
  as_list (kwargs_get self arg_name KNone) = KList cols →
  List.filter (λ col, negb (index_has (columns (df (fields self))) col)) cols ≠ [] →
  check_that_specified_columns_exist self = inr effect →
  missing_columns_issue self arg_name
    (List.filter (λ col, negb (index_has (columns (df (fields self))) col)) cols)
  ∈ appended effect.
Proof.
  intros Hname Harg Hmiss. unfold check_that_specified_columns_exist.
  destruct (check_columns_of_args self _) as [|found] eqn:Hrun; [done|].
  intros [= <-]. cbn [appended].
  eapply check_columns_of_args_found; [exact Hrun | | exact Hmiss].
  rewrite <- Harg. unfold get_xy_err_ci_p_value, base_arg_names.
  cbn [bool_decide decide_rel fmap list_fmap zip zip_with app].
  rewrite (bool_decide_eq_true_2 ("x" = "x")) by done.
  rewrite (bool_decide_eq_false_2 ("y" = "x")) by done.
  cbn [fmap list_fmap zip zip_with app String.append].
  unfold x, x_ci, x_p_value, y, yerr, y_ci, y_p_value.
  repeat (apply elem_of_cons in Hname as [->|Hname]; [set_solver|]).
  by apply elem_of_nil in Hname.
Qed.

End SpecifiedColumns.

Section TableExamples.
Import DfExamples.
Existing Instance example_imports.

(** C1 as stated fails: on the 3x3 table with the index 0..2 and 3.14 in the
    cells (0, 0) and (1, 1), the chain returns one issue only, the one about
    the repeated value; nothing is said about the index. *)
Lemma analysis_of_repeated_table_one_issue :
  ∃ i, check_df_to_latex_analysis repeated_table "df_table" ∅ = inr [i]
       ∧ category i = Some OVERLAYING_VALUES_CATEGORY
       ∧ PyStr.contains (issue i) "(0, 0), (1, 1)" = true
       ∧ index repeated_table = Int64Index [0; 1; 2].
Proof. eexists. split_and!; [vm_compute; reflexivity | reflexivity..]. Qed.

(** Once the repeated value is gone, the same table gets the index issue. *)
Example analysis_of_range_table :
  check_df_to_latex_analysis range_table "df_table" ∅
  = inr [range_index_issue (new_content_checker "df_to_latex" range_table "df_table" ∅)].
Proof. vm_compute. reflexivity. Qed.

Lemma analysis_stops_at_repeated_value_witness :
  ∃ example_value,
    check_df_to_latex_analysis repeated_table "df_table" ∅
    = inr [repeated_values_issue
             (new_content_checker "df_to_latex" repeated_table "df_table" ∅)
             example_value]
    ∧ first_duplicated_value repeated_table example_value
    ∧ issue (repeated_values_issue
               (new_content_checker "df_to_latex" repeated_table "df_table" ∅)
               example_value)
      = "Note that the df " +:+ dq +:+ "df_table" +:+ dq
        +:+ " includes the same values in multiple cells." +:+ PyStr.NL
        +:+ "For example, the value " +:+ value_text example_value
        +:+ " appears in the following cells:" +:+ PyStr.NL
        +:+ join_comma (position_text <$> where_equal repeated_table example_value)
        +:+ "."
    ∧ (∀ position,
         position ∈ where_equal repeated_table example_value
         ↔ ∃ cell, cell_at repeated_table position = Some cell
                   ∧ py_eq cell example_value = true)
    ∧ repeated_values_issue
        (new_content_checker "df_to_latex" repeated_table "df_table" ∅) example_value
      ≠ range_index_issue
          (new_content_checker "df_to_latex" repeated_table "df_table" ∅).
Proof.
  apply (analysis_stops_at_repeated_value repeated_table "df_table" ∅).
  - repeat split.
  - repeat constructor.
  - reflexivity.
  - exists [], (f 314 100), [f 25 10; f 314 100; f 15 10; f 25 100].
    split; reflexivity.
Defined.



(** A multi-index is never flagged. *)
Example multi_index_is_not_flagged :
  let table := {| index := MultiIndex 2 [[VInt 0; VStr "a"]; [VInt 1; VStr "b"]];
                  columns := columns range_table;
                  values := firstn 2 (values range_table) |} in
  check_df_index_is_a_range (new_content_checker "df_to_latex" table "df_table" ∅)
  = done_with (new_content_checker "df_to_latex" table "df_table" ∅) [].
Proof. reflexivity. Qed.

(** C6 fails on the code for the argument xerr: the property xerr reads the
    keyword yerr, so a column named in xerr is never looked up. *)
Lemma xerr_columns_are_not_checked :
  xerr_kwargs !! "xerr" = Some (KStr "missing")
  ∧ index_has (columns range_table) (VStr "missing") = false
  ∧ check_that_specified_columns_exist
      (new_syntax_checker "df_to_figure" range_table "df_fig" xerr_kwargs)
    = done_with (new_syntax_checker "df_to_figure" range_table "df_fig" xerr_kwargs) [].
Proof. split_and!; vm_compute; reflexivity. Qed.

(** The same column named in x_ci is reported. *)
Example x_ci_columns_are_checked :
  check_that_specified_columns_exist
    (new_syntax_checker "df_to_figure" range_table "df_fig" x_ci_kwargs)
  = done_with (new_syntax_checker "df_to_figure" range_table "df_fig" x_ci_kwargs)
      [missing_columns_issue
         (new_syntax_checker "df_to_figure" range_table "df_fig" x_ci_kwargs)
         "x_ci" [VStr "missing"]].
Proof. vm_compute. reflexivity. Qed.

End TableExamples.

End DfCheckerProofs.

(** * Properties of the code runner on arbitrary responses and files *)

Module CodeRunnerRunProofs.
Import PyStr PyRe CodeRunner FencedResponse CodeRunnerRun.

Local Arguments Ascii.eqb : simpl never.

Lemma startswith_split sub : ∀ s,
  startswith s sub = true → s = sub +:+ drop (String.length sub) s.
Proof.
  induction sub as [|a sub IH]; intros s; [reflexivity|].
  destruct s as [|b s]; simpl; [discriminate|].
  intros [Hab Hs]%andb_true_iff. apply Ascii.eqb_eq in Hab as ->.
  f_equal. apply IH, Hs.
Qed.

(** The lazy group is followed by the closing literal. *)
Lemma lazy_group_split close : ∀ s g,
  lazy_group close s = Some g → ∃ post, s = g +:+ close +:+ post.
Proof.
  induction s as [|c s IH]; intros g; cbn [lazy_group].
  - destruct (startswith "" close) eqn:E; [|discriminate].
    intros [= <-]. exists (drop (String.length close) ""). apply startswith_split, E.
  - destruct (startswith (String c s) close) eqn:E.
    + intros [= <-]. exists (drop (String.length close) (String c s)).
      apply startswith_split, E.
    + destruct (lazy_group close s) as [g'|] eqn:Hg; [|discriminate].
      intros [= <-]. destruct (IH g' eq_refl) as [post ->]. by exists post.
Qed.

(** Every group [findall] lists lies in the text between the opening and
    the closing literal of the pattern. *)
Lemma findall_from_elem r g : ∀ s k,
  g ∈ findall_from r s k →
  ∃ pre post, s = pre +:+ re_open r +:+ g +:+ re_close r +:+ post.
Proof.
  induction s as [|c s IH]; intros k; cbn [findall_from];
    [by intros ?%elem_of_nil|].
  assert (∀ k', g ∈ findall_from r s k' →
            ∃ pre post, String c s = pre +:+ re_open r +:+ g +:+ re_close r +:+ post)
    as Hrest.
  { intros k' (pre & post & ->)%IH. by exists (String c pre), post. }
  destruct k as [|k]; [|apply Hrest].
  destruct (startswith (String c s) (re_open r)) eqn:Hopen; [|apply Hrest].
  destruct (lazy_group _ _) as [g'|] eqn:Hg; [|apply Hrest].
  intros [->|Hin]%elem_of_cons; [|by eapply Hrest].
  apply lazy_group_split in Hg as [post Hpost].
  exists "", post. simpl. rewrite <- Hpost. apply startswith_split, Hopen.
Qed.

Lemma first_single_match_elem regexps response the_code :
  first_single_match regexps response = Some the_code →
  ∃ regexp group,
    regexp ∈ regexps ∧ findall regexp response = [group] ∧ the_code = strip group.
Proof.
  induction regexps as [|r rest IH]; cbn [first_single_match]; [discriminate|].
  destruct (findall r response) as [|m [|m' l]] eqn:Hm.
  - intros (r' & g & Hin & ?)%IH. exists r', g. split; [by right | done].
  - intros [= <-]. exists r, m. split; [left | done].
  - intros (r' & g & Hin & ?)%IH. exists r', g. split; [by right | done].
Qed.

(** *** [strip] leaves no white space around the text *)

Lemma lstrip_head s :
  lstrip s = "" ∨ ∃ c t, lstrip s = String c t ∧ isspace c = false.
Proof.
  induction s as [|c s IH]; [by left|]. cbn [lstrip].
  destruct (isspace c) eqn:E; [done|]. right. by exists c, s.
Qed.

Lemma rstrip_cons c s :
  isspace c = false → ∃ t, rstrip (String c s) = String c t.
Proof.
  intros Hc. cbn [rstrip]. destruct (rstrip s); rewrite ?Hc; eauto.
Qed.

Lemma rstrip_idem s : rstrip (rstrip s) = rstrip s.
Proof.
  induction s as [|c s IH]; [reflexivity|]. cbn [rstrip].
  destruct (rstrip s) as [|d t] eqn:E.
  - destruct (isspace c) eqn:Hc; [reflexivity|]. cbn [rstrip]. by rewrite Hc.
  - cbn [rstrip]. cbn [rstrip] in IH. by rewrite IH.
Qed.

Lemma strip_idem s : strip (strip s) = strip s.
Proof.
  unfold strip. destruct (lstrip_head s) as [->|(c & t & -> & Hc)]; [reflexivity|].
  destruct (rstrip_cons c t Hc) as [u Hu]. rewrite Hu.
  cbn [lstrip]. rewrite Hc, <- Hu. apply rstrip_idem.
Qed.

(** X1. Whatever the response, the code [extract_code] returns is
    the stripped text that stands, in a response with exactly two fence
    delimiters, between an opening fence line of CODE_REGEXPS and a closing
    fence; it has no white space left around it. *)
Theorem extract_code_returns_fenced_text response the_code :
  extract_code response = Code the_code →
  count response FENCE = 2%nat
  ∧ strip the_code = the_code
  ∧ ∃ regexp pre group post,
      regexp ∈ CODE_REGEXPS
      ∧ response = pre +:+ re_open regexp +:+ group +:+ re_close regexp +:+ post
      ∧ the_code = strip group.
Proof.
  unfold extract_code.
  destruct (Nat.eqb_spec (count response FENCE) 2) as [Hn|]; [|discriminate].
  destruct (first_single_match CODE_REGEXPS response) as [c|] eqn:Hm; [|discriminate].
  intros [= <-].
  apply first_single_match_elem in Hm as (r & g & Hr & Hg & ->).
  split_and!; [done | apply strip_idem |].
  destruct (findall_from_elem r g response O) as (pre & post & Hresp).
  { unfold findall in Hg. rewrite Hg. left. }
  by exists r, pre, g, post.
Qed.

Lemma extract_code_returns_fenced_text_witness :
  count resp1 FENCE = 2%nat
  ∧ strip "x = 1" = "x = 1"
  ∧ ∃ regexp pre group post,
      regexp ∈ CODE_REGEXPS
      ∧ resp1 = pre +:+ re_open regexp +:+ group +:+ re_close regexp +:+ post
      ∧ "x = 1" = strip group.
Proof. apply (extract_code_returns_fenced_text resp1 "x = 1"). reflexivity. Defined.

(** *** A block with another language tag *)

Lemma other_tag_no_start t : ∀ tag z,
  newline_free t → newline_free tag → tag ≠ t →
  startswith (tag +:+ NL +:+ z) (t +:+ NL) = false.
Proof.
  induction t as [|a t IH]; intros [|b tag] z Ht Htag Hne; try done.
  - simpl. destruct Htag as [Hb _]. destruct (Ascii.eqb_spec newline b); [|done].
    by subst.
  - simpl. destruct Ht as [Ha _]. destruct (Ascii.eqb_spec a newline); [done|done].
  - destruct Ht as [Ha Ht], Htag as [Hb Htag].
    change (String b tag +:+ NL +:+ z) with (String b (tag +:+ NL +:+ z)).
    change (String a t +:+ NL) with (String a (t +:+ NL)).
    cbn [startswith]. destruct (Ascii.eqb_spec a b) as [->|]; [|done].
    simpl. apply IH; [done..|]. congruence.
Qed.

(** X2. A response with one fenced block whose language tag is none
    of the accepted ones has two fence delimiters, and no pattern of
    CODE_REGEXPS matches it: the extraction fails with the count 2. *)
Theorem extract_code_rejects_other_tags seg0 tag body post :
  fence_free seg0 → tick_free tag → newline_free tag →
  fence_free body → fence_free post → ¬ accepted_tag tag →
  extract_code (render seg0 [(Block tag body, post)]) = FailedExtractingCode 2.
Proof.
  intros H0 Htick Hnl Hb Hp Htag. unfold extract_code.
  rewrite (CodeRunnerProofs.count_render [(Block tag body, post)] seg0 H0)
    by (repeat constructor; done).
  cbn [length Nat.mul Nat.add Nat.eqb render block_tag block_body].
  rewrite CodeRunnerProofs.CODE_REGEXPS_tags.
  cbn [fmap list_fmap first_single_match]. unfold findall.
  assert (∀ t, accepted_tag t →
            findall_from (fence_regexp t)
              (seg0 +:+ FENCE +:+ tag +:+ NL +:+ body +:+ NL +:+ FENCE +:+ post) O = [])
    as Hnone.
  { intros t Ht.
    pose proof (CodeRunnerProofs.accepted_tag_tick_free t Ht) as Htt.
    rewrite CodeRunnerProofs.findall_before_fence by done.
    apply CodeRunnerProofs.findall_other_tag; [done..|].
    intros z. apply other_tag_no_start; [|done|by intros ->].
    destruct Ht as [->|[->| ->]]; simpl; repeat split; discriminate. }
  rewrite !Hnone by (unfold accepted_tag; auto). reflexivity.
Qed.

Lemma extract_code_rejects_other_tags_witness :
  extract_code (render "See:" [(Block "json" "{}", "")]) = FailedExtractingCode 2.
Proof.
  apply (extract_code_rejects_other_tags "See:" "json" "{}" "").
  - reflexivity.
  - simpl; repeat split; discriminate.
  - simpl; repeat split; discriminate.
  - reflexivity.
  - reflexivity.
  - intros [E|[E|E]]; discriminate E.
Defined.

(** *** Running the code *)
Section Run.
Context {E : Type}.
Variable run_code_from_file :
  string → option string → gmap string string → E * gmap string string + gmap string string.
Implicit Types (self : CodeRunner) (fs : gmap string string).

(** X3. [run_code] removes the output file before the run, so the
    output it returns is never a file left by an earlier run: when the code
    that is run does not create the output file, [run_code] raises, whatever
    the file held before. *)
Theorem run_code_never_returns_stale_output self fs path :
  output_file self = Some path →
  (∀ c s fs0 fs1,
     run_code_from_file c s fs0 = inr fs1 → fs0 !! path = None → fs1 !! path = None) →
  ∃ e fs',
    run_code run_code_from_file self fs = Raised e fs'
    ∧ ((∃ n, e = ExtractionFailed n) ∨ (∃ x, e = FailedRunning x)
       ∨ e = FailedLoadingOutput).
Proof.
  intros Hpath Hkeeps. unfold run_code, delete_output_file, read_output_file.
  rewrite Hpath.
  destruct (extract_code (response self)) as [c|n]; [|by eauto 8].
  destruct (run_code_from_file c (script_file self) (delete path fs))
    as [[x fs2]|fs2] eqn:Hrun; [by eauto 8|].
  rewrite (Hkeeps _ _ _ _ Hrun) by apply lookup_delete_eq. eauto 8.
Qed.

(** X4. With no output file set, [run_code] never gets to run the code:
    the extraction fails, or removing the output file raises TypeError; the
    files are left as they were. *)
Theorem run_code_without_output_file self fs :
  output_file self = None →
  ∃ e,
    run_code run_code_from_file self fs = Raised e fs
    ∧ (e = RemoveTypeError ∨ ∃ n, e = ExtractionFailed n).
Proof.
  intros Hnone. unfold run_code, delete_output_file. rewrite Hnone.
  destruct (extract_code (response self)); eauto.
Qed.

End Run.

Lemma run_code_never_returns_stale_output_witness :
  ∃ e fs',
    run_code run_nothing example_runner {[ "out.txt" := "old output" ]} = Raised e fs'
    ∧ ((∃ n, e = ExtractionFailed n) ∨ (∃ x, e = FailedRunning x)
       ∨ e = FailedLoadingOutput).
Proof.
  apply (run_code_never_returns_stale_output run_nothing example_runner
           {[ "out.txt" := "old output" ]} "out.txt").
  - reflexivity.
  - intros c s fs0 fs1 [= <-] Hnone. exact Hnone.
Defined.

Lemma run_code_without_output_file_witness :
  ∃ e,
    run_code run_echo
      {| response := resp1; output_file := None; script_file := None |} ∅
    = Raised e ∅
    ∧ (e = RemoveTypeError ∨ ∃ n, e = ExtractionFailed n).
Proof.
  apply (run_code_without_output_file run_echo
           {| response := resp1; output_file := None; script_file := None |} ∅).
  reflexivity.
Defined.

End CodeRunnerRunProofs.

(** * Properties of the requirements with their contents *)

Module WithContentProofs.
Import Py RunIssues OutputFiles OutputFilesWithContent DictFacts.

Section DictKeys.
Context {K V : Type} `{EqDecision K}.
Implicit Types (d : list (K * V)).

Lemma dict_set_new k v d : k ∉ d.*1 → dict_set k v d = d ++ [(k, v)].
Proof.
  induction d as [|[k' v'] d IH]; simpl; [done|].
  intros [Hne Hd]%not_elem_of_cons. rewrite decide_False by done.
  by rewrite IH.
Qed.

Lemma dict_set_keys_old k v d : k ∈ d.*1 → (dict_set k v d).*1 = d.*1.
Proof.
  induction d as [|[k' v'] d IH]; simpl; [by intros ?%elem_of_nil|].
  destruct (decide (k = k')) as [->|Hne]; [done|].
  intros [?|Hin]%elem_of_cons; [done|]. rewrite fmap_cons. f_equal. auto.
Qed.

Lemma dict_get_app_None k d d' :
  dict_get k d = None → dict_get k (d ++ d') = dict_get k d'.
Proof.
  induction d as [|[k' v'] d IH]; simpl; [done|].
  destruct (decide (k = k')); [done | auto].
Qed.

Lemma dict_get_app_Some k v d d' :
  dict_get k d = Some v → dict_get k (d ++ d') = Some v.
Proof.
  induction d as [|[k' v'] d IH]; simpl; [done|].
  destruct (decide (k = k')); [done | auto].
Qed.

End DictKeys.

Section Structure.
Context `{Imports}.
Implicit Types (self : list OutputFileRequirement) (r : OutputFileRequirement).
Implicit Types (fs : gmap string string).

(** The dictionary of one requirement has its files as keys, in order. *)
Lemma contents_of_files_keys r run_folder output_files : ∀ so_far fs contents fs',
  NoDup (so_far.*1 ++ output_files) →
  contents_of_files r run_folder output_files so_far fs = Returned contents fs' →
  contents.*1 = so_far.*1 ++ output_files.
Proof.
  induction output_files as [|f rest IH]; intros so_far fs contents fs' Hnd; simpl.
  - intros [= <- _]. by rewrite app_nil_r.
  - destruct (get_content_and_delete_if_needed _ _ _) as [c fs1|]; [|done].
    intros Hrun. apply NoDup_app in Hnd as (Hso & Hdisj & Hrest).
    apply NoDup_cons in Hrest as [Hf Hrest].
    assert (f ∉ so_far.*1) as Hfresh by (intros Hin; apply (Hdisj _ Hin); left).
    apply IH in Hrun.
    + rewrite Hrun, dict_set_new, fmap_app by done. simpl.
      by rewrite <- app_assoc.
    + rewrite dict_set_new, fmap_app by done. simpl. rewrite <- app_assoc. simpl.
      apply NoDup_app. split_and!; [done | | by apply NoDup_cons].
      intros x Hx Hin. apply (Hdisj x Hx). done.
Qed.

(** The result of the conversion has one entry per item of the assignment,
    in order, with the same requirement and, as keys, the files assigned. *)
Lemma contents_of_requirements_keys run_folder items : ∀ so_far fs result fs',
  NoDup (so_far.*1 ++ items.*1) →
  contents_of_requirements run_folder items so_far fs = Returned result fs' →
  ∃ added,
    result = so_far ++ added
    ∧ Forall2 (λ res item, res.1 = item.1 ∧ (NoDup item.2 → res.2.*1 = item.2))
        added items.
Proof.
  induction items as [|[r0 files0] items IH]; intros so_far fs result fs' Hnd; simpl.
  - intros [= <- _]. exists []. by rewrite app_nil_r.
  - destruct (contents_of_files r0 run_folder files0 [] fs) as [contents fs1|] eqn:Hrun0;
      [|done].
    intros Hrun. apply NoDup_app in Hnd as (Hso & Hdisj & Hrest).
    apply NoDup_cons in Hrest as [Hr0 Hrest].
    assert (r0 ∉ so_far.*1) as Hfresh by (intros Hin; apply (Hdisj _ Hin); left).
    rewrite dict_set_new in Hrun by done.
    apply IH in Hrun as (added & -> & Hall).
    + exists ((r0, contents) :: added). split; [by rewrite <- app_assoc|].
      constructor; [|done]. split; [done|]. simpl. intros Hf.
      by apply (contents_of_files_keys _ _ _ [] _ _ _ Hf) in Hrun0.
    + rewrite fmap_app. simpl. rewrite <- app_assoc. simpl.
      apply NoDup_app. split_and!; [done | | by apply NoDup_cons].
      intros x Hx Hin. apply (Hdisj x Hx). done.
Qed.

Lemma assign_files_keys self created : ∀ d0 u0,
  (∀ r, r ∈ self → r ∈ d0.*1) →
  (assign_files self created d0 u0).1.*1 = d0.*1.
Proof.
  induction created as [|f rest IH]; intros d0 u0 Hkeys; simpl; [done|].
  destruct (matching_requirement self f) as [r|] eqn:Hm; [|by apply IH].
  assert (r ∈ d0.*1) as Hr
    by (eapply Hkeys, OutputFilesProofs.matching_requirement_elem; done).
  rewrite IH; [by apply dict_set_keys_old|].
  intros r' Hr'. rewrite dict_set_keys_old by done. auto.
Qed.

Lemma empty_assignment_elem self r : r ∈ (empty_assignment self).*1 ↔ r ∈ self.
Proof.
  pose proof (OutputFilesProofs.empty_assignment_get self r) as Hget.
  split.
  - intros Hin. destruct (decide (r ∈ self)); [done|].
    apply dict_get_None in Hget. done.
  - intros Hin. rewrite decide_True in Hget by done.
    apply dict_get_Some_in in Hget. apply list_elem_of_fmap. by exists (r, []).
Qed.

Lemma empty_assignment_keys self : NoDup self → (empty_assignment self).*1 = self.
Proof.
  unfold empty_assignment.
  assert (∀ d0 : list (OutputFileRequirement * list string),
            NoDup (d0.*1 ++ self) →
            (foldl (λ d requirement, dict_set requirement [] d) d0 self).*1
            = d0.*1 ++ self) as Hgen.
  { induction self as [|x self IH]; intros d0 Hnd; simpl; [by rewrite app_nil_r|].
    apply NoDup_app in Hnd as (Hd0 & Hdisj & Hself).
    apply NoDup_cons in Hself as [Hx Hself].
    assert (x ∉ d0.*1) as Hfresh by (intros Hin; apply (Hdisj _ Hin); left).
    rewrite IH; rewrite dict_set_new, fmap_app by done; simpl.
    - by rewrite <- app_assoc.
    - rewrite <- app_assoc. simpl. apply NoDup_app.
      split_and!; [done | | by apply NoDup_cons].
      intros y Hy Hin. apply (Hdisj y Hy). done. }
  intros Hnd. by apply (Hgen []).
Qed.

(** The keys of the assignment are the requirements. *)
Lemma assignment_keys self created :
  let items := get_requirements_to_output_files self created in
  NoDup items.*1 ∧ (∀ r, r ∈ items.*1 ↔ r ∈ self) ∧ (NoDup self → items.*1 = self).
Proof.
  unfold get_requirements_to_output_files,
    _get_requirements_to_output_files_and_unmatched_files. cbv zeta.
  rewrite assign_files_keys by (intros r; apply empty_assignment_elem).
  split_and!.
  - apply OutputFilesProofs.empty_assignment_NoDup.
  - apply empty_assignment_elem.
  - apply empty_assignment_keys.
Qed.

Lemma Forall2_keys (result : list (OutputFileRequirement * list (string * content)))
    (items : list (OutputFileRequirement * list string)) :
  Forall2 (λ res item, res.1 = item.1 ∧ (NoDup item.2 → res.2.*1 = item.2))
    result items →
  result.*1 = items.*1.
Proof.
  induction 1 as [|?? ?? [Hkey _] _ IH]; [done|].
  rewrite !fmap_cons. by rewrite Hkey, IH.
Qed.

Lemma Forall2_files (result : list (OutputFileRequirement * list (string * content)))
    (items : list (OutputFileRequirement * list string)) :
  Forall2 (λ res item, res.1 = item.1 ∧ (NoDup item.2 → res.2.*1 = item.2))
    result items →
  Forall (λ item, NoDup item.2) items →
  Forall2 (λ res item, res.1 = item.1 ∧ res.2.*1 = item.2) result items.
Proof.
  induction 1 as [|?? ?? [? Hf]]; intros Hnd; [constructor|].
  apply Forall_cons in Hnd as [Hnd0 Hnd]. constructor; auto.
Qed.

(** The files assigned to each requirement are distinct when the created
    files are. *)
Lemma assignment_files_NoDup self created :
  NoDup created →
  Forall (λ item : OutputFileRequirement * list string, NoDup item.2)
    (get_requirements_to_output_files self created).
Proof.
  intros Hnd. apply Forall_forall. intros [r l] Hin. simpl.
  destruct (OutputFilesProofs.reconcile_lists self created) as (Hget & _ & _).
  fold (get_requirements_to_output_files self created) in Hget.
  pose proof (proj1 (assignment_keys self created)) as Hkeys.
  apply (OutputFilesProofs.dict_get_of_elem _ _ _ Hkeys) in Hin.
  rewrite Hget in Hin. destruct (decide (r ∈ self)); [|done].
  injection Hin as <-. by apply NoDup_filter.
Qed.

Lemma sorted_NoDup created : NoDup created → NoDup (sorted created).
Proof.
  intros Hnd. assert (sorted created ≡ₚ created) as ->; [|done].
  apply merge_sort_Permutation.
Qed.

End Structure.

Section RoundTrip.
Context `{HypertargetImports}.
Implicit Types (self : list OutputFileRequirement) (r : OutputFileRequirement).
Implicit Types (fs : gmap string string).

(** X5. A conversion that returns gives a dictionary whose keys are the
    requirements, each once; for requirements declared without repetition,
    converting the dictionary back gives the requirements as they were
    declared, so both name the same single content file. *)
Theorem conversion_keeps_the_requirements self created run_folder fs result fs' :
  convert_to_output_file_requirements_with_content self created run_folder fs
  = Returned result fs' →
  NoDup (convert_to_output_file_requirements result)
  ∧ (∀ r, r ∈ convert_to_output_file_requirements result ↔ r ∈ self)
  ∧ (NoDup self →
     convert_to_output_file_requirements result = self
     ∧ get_single_content_file result = OutputFiles.get_single_content_file self).
Proof.
  unfold convert_to_output_file_requirements_with_content. intros Hrun.
  destruct (assignment_keys self (sorted created)) as (Hnd & Hset & Hsame).
  apply contents_of_requirements_keys in Hrun as (added & -> & Hall); [|done].
  apply Forall2_keys in Hall. unfold convert_to_output_file_requirements.
  simpl. rewrite Hall. split_and!; [done..|].
  intros Hself. split; [by apply Hsame|].
  unfold get_single_content_file, convert_to_output_file_requirements.
  simpl. by rewrite Hall, Hsame.
Qed.

(** X6. After a conversion that returns, every created file is listed
    either by [get_all_created_files] of the result or by
    [get_unmatched_files] of the requirements, and as often as it was
    created: none is lost, none is listed twice. *)
Theorem created_files_are_listed_or_unmatched self created run_folder fs result fs' :
  NoDup created →
  convert_to_output_file_requirements_with_content self created run_folder fs
  = Returned result fs' →
  get_all_created_files result ++ get_unmatched_files self created ≡ₚ created
  ∧ (∀ f, f ∈ get_all_created_files result
          ↔ f ∈ created ∧ ∃ r, r ∈ self ∧ matches r f = true).
Proof.
  intros Hnd. unfold convert_to_output_file_requirements_with_content. intros Hrun.
  destruct (assignment_keys self (sorted created)) as (Hkeys & _ & _).
  apply contents_of_requirements_keys in Hrun as (added & -> & Hall); [|done].
  apply Forall2_files in Hall;
    [|by apply assignment_files_NoDup, sorted_NoDup].
  simpl. set (items := get_requirements_to_output_files self (sorted created)) in *.
  assert (get_all_created_files added = concat items.*2) as Hfiles.
  { unfold get_all_created_files. clear -Hall.
    induction Hall as [|[r c] [r' l] ?? [_ Hl]]; [done|].
    rewrite bind_cons. simpl in *. by rewrite Hl, IHHall. }
  rewrite Hfiles.
  assert (sorted created ≡ₚ created) as Hsorted by apply merge_sort_Permutation.
  destruct (OutputFilesProofs.reconcile_lists self (sorted created))
    as (Hget & Hun & Hperm).
  destruct (OutputFilesProofs.reconcile_lists self created) as (_ & Hun' & _).
  fold (get_unmatched_files self (sorted created)) in Hun, Hperm.
  fold (get_unmatched_files self created) in Hun'.
  fold (get_requirements_to_output_files self (sorted created)) in Hget, Hperm.
  fold items in Hget, Hperm.
  assert (get_unmatched_files self created ≡ₚ get_unmatched_files self (sorted created))
    as Hunm by (rewrite Hun, Hun'; by f_equiv).
  split; [by rewrite Hunm, Hperm|].
  intros f. split.
  - intros (l & Hl & Hf)%OutputFilesProofs.elem_of_concat.
    apply list_elem_of_fmap in Hl as ([r l'] & -> & Hrl). simpl in Hf.
    apply (OutputFilesProofs.dict_get_of_elem _ _ _ Hkeys) in Hrl.
    rewrite Hget in Hrl. destruct (decide (r ∈ self)) as [Hr|]; [|done].
    injection Hrl as <-. apply list_elem_of_filter in Hf as [Hm Hf].
    split; [by rewrite <- Hsorted|]. exists r. split; [done|].
    by apply OutputFilesProofs.matching_requirement_first in Hm
      as (? & ? & _ & ? & _).
  - intros (Hf & r & Hr & Hm).
    destruct (matching_requirement self f) as [r0|] eqn:Hm0.
    + pose proof (OutputFilesProofs.matching_requirement_elem _ _ _ Hm0) as Hr0.
      apply OutputFilesProofs.elem_of_concat.
      exists (filter (λ g, matching_requirement self g = Some r0) (sorted created)).
      split.
      * apply list_elem_of_fmap.
        exists (r0, filter (λ g, matching_requirement self g = Some r0) (sorted created)).
        split; [done|]. apply dict_get_Some_in.
        by rewrite Hget, decide_True.
      * apply list_elem_of_filter. split; [done | by rewrite Hsorted].
    + rewrite OutputFilesProofs.matching_requirement_none in Hm0.
      rewrite (Hm0 r Hr) in Hm. done.
Qed.

End RoundTrip.

Section Contents.
Context `{HypertargetImports}.
Implicit Types (self : with_content) (r : OutputFileRequirement).

Lemma dict_set_elem {V} (k f : string) (v : V) d :
  f ∈ (dict_set k v d).*1 ↔ f = k ∨ f ∈ d.*1.
Proof.
  induction d as [|[k' v'] d IH]; simpl.
  - rewrite list_elem_of_singleton. split; [auto|]. by intros [?|?%elem_of_nil].
  - destruct (decide (k = k')) as [->|Hne]; simpl.
    + rewrite !elem_of_cons. tauto.
    + rewrite !elem_of_cons, IH. tauto.
Qed.

(** Without hypertargets no content fails to be stored. *)
Lemma content_to_store_plain is_pretty pvalue_on_str is_block r num_file name c :
  is_content r = true →
  ∃ c', content_to_store is_pretty pvalue_on_str false is_block r num_file name c
        = inr c'
        ∧ (is_pretty = false → c' = c).
Proof.
  intros Hr. unfold content_to_store. destruct is_pretty; [|by eauto].
  destruct r; try done; simpl; by eexists.
Qed.

Lemma contents_of_requirement_plain is_pretty pvalue_on_str match_filename is_block r
    files : ∀ num_file result,
  ∃ d,
    contents_of_requirement is_pretty pvalue_on_str false match_filename is_block
      r num_file files result = inr d
    ∧ (∀ f, f ∈ d.*1
            ↔ f ∈ result.*1
              ∨ (is_content r = true ∧ fnmatch f match_filename = true ∧ f ∈ files.*1))
    ∧ (is_pretty = false → NoDup (result.*1 ++ files.*1) →
       d = result
           ++ List.filter (λ nc, is_content r && fnmatch nc.1 match_filename) files).
Proof.
  induction files as [|[name c] files IH]; intros num_file result;
    cbn [contents_of_requirement].
  - exists result. split_and!; [done| |intros; simpl; by rewrite app_nil_r].
    intros f. split; [auto|]. by intros [?|(_ & _ & ?%elem_of_nil)].
  - destruct (is_content r && fnmatch name match_filename) eqn:Hkeep.
    + apply andb_true_iff in Hkeep as [Hr Hm].
      destruct (content_to_store_plain is_pretty pvalue_on_str is_block r num_file
                  name c Hr) as (c' & -> & Hc').
      destruct (IH (S num_file) (dict_set name c' result)) as (d & -> & Hkeys & Heq).
      exists d. split_and!; [done| |].
      * intros f. rewrite Hkeys, dict_set_elem, fmap_cons, elem_of_cons. simpl.
        split; [|tauto]. intros [[->|?]|(? & ? & ?)]; auto 6.
      * intros Hp Hnd. rewrite (Hc' Hp) in *. cbn [List.filter fst].
        rewrite Hm, Hr. rewrite Hr in Heq. cbn [andb] in Heq |- *.
        rewrite fmap_cons in Hnd. simpl in Hnd.
        apply NoDup_app in Hnd as (Hres & Hdisj & Hfiles).
        apply NoDup_cons in Hfiles as [Hname Hfiles].
        assert (name ∉ result.*1) as Hfresh
          by (intros Hin; apply (Hdisj _ Hin); left).
        rewrite Heq; [|done|].
        -- rewrite dict_set_new by done. by rewrite <- app_assoc.
        -- rewrite dict_set_new by done.
           rewrite fmap_app. simpl. rewrite <- app_assoc. simpl.
           apply NoDup_app. split_and!; [done| |by apply NoDup_cons].
           intros x Hx Hin. apply (Hdisj x Hx). done.
    + destruct (IH (S num_file) result) as (d & -> & Hkeys & Heq).
      exists d. split_and!; [done| |].
      * intros f. rewrite Hkeys, fmap_cons, elem_of_cons. simpl.
        split; [tauto|]. intros [?|(Hr & Hm & [->|?])]; auto.
        rewrite Hr, Hm in Hkeep. done.
      * intros Hp Hnd. simpl. rewrite Hkeep. apply Heq; [done|].
        rewrite fmap_cons in Hnd. simpl in Hnd.
        apply NoDup_app in Hnd as (Hres & Hdisj & Hfiles).
        apply NoDup_cons in Hfiles as [Hname Hfiles].
        apply NoDup_app. split_and!; [done| |done].
        intros x Hx Hin. apply (Hdisj x Hx). by right.
Qed.

Lemma contents_of_items_plain is_pretty pvalue_on_str match_filename is_block
    (items : with_content) : ∀ result,
  ∃ d,
    contents_of_items is_pretty pvalue_on_str false match_filename is_block
      items result = inr d
    ∧ (∀ f, f ∈ d.*1
            ↔ f ∈ result.*1
              ∨ (fnmatch f match_filename = true ∧ f ∈ (content_files items).*1))
    ∧ (is_pretty = false → NoDup (result.*1 ++ get_all_created_files items) →
       d = result
           ++ List.filter (λ nc, fnmatch nc.1 match_filename) (content_files items)).
Proof.
  induction items as [|[r files] items IH]; intros result; cbn [contents_of_items].
  - exists result. split_and!; [done| |intros; simpl; by rewrite app_nil_r].
    intros f. split; [auto|]. by intros [?|(_ & ?%elem_of_nil)].
  - destruct (contents_of_requirement_plain is_pretty pvalue_on_str match_filename
                is_block r files 0%nat result) as (d0 & -> & Hkeys0 & Heq0).
    destruct (IH d0) as (d & -> & Hkeys & Heq).
    unfold content_files, get_all_created_files. rewrite !bind_cons. simpl.
    fold (content_files items). fold (get_all_created_files items).
    exists d. split_and!; [done| |].
    + intros f. rewrite Hkeys, Hkeys0, fmap_app, elem_of_app.
      destruct (is_content r); simpl; [intuition auto|].
      rewrite elem_of_nil. intuition auto; done.
    + intros Hp Hnd. rewrite app_assoc in Hnd.
      apply NoDup_app in Hnd as (Hnd0 & Hdisj & Hrest).
      pose proof (Heq0 Hp Hnd0) as Hd0. rewrite Heq; [|done|].
      * rewrite Hd0, <- app_assoc. f_equal. rewrite List.filter_app. f_equal.
        destruct (is_content r); simpl; [done|].
        clear. induction files; simpl; auto.
      * assert (∀ x, x ∈ d0.*1 → x ∈ result.*1 ++ files.*1) as Hsub.
        { intros x Hx. apply Hkeys0 in Hx as [Hx|(_ & _ & Hx)];
            apply elem_of_app; auto. }
        apply NoDup_app. split_and!; [|by intros x Hx%Hsub; apply Hdisj|done].
        rewrite Hd0, fmap_app.
        apply NoDup_app in Hnd0 as (Hres & Hdisj0 & Hfiles).
        assert (∀ x, x ∈ (List.filter
                            (λ nc : string * content,
                               is_content r && fnmatch nc.1 match_filename) files).*1 →
                     x ∈ files.*1) as Hsubf.
        { intros x (nc & -> & Hin)%list_elem_of_fmap.
          apply list_elem_of_In, List.filter_In in Hin as [Hin _].
          apply list_elem_of_fmap. exists nc. by rewrite list_elem_of_In. }
        apply NoDup_app. split_and!; [done| |].
        -- intros x Hx Hin%Hsubf. by apply (Hdisj0 x Hx).
        -- clear -Hfiles. induction files as [|[n c] files IHf]; [constructor|].
           rewrite fmap_cons in Hfiles. apply NoDup_cons in Hfiles as [Hn Hfiles].
           simpl. destruct (is_content r && fnmatch n match_filename);
             [|by apply IHf].
           rewrite fmap_cons. apply NoDup_cons. split; [|by apply IHf].
           intros Hin. apply Hn.
           apply list_elem_of_fmap in Hin as (nc & -> & Hin).
           apply list_elem_of_In, List.filter_In in Hin as [Hin _].
           apply list_elem_of_fmap. exists nc. by rewrite list_elem_of_In.
Qed.

Lemma filter_keys_content_files self match_filename :
  (List.filter (λ nc : string * content, fnmatch nc.1 match_filename)
     (content_files self)).*1
  = get_created_content_files self match_filename.
Proof.
  unfold content_files, get_created_content_files.
  induction self as [|[r files] self IH]; [done|].
  rewrite !bind_cons, List.filter_app, fmap_app, IH. f_equal.
  cbn [fst snd]. destruct (is_content r); cbn [andb].
  - induction files as [|[n c] files IHf]; [done|].
    rewrite fmap_cons. cbn [List.filter fst].
    destruct (fnmatch n match_filename); rewrite ?fmap_cons; by rewrite IHf.
  - induction files as [|[n c] files IHf]; [done|].
    rewrite fmap_cons. cbn [List.filter]. by rewrite <- IHf.
Qed.

(** X7. For a dictionary that holds every file under one requirement
    only, [get_created_content_files_to_contents] does not fail and maps
    each file that is stored under a content requirement and matches the
    pattern to the content stored for it, in the order of the dictionary. Its
    keys are the files [get_created_content_files] lists; no file of a
    requirement without content is among them. *)
Theorem content_files_map_to_their_contents self match_filename :
  NoDup (get_all_created_files self) →
  get_created_content_files_to_contents self match_filename
  = inr (List.filter (λ nc, fnmatch nc.1 match_filename) (content_files self))
  ∧ (List.filter (λ nc : string * content, fnmatch nc.1 match_filename)
       (content_files self)).*1
    = get_created_content_files self match_filename.
Proof.
  intros Hnd. split; [|apply filter_keys_content_files].
  unfold get_created_content_files_to_contents, _get_created_content_files_to_contents.
  destruct (contents_of_items_plain false None match_filename false self [])
    as (d & -> & _ & Heq).
  by rewrite Heq.
Qed.

(** The stored content files hold each file once when the dictionary does. *)
Lemma content_files_NoDup self :
  NoDup (get_all_created_files self) → NoDup (content_files self).*1.
Proof.
  intros Hnd. apply (sublist_NoDup _ (get_all_created_files self)); [done|].
  clear Hnd. unfold content_files, get_all_created_files.
  induction self as [|[r files] self IH]; [done|].
  rewrite !bind_cons, fmap_app. apply sublist_app; [|done].
  simpl. destruct (is_content r); [done|]. apply sublist_nil_l.
Qed.

(** The single content file is looked up among the stored content files:
    KeyError when it is not there. *)
Lemma get_single_output_missing self pvalue_on_str name is_pretty :
  get_single_content_file self = Some name →
  name ∉ (content_files self).*1 →
  get_single_output self is_pretty pvalue_on_str = KeyError name.
Proof.
  unfold get_single_output, _get_created_content_files_to_contents.
  intros -> Hout.
  destruct (contents_of_items_plain is_pretty pvalue_on_str "*" false self [])
    as (d & -> & Hkeys & _).
  destruct (dict_get name d) as [c|] eqn:Hget; [|done].
  apply dict_get_Some_in in Hget. destruct Hout.
  assert (name ∈ d.*1) as Hin by (apply list_elem_of_fmap; by exists (name, c)).
  apply Hkeys in Hin as [[]%elem_of_nil|[_ ?]]. done.
Qed.

(** ... and its raw content when it is. *)
Lemma get_single_output_found self pvalue_on_str name c :
  (∀ name, fnmatch name "*" = true) →
  get_single_content_file self = Some name →
  NoDup (get_all_created_files self) →
  (name, c) ∈ content_files self →
  get_single_output self false pvalue_on_str = Found (Some c).
Proof.
  unfold get_single_output, _get_created_content_files_to_contents.
  intros Hstar -> Hnd Hin.
  destruct (contents_of_items_plain false pvalue_on_str "*" false self [])
    as (d & -> & _ & Heq).
  rewrite Heq by done. cbn [app].
  assert (∀ l : list (string * content),
            List.filter (λ nc, fnmatch nc.1 "*") l = l) as ->.
  { induction l as [|nc l IH]; [done|]. simpl. by rewrite Hstar, IH. }
  by rewrite (OutputFilesProofs.dict_get_of_elem name c);
    [|apply content_files_NoDup|].
Qed.

(** X8. [get_single_output] returns None when the requirements
    name no single content file. When they name one, the method looks it up
    among the files stored under the content requirements: it raises KeyError
    when no such file was stored, and otherwise returns, for a dictionary that
    holds every file once and when asked for the raw content, the content
    stored for the file. *)
Theorem get_single_output_looks_the_file_up self pvalue_on_str :
  (∀ name, fnmatch name "*" = true) →
  (get_single_content_file self = None →
   ∀ is_pretty, get_single_output self is_pretty pvalue_on_str = Found None)
  ∧ (∀ name is_pretty,
       get_single_content_file self = Some name →
       name ∉ (content_files self).*1 →
       get_single_output self is_pretty pvalue_on_str = KeyError name)
  ∧ (∀ name c,
       get_single_content_file self = Some name →
       NoDup (get_all_created_files self) →
       (name, c) ∈ content_files self →
       get_single_output self false pvalue_on_str = Found (Some c)).
Proof.
  intros Hstar. split_and!.
  - unfold get_single_output. by intros ->.
  - intros name is_pretty. apply get_single_output_missing.
  - intros name c. by apply get_single_output_found.
Qed.

End Contents.

Section Frame.
Context `{Imports}.
Implicit Types (self : list OutputFileRequirement) (r : OutputFileRequirement).
Implicit Types (fs : gmap string string).

(** Every file of the assignment is a created file, under the first
    requirement that matches it. *)
Lemma assignment_items_sound self created r l f :
  (r, l) ∈ get_requirements_to_output_files self (sorted created) → f ∈ l →
  f ∈ created ∧ first_match self f r.
Proof.
  intros Hrl Hf.
  assert (sorted created ≡ₚ created) as Hsorted by apply merge_sort_Permutation.
  destruct (OutputFilesProofs.reconcile_lists self (sorted created))
    as (Hlist & _ & _).
  fold (get_requirements_to_output_files self (sorted created)) in Hlist.
  pose proof (proj1 (assignment_keys self (sorted created))) as Hkeys.
  apply (OutputFilesProofs.dict_get_of_elem _ _ _ Hkeys) in Hrl.
  rewrite Hlist in Hrl. destruct (decide (r ∈ self)); [|done].
  injection Hrl as <-. apply list_elem_of_filter in Hf as [Hm Hf].
  split; [by rewrite <- Hsorted|].
  by apply OutputFilesProofs.matching_requirement_first.
Qed.

Lemma get_content_and_delete_frame r path fs :
  files_after (get_content_and_delete_if_needed r path fs) = fs
  ∨ (files_after (get_content_and_delete_if_needed r path fs) = delete path fs
     ∧ retained r = false).
Proof.
  unfold get_content_and_delete_if_needed, get_content, delete_if_needed, retained.
  destruct r; simpl; repeat case_match; simpl; simplify_eq/=; auto;
    right; (split; [done|]); by apply negb_true_iff.
Qed.

Lemma contents_of_files_frame r run_folder output_files : ∀ so_far fs p,
  let fs' := files_after (contents_of_files r run_folder output_files so_far fs) in
  fs' !! p = fs !! p
  ∨ (fs' !! p = None ∧ retained r = false
     ∧ p ∈ file_path run_folder <$> output_files).
Proof.
  induction output_files as [|f rest IH]; intros so_far fs p; [by left|].
  cbn [contents_of_files].
  pose proof (get_content_and_delete_frame r (file_path run_folder f) fs) as Hone.
  destruct (get_content_and_delete_if_needed r (file_path run_folder f) fs)
    as [c fs1|e fs1]; simpl in Hone.
  - destruct (IH (dict_set f c so_far) fs1 p) as [Hsame|(Hnone & Hret & Hin)].
    + cbv zeta in *. rewrite Hsame. destruct Hone as [->|[-> Hret]]; [by left|].
      destruct (decide (p = file_path run_folder f)) as [->|Hne].
      * right. rewrite lookup_delete_eq. split_and!; [done..|]. left.
      * left. by rewrite lookup_delete_ne.
    + right. split_and!; [done..|]. by right.
  - simpl. destruct Hone as [->|[-> Hret]]; [by left|].
    destruct (decide (p = file_path run_folder f)) as [->|Hne].
    + right. rewrite lookup_delete_eq. split_and!; [done..|]. left.
    + left. by rewrite lookup_delete_ne.
Qed.

Lemma contents_of_requirements_frame run_folder items : ∀ so_far fs p,
  let fs' := files_after (contents_of_requirements run_folder items so_far fs) in
  fs' !! p = fs !! p
  ∨ (fs' !! p = None
     ∧ ∃ r output_files f,
         (r, output_files) ∈ items ∧ retained r = false ∧ f ∈ output_files
         ∧ p = file_path run_folder f).
Proof.
  induction items as [|[r0 files0] items IH]; intros so_far fs p; [by left|].
  cbn [contents_of_requirements].
  pose proof (contents_of_files_frame r0 run_folder files0 [] fs p) as Hone.
  cbv zeta in Hone.
  assert (fs !! p = None ∨ fs !! p ≠ None →
          files_after (contents_of_files r0 run_folder files0 [] fs) !! p = None →
          files_after (contents_of_files r0 run_folder files0 [] fs) !! p = fs !! p
          ∨ retained r0 = false ∧ p ∈ file_path run_folder <$> files0) as Hcase.
  { intros _ Hnone. destruct Hone as [?|(_ & ? & ?)]; auto. }
  destruct (contents_of_files r0 run_folder files0 [] fs) as [contents fs1|e fs1];
    simpl in Hone, Hcase.
  - destruct (IH (dict_set r0 contents so_far) fs1 p)
      as [Hsame|(Hnone & r & l & f & Hrl & Hret & Hf & ->)]; cbv zeta in *.
    + rewrite Hsame. destruct Hone as [?|(Hnone & Hret & Hin)]; [by left|].
      right. split; [done|]. apply list_elem_of_fmap in Hin as (f & -> & Hf).
      exists r0, files0, f. split_and!; [left | done..].
    + right. split; [done|]. exists r, l, f. split_and!; [by right | done..].
  - simpl. destruct Hone as [?|(Hnone & Hret & Hin)]; [by left|].
    right. split; [done|]. apply list_elem_of_fmap in Hin as (f & -> & Hf).
    exists r0, files0, f. split_and!; [left | done..].
Qed.

(** X9. Whether the conversion returns or raises, it leaves every path
    of the run folder as it was, except that it may have removed created
    files whose first matching requirement does not retain its files: it
    writes no file, and removes no retained and no unmatched file. *)
Theorem conversion_only_removes_unretained_files self created run_folder fs p :
  let fs' :=
    files_after
      (convert_to_output_file_requirements_with_content self created run_folder fs) in
  fs' !! p = fs !! p
  ∨ (fs' !! p = None
     ∧ ∃ f r, f ∈ created ∧ first_match self f r ∧ retained r = false
              ∧ p = file_path run_folder f).
Proof.
  unfold convert_to_output_file_requirements_with_content. cbv zeta.
  destruct (contents_of_requirements_frame run_folder
              (get_requirements_to_output_files self (sorted created)) [] fs p)
    as [Hsame|(Hnone & r & l & f & Hrl & Hret & Hf & ->)]; [by left|].
  right. split; [done|].
  destruct (assignment_items_sound self created r l f Hrl Hf). by exists f, r.
Qed.

End Frame.

Section DeleteAll.
Context `{HypertargetImports}.
Implicit Types (self : list OutputFileRequirement) (r : OutputFileRequirement).
Implicit Types (fs : gmap string string).

(** The items of the assignment of distinct created files. *)
Lemma assignment_items self created :
  NoDup created →
  let items := get_requirements_to_output_files self (sorted created) in
  NoDup items.*1
  ∧ NoDup (concat items.*2)
  ∧ (∀ r l f, (r, l) ∈ items → f ∈ l → f ∈ created ∧ first_match self f r)
  ∧ (∀ f r, f ∈ created → first_match self f r → ∃ l, (r, l) ∈ items ∧ f ∈ l).
Proof.
  intros Hnd items.
  assert (sorted created ≡ₚ created) as Hsorted by apply merge_sort_Permutation.
  destruct (OutputFilesProofs.reconcile_lists self (sorted created))
    as (Hlist & _ & Hperm).
  fold (get_requirements_to_output_files self (sorted created)) in Hlist, Hperm.
  fold items in Hlist, Hperm.
  assert (NoDup items.*1) as Hkeys by apply assignment_keys.
  split_and!; [done | | |].
  - pose proof (transitivity Hperm Hsorted) as Hall. rewrite <- Hall in Hnd.
    by apply NoDup_app in Hnd as (? & _ & _).
  - intros r l f Hrl Hf.
    apply (OutputFilesProofs.dict_get_of_elem _ _ _ Hkeys) in Hrl.
    rewrite Hlist in Hrl. destruct (decide (r ∈ self)); [|done].
    injection Hrl as <-. apply list_elem_of_filter in Hf as [Hm Hf].
    split; [by rewrite <- Hsorted|].
    by apply OutputFilesProofs.matching_requirement_first.
  - intros f r Hf Hfirst.
    exists (filter (λ g, matching_requirement self g = Some r) (sorted created)).
    split.
    + apply dict_get_Some_in. rewrite Hlist.
      by rewrite decide_True by (by eapply OutputFilesProofs.first_match_elem).
    + apply list_elem_of_filter.
      split; [by apply OutputFilesProofs.matching_requirement_first|].
      by rewrite Hsorted.
Qed.

Lemma remove_all_spec paths : ∀ fs,
  NoDup paths → (∀ p, p ∈ paths → is_Some (fs !! p)) →
  ∃ fs'',
    remove_all paths fs = Returned () fs''
    ∧ ∀ p, fs'' !! p = if decide (p ∈ paths) then None else fs !! p.
Proof.
  induction paths as [|q paths IH]; intros fs Hnd Hex; simpl.
  - exists fs. split; [done|]. intros p.
    destruct (decide (p ∈ [])) as [[]%elem_of_nil|]; done.
  - apply NoDup_cons in Hnd as [Hq Hnd].
    destruct (Hex q) as [data Hdata]; [left|]. rewrite Hdata.
    destruct (IH (delete q fs) Hnd) as (fs'' & -> & Hfs).
    { intros p Hp. rewrite lookup_delete_ne; [apply Hex; by right|].
      by intros ->. }
    exists fs''. split; [done|]. intros p. rewrite Hfs.
    destruct (decide (p ∈ paths)) as [Hin|Hnin].
    + rewrite decide_True; [done | by right].
    + destruct (decide (p = q)) as [->|Hne].
      * rewrite lookup_delete_eq, decide_True; [done | left].
      * rewrite lookup_delete_ne by done. rewrite decide_False; [done|].
        by intros [?|?]%elem_of_cons.
Qed.

(** The kept files of the result are the files assigned to the requirements
    that retain their files. *)
Lemma get_created_data_files_converted
    (result : with_content) (items : list (OutputFileRequirement * list string)) :
  (∀ name, fnmatch name "*" = true) →
  Forall2 (λ res item, res.1 = item.1 ∧ res.2.*1 = item.2) result items →
  get_created_data_files result "*"
  = items ≫= λ item, if retained item.1 then item.2 else [].
Proof.
  intros Hstar. unfold get_created_data_files, retained.
  induction 1 as [|[r c] [r' l] ?? [Hr Hl] _ IH]; [done|].
  rewrite !bind_cons, IH. f_equal. simpl in *. subst r' l.
  destruct (truth _); simpl.
  - induction (c.*1) as [|n ns IHn]; [done|]. simpl. by rewrite Hstar, IHn.
  - induction (c.*1) as [|n ns IHn]; [done|]. done.
Qed.

(** X10. When every created file that some requirement matches is
    in the run folder and can be decoded, the conversion followed by
    [delete_all_created_files] both return, and together they remove every one
    of these files (the conversion those that are not retained, the deletion
    the retained ones) and leave every other path of the folder as it was. *)
Theorem conversion_then_delete_all_removes_matched_files self created run_folder fs :
  (∀ name, fnmatch name "*" = true) →
  NoDup created →
  (∀ f g, f ∈ created → g ∈ created →
          file_path run_folder f = file_path run_folder g → f = g) →
  (∀ f r, f ∈ created → first_match self f r →
          ∃ data c, fs !! file_path run_folder f = Some data ∧ decode r data = Some c) →
  ∃ result fs' fs'',
    convert_to_output_file_requirements_with_content self created run_folder fs
    = Returned result fs'
    ∧ delete_all_created_files result run_folder fs' = Returned () fs''
    ∧ (∀ f r, f ∈ created → first_match self f r →
         fs'' !! file_path run_folder f = None)
    ∧ (∀ p, (∀ f r, f ∈ created → first_match self f r →
                    p ≠ file_path run_folder f) →
            fs'' !! p = fs !! p).
Proof.
  intros Hstar Hnd Hinj Hex.
  unfold convert_to_output_file_requirements_with_content.
  destruct (assignment_items self created Hnd) as (Hkeys & Hfiles & Hitem & Hin).
  set (items := get_requirements_to_output_files self (sorted created)) in *.
  assert (∀ f, f ∈ concat items.*2 → f ∈ created) as Hconcat.
  { intros f (l & Hl & Hf)%OutputFilesProofs.elem_of_concat.
    apply list_elem_of_fmap in Hl as ([r l'] & -> & Hrl).
    by apply (Hitem r l'). }
  assert (NoDup (file_path run_folder <$> concat items.*2)) as Hpaths
    by (apply NoDup_fmap_2_strong; auto).
  destruct (OutputFilesProofs.contents_of_requirements_spec run_folder items [] fs
              Hkeys Hpaths)
    as (result & fs' & Hrun & Hfs & _ & _).
  { intros r l f Hrl Hf. destruct (Hitem r l f Hrl Hf). by apply Hex. }
  pose proof Hrun as Hshape.
  apply contents_of_requirements_keys in Hshape as (added & Hadded & Hall); [|done].
  simpl in Hadded. subst added. apply Forall2_files in Hall.
  2:{ by apply assignment_files_NoDup, sorted_NoDup. }
  pose proof (get_created_data_files_converted result items Hstar Hall) as Hkept.
  set (kept := items ≫= λ item, if retained item.1 then item.2 else []) in *.
  assert (∀ f, f ∈ kept ↔ ∃ r l, (r, l) ∈ items ∧ retained r = true ∧ f ∈ l)
    as Hkept_elem.
  { intros f. unfold kept. rewrite list_elem_of_bind. split.
    - intros ([r l] & Hf & Hrl). simpl in Hf.
      destruct (retained r) eqn:Hret; [|by apply elem_of_nil in Hf]. by exists r, l.
    - intros (r & l & Hrl & Hret & Hf). exists (r, l). simpl. by rewrite Hret. }
  assert (∀ p, p ∈ deleted_paths run_folder items
               ↔ ∃ r l f, (r, l) ∈ items ∧ retained r = false ∧ f ∈ l
                          ∧ p = file_path run_folder f) as Hdel.
  { intros p. unfold deleted_paths. rewrite list_elem_of_bind. split.
    - intros ([r l] & Hp & Hrl). simpl in Hp.
      destruct (retained r) eqn:Hret; [by apply elem_of_nil in Hp|].
      apply list_elem_of_fmap in Hp as (f & -> & Hf). by exists r, l, f.
    - intros (r & l & f & Hrl & Hret & Hf & ->). exists (r, l). simpl.
      rewrite Hret. split; [|done]. apply list_elem_of_fmap. eauto. }
  assert (kept `sublist_of` concat items.*2) as Hsub.
  { unfold kept. clear. induction items as [|[r l] items IH]; [done|].
    rewrite bind_cons, fmap_cons. simpl. apply sublist_app; [|done].
    destruct (retained r); [done | apply sublist_nil_l]. }
  destruct (remove_all_spec (file_path run_folder <$> kept) fs')
    as (fs'' & Hdelete & Hfs'').
  { apply (sublist_NoDup _ (file_path run_folder <$> concat items.*2)); [done|].
    by apply fmap_sublist. }
  { intros p (f & -> & Hf)%list_elem_of_fmap.
    apply Hkept_elem in Hf as (r & l & Hrl & Hret & Hf).
    destruct (Hitem r l f Hrl Hf) as [Hc Hfirst].
    rewrite Hfs, decide_False.
    - destruct (Hex f r Hc Hfirst) as (data & _ & -> & _). eauto.
    - intros (r' & l' & g & Hrl' & Hret' & Hg & Hpath)%Hdel.
      destruct (Hitem r' l' g Hrl' Hg) as [Hc' Hfirst'].
      apply Hinj in Hpath as <-; [|done..].
      rewrite (OutputFilesProofs.first_match_unique _ _ _ _ Hfirst Hfirst') in Hret.
      congruence. }
  exists result, fs', fs''. split_and!; [done| | |].
  - unfold delete_all_created_files. by rewrite Hkept.
  - intros f r Hf Hfirst. destruct (Hin f r Hf Hfirst) as (l & Hrl & Hfl).
    rewrite Hfs''. destruct (decide (_ ∈ _)); [done|].
    rewrite Hfs. destruct (retained r) eqn:Hret.
    + exfalso. apply n. apply list_elem_of_fmap. exists f. split; [done|].
      apply Hkept_elem. by exists r, l.
    + rewrite decide_True; [done|]. apply Hdel. by exists r, l, f.
  - intros p Hp. rewrite Hfs'', decide_False.
    + rewrite Hfs, decide_False; [done|].
      intros (r & l & f & Hrl & _ & Hf & ->)%Hdel.
      destruct (Hitem r l f Hrl Hf). by eapply Hp.
    + intros (f & -> & (r & l & Hrl & _ & Hf)%Hkept_elem)%list_elem_of_fmap.
      destruct (Hitem r l f Hrl Hf). by eapply Hp.
Qed.

End DeleteAll.

Section SingleOutput.
Context `{HypertargetImports}.
Implicit Types (self : list OutputFileRequirement) (r : OutputFileRequirement).
Implicit Types (fs : gmap string string).

(** X23. From the requirements to the single output of a run. When
    the requirements, declared without repetition, name a single content file
    and every matched created file is in the run folder and can be decoded,
    the conversion returns and [get_single_output] of its result gives the
    decoded content of that file, provided the file was created and the first
    requirement that matches it bears content. When the file was not created,
    or a requirement without content matches it first (an earlier pattern that
    shadows the content requirement), [get_single_output] raises KeyError. *)
Theorem single_output_of_a_conversion self created run_folder fs name pvalue_on_str :
  (∀ n, fnmatch n "*" = true) →
  NoDup self →
  NoDup created →
  (∀ f g, f ∈ created → g ∈ created →
          file_path run_folder f = file_path run_folder g → f = g) →
  (∀ f r, f ∈ created → first_match self f r →
          ∃ data c, fs !! file_path run_folder f = Some data ∧ decode r data = Some c) →
  OutputFiles.get_single_content_file self = Some name →
  ∃ result fs',
    convert_to_output_file_requirements_with_content self created run_folder fs
    = Returned result fs'
    ∧ (∀ r data c,
         name ∈ created → first_match self name r → is_content r = true →
         fs !! file_path run_folder name = Some data → decode r data = Some c →
         get_single_output result false pvalue_on_str = Found (Some c))
    ∧ (name ∉ created ∨ (∀ r, first_match self name r → is_content r = false) →
       ∀ is_pretty, get_single_output result is_pretty pvalue_on_str = KeyError name).
Proof.
  intros Hstar Hself Hnd Hinj Hex Hsingle.
  unfold convert_to_output_file_requirements_with_content.
  destruct (assignment_items self created Hnd) as (Hkeys & Hfiles & Hitem & Hin).
  pose proof (proj2 (proj2 (assignment_keys self (sorted created))) Hself) as Hsame.
  set (items := get_requirements_to_output_files self (sorted created)) in *.
  assert (NoDup (file_path run_folder <$> concat items.*2)) as Hpaths.
  { apply NoDup_fmap_2_strong; [|done]. intros f g Hf Hg. apply Hinj.
    - apply OutputFilesProofs.elem_of_concat in Hf as (l & Hl & Hf).
      apply list_elem_of_fmap in Hl as ([r l'] & -> & Hrl). by apply (Hitem r l').
    - apply OutputFilesProofs.elem_of_concat in Hg as (l & Hl & Hg).
      apply list_elem_of_fmap in Hl as ([r l'] & -> & Hrl). by apply (Hitem r l'). }
  destruct (OutputFilesProofs.contents_of_requirements_spec run_folder items [] fs
              Hkeys Hpaths)
    as (result & fs' & Hrun & _ & Hres & _).
  { intros r l f Hrl Hf. destruct (Hitem r l f Hrl Hf). by apply Hex. }
  pose proof Hrun as Hshape.
  apply contents_of_requirements_keys in Hshape as (added & Hadded & Hall); [|done].
  simpl in Hadded. subst added. pose proof (Forall2_keys _ _ Hall) as Hresult_keys.
  apply Forall2_files in Hall.
  2:{ by apply assignment_files_NoDup, sorted_NoDup. }
  assert (get_single_content_file result = Some name) as Hname.
  { unfold get_single_content_file, convert_to_output_file_requirements.
    by rewrite Hresult_keys, Hsame. }
  assert (get_all_created_files result = concat items.*2) as Hall_files.
  { unfold get_all_created_files. clear -Hall.
    induction Hall as [|[r c] [r' l] ?? [_ Hl]]; [done|].
    rewrite bind_cons. simpl in *. by rewrite Hl, IHHall. }
  exists result, fs'. split_and!; [done| |].
  - intros r data c Hcreated Hfirst Hcontent Hdata Hdecode.
    apply (get_single_output_found _ _ name); [done..|by rewrite Hall_files|].
    destruct (Hin name r Hcreated Hfirst) as (l & Hrl & Hl).
    destruct (Hres r l Hrl) as (contents & Hget & Hcontents).
    specialize (Hcontents name Hl). rewrite Hdata in Hcontents. simpl in Hcontents.
    rewrite Hdecode in Hcontents.
    apply dict_get_Some_in in Hget, Hcontents.
    unfold content_files. apply list_elem_of_bind. exists (r, contents).
    simpl. by rewrite Hcontent.
  - intros Hout is_pretty. apply get_single_output_missing; [done|].
    intros ([n c] & Hn & Hstored)%list_elem_of_fmap. simpl in Hn. subst n.
    unfold content_files in Hstored.
    apply list_elem_of_bind in Hstored as ([r contents] & Hnc & Hrc).
    simpl in Hnc. destruct (is_content r) eqn:Hcontent; [|by apply elem_of_nil in Hnc].
    apply list_elem_of_lookup in Hrc as [i Hi].
    destruct (Forall2_lookup_l _ _ _ _ _ Hall Hi) as ([r' l] & Hitem_i & Hr & Hl).
    simpl in Hr, Hl. subst r' l.
    destruct (Hitem r (contents.*1) name) as [Hcreated Hfirst].
    { by eapply list_elem_of_lookup_2. }
    { apply list_elem_of_fmap. by exists (name, c). }
    destruct Hout as [Hout|Hout]; [done|].
    rewrite (Hout r Hfirst) in Hcontent. done.
Qed.

End SingleOutput.

Section Examples.
Import ExampleImports.
Existing Instance example_imports.
Existing Instance example_hypertargets.

Lemma glob_star name : glob "*" name = true.
Proof. induction name as [|c name IH]; [reflexivity|]. exact IH. Qed.

Lemma example_conversion :
  convert_to_output_file_requirements_with_content example_requirements
    example_created (Some "run") example_files
  = Returned example_result {[ "run/data.csv" := "1,2"; "run/notes" := "x" ]}.
Proof. vm_compute. reflexivity. Qed.

Lemma example_created_NoDup : NoDup example_created.
Proof. apply (bool_decide_unpack _). vm_compute. reflexivity. Qed.

Lemma example_files_decodable f r :
  f ∈ example_created → first_match example_requirements f r →
  ∃ data c,
    example_files !! file_path (Some "run") f = Some data ∧ decode r data = Some c.
Proof.
  intros Hf Hr%OutputFilesProofs.matching_requirement_first.
  unfold example_created in Hf.
  repeat (apply elem_of_cons in Hf as [->|Hf]);
    [| |  |by apply elem_of_nil in Hf];
    vm_compute in Hr; try discriminate Hr; injection Hr as <-;
    eexists _, _; split; vm_compute; reflexivity.
Qed.

Lemma conversion_keeps_the_requirements_witness :
  NoDup (convert_to_output_file_requirements example_result)
  ∧ (∀ r, r ∈ convert_to_output_file_requirements example_result
          ↔ r ∈ example_requirements)
  ∧ (NoDup example_requirements →
     convert_to_output_file_requirements example_result = example_requirements
     ∧ get_single_content_file example_result
       = OutputFiles.get_single_content_file example_requirements).
Proof.
  apply (conversion_keeps_the_requirements example_requirements example_created
           (Some "run") example_files example_result
           {[ "run/data.csv" := "1,2"; "run/notes" := "x" ]}).
  exact example_conversion.
Defined.

Lemma created_files_are_listed_or_unmatched_witness :
  get_all_created_files example_result
    ++ get_unmatched_files example_requirements example_created
  ≡ₚ example_created
  ∧ (∀ f, f ∈ get_all_created_files example_result
          ↔ f ∈ example_created
            ∧ ∃ r, r ∈ example_requirements ∧ matches r f = true).
Proof.
  apply (created_files_are_listed_or_unmatched example_requirements example_created
           (Some "run") example_files example_result
           {[ "run/data.csv" := "1,2"; "run/notes" := "x" ]}).
  - exact example_created_NoDup.
  - exact example_conversion.
Defined.

Lemma content_files_map_to_their_contents_witness :
  get_created_content_files_to_contents example_result "*.txt"
  = inr (List.filter (λ nc, fnmatch nc.1 "*.txt") (content_files example_result))
  ∧ (List.filter (λ nc : string * content, fnmatch nc.1 "*.txt")
       (content_files example_result)).*1
    = get_created_content_files example_result "*.txt".
Proof.
  apply (content_files_map_to_their_contents example_result "*.txt").
  apply (bool_decide_unpack _). vm_compute. reflexivity.
Defined.

Lemma get_single_output_looks_the_file_up_witness :
  get_single_output example_result false None = Found (Some (Text "hello")).
Proof.
  refine (proj2 (proj2 (get_single_output_looks_the_file_up example_result None _))
            "out.txt" (Text "hello") _ _ _).
  - exact glob_star.
  - reflexivity.
  - apply (bool_decide_unpack _). vm_compute. reflexivity.
  - left.
Defined.

Lemma conversion_then_delete_all_removes_matched_files_witness :
  ∃ result fs' fs'',
    convert_to_output_file_requirements_with_content example_requirements
      example_created (Some "run") example_files
    = Returned result fs'
    ∧ delete_all_created_files result (Some "run") fs' = Returned () fs''
    ∧ (∀ f r, f ∈ example_created → first_match example_requirements f r →
         fs'' !! file_path (Some "run") f = None)
    ∧ (∀ p, (∀ f r, f ∈ example_created → first_match example_requirements f r →
                    p ≠ file_path (Some "run") f) →
            fs'' !! p = example_files !! p).
Proof.
  apply (conversion_then_delete_all_removes_matched_files example_requirements
           example_created (Some "run") example_files).
  - exact glob_star.
  - apply (bool_decide_unpack _). vm_compute. reflexivity.
  - intros f g _ _ E. simpl in E. by simplify_eq.
  - exact example_files_decodable.
Defined.

(** The text file the requirements ask for is created, and yet no single
    output is found: the data pattern declared first takes the file. *)
Example shadowed_single_output :
  OutputFiles.get_single_content_file shadowed_requirements = Some "out.txt"
  ∧ convert_to_output_file_requirements_with_content shadowed_requirements
      ["out.txt"] (Some "run") example_files
    = Returned shadowed_result example_files
  ∧ get_single_output shadowed_result false None = KeyError "out.txt".
Proof. split_and!; vm_compute; reflexivity. Qed.

Lemma single_output_of_a_conversion_witness :
  ∃ result fs',
    convert_to_output_file_requirements_with_content example_requirements
      example_created (Some "run") example_files
    = Returned result fs'
    ∧ (∀ r data c,
         "out.txt" ∈ example_created →
         first_match example_requirements "out.txt" r → is_content r = true →
         example_files !! file_path (Some "run") "out.txt" = Some data →
         decode r data = Some c →
         get_single_output result false None = Found (Some c))
    ∧ ("out.txt" ∉ example_created
       ∨ (∀ r, first_match example_requirements "out.txt" r → is_content r = false) →
       ∀ is_pretty, get_single_output result is_pretty None = KeyError "out.txt").
Proof.
  apply (single_output_of_a_conversion example_requirements example_created
           (Some "run") example_files "out.txt" None).
  - exact glob_star.
  - apply (bool_decide_unpack _). vm_compute. reflexivity.
  - exact example_created_NoDup.
  - intros f g _ _ E. simpl in E. by simplify_eq.
  - exact example_files_decodable.
  - reflexivity.
Defined.

End Examples.

End WithContentProofs.

(** * Further properties of the checker framework *)

Module CheckerFrameworkProofs.
Import Py RunIssues BaseChecker.

Section Loop.
Context {Fields : Type}.
Implicit Types (self : Checker Fields) (check : check_method Fields).
Implicit Types (cls : checker_class Fields).

(** X12. When CHOICE_OF_CHECKS is provided and names no check with the
    name of one of the check methods of the class, [run_checks] raises the
    AssertionError for a missing check method, whatever the checker holds and
    whatever the checks would do. *)
Theorem missing_check_method_fails_the_run cls choice m self :
  CHOICE_OF_CHECKS cls = Some choice →
  m ∈ check_methods cls →
  (∀ c, c ∈ choice → check_name c.1 ≠ check_name m) →
  ∃ missing,
    missing ∈ check_methods cls
    ∧ (∀ c, c ∈ choice → check_name c.1 ≠ check_name missing)
    ∧ run_checks cls self
      = inl (AssertionError ("Missing check method: " +:+ check_name missing)).
Proof.
  intros Hchoice Hm Hnone. unfold run_checks, _run_checks,
    _assert_if_provided_choice_of_checks_include_all_check_methods,
    _automatically_get_all_check_methods.
  rewrite Hchoice.
  destruct (List.find _ (check_methods cls)) as [missing|] eqn:Hfind.
  - apply List.find_some in Hfind as [Hin Hout]. exists missing.
    split_and!; [by apply list_elem_of_In | | done].
    intros c Hc Hname. apply negb_true_iff in Hout.
    assert (existsb (λ c0, same_method missing c0.1) choice = true) as Hex; [|congruence].
    apply existsb_exists. exists c. split; [by apply list_elem_of_In|].
    unfold same_method. apply String.eqb_eq. done.
  - exfalso. apply list_elem_of_In in Hm.
    pose proof (List.find_none _ _ Hfind m Hm) as Hout. simpl in Hout.
    apply negb_false_iff, existsb_exists in Hout as (c & Hc & Hsame).
    apply (Hnone c); [by apply list_elem_of_In|].
    unfold same_method in Hsame. apply String.eqb_eq in Hsame. done.
Qed.

(** *** ChainChecker *)
Implicit Types (chain : Chain).

(** The checker as the chain runs it: it receives the intermediate results
    of the chain, which do not replace its own. *)
Lemma chain_step cls (checker : Checker Fields) rest chain :
  chain_run_checks_loop ((cls, checker) :: rest) chain
  = match run_checks cls
            {| issues := issues checker;
               intermediate_results :=
                 chain_intermediate_results chain ∪ intermediate_results checker;
               stop_after_first_issue := stop_after_first_issue checker;
               fields := fields checker |} with
    | inl e => inl e
    | inr (found, results) =>
        let chain' :=
          {| chain_issues := chain_issues chain ++ found;
             chain_intermediate_results := results ∪ chain_intermediate_results chain;
             chain_stop_after_first_issue := chain_stop_after_first_issue chain |} in
        if negb (bool_decide (found = [])) && chain_stop_after_first_issue chain
        then inr chain'
        else chain_run_checks_loop rest chain'
    end.
Proof. reflexivity. Qed.

Lemma chain_keeps (checkers : list (checker_class Fields * Checker Fields)) :
  ∀ chain chain',
  chain_run_checks_loop checkers chain = inr chain' →
  chain_issues chain `prefix_of` chain_issues chain'
  ∧ chain_stop_after_first_issue chain' = chain_stop_after_first_issue chain.
Proof.
  induction checkers as [|[cls checker] rest IH]; intros chain chain'.
  - by intros [= ->].
  - rewrite chain_step. destruct (run_checks _ _) as [e|[found results]]; [done|].
    cbv zeta. destruct (_ && _).
    + intros [= <-]. simpl. split; [by apply prefix_app_r | done].
    + intros [Hp Hs]%IH. simpl in *. split; [|done].
      etrans; [|done]. by apply prefix_app_r.
Qed.

(** Checkers that leave the issues of the chain as they are were each run and
    found nothing; the chain goes on behind them. *)
Lemma chain_passes (before : list (checker_class Fields * Checker Fields)) :
  ∀ chain s1 rest,
  chain_run_checks_loop before chain = inr s1 →
  chain_issues s1 = chain_issues chain →
  chain_run_checks_loop (before ++ rest) chain = chain_run_checks_loop rest s1.
Proof.
  induction before as [|[cls checker] before IH]; intros chain s1 rest.
  - by intros [= ->].
  - rewrite <- app_comm_cons, !chain_step.
    destruct (run_checks _ _) as [e|[found results]]; [done|]. cbv zeta.
    destruct (bool_decide_reflect (found = [])) as [->|Hne]; simpl.
    + intros Hrun Hsame. apply IH; [done|]. rewrite Hsame. simpl.
      by rewrite app_nil_r.
    + destruct (chain_stop_after_first_issue chain).
      * intros [= <-]. simpl. intros Hsame. destruct Hne.
        apply (app_inv_head (chain_issues chain)). by rewrite app_nil_r.
      * intros Hrun Hsame. exfalso. apply chain_keeps in Hrun as [[k Hk] _].
        simpl in Hk. rewrite Hsame, <- app_assoc in Hk. destruct Hne.
        assert (found ++ k = []) as Hnil
          by (apply (app_inv_head (chain_issues chain)); by rewrite app_nil_r).
        by apply app_eq_nil in Hnil as [? _].
Qed.

(** X13. A chain that stops after the first issue ends at the first of
    its checkers that reports issues: when the checkers before it leave the
    issues of the chain as they are, the chain returns its issues followed by
    the issues of that checker and does not run the checkers behind it. *)
Theorem chain_stops_at_first_checker_with_issues before cls
    (checker : Checker Fields) rest chain s1 found results :
  chain_stop_after_first_issue chain = true →
  chain_run_checks_loop before chain = inr s1 →
  chain_issues s1 = chain_issues chain →
  run_checks cls
    {| issues := issues checker;
       intermediate_results :=
         chain_intermediate_results s1 ∪ intermediate_results checker;
       stop_after_first_issue := stop_after_first_issue checker;
       fields := fields checker |}
  = inr (found, results) →
  found ≠ [] →
  chain_run_checks_loop (before ++ (cls, checker) :: rest) chain
  = inr {| chain_issues := chain_issues chain ++ found;
           chain_intermediate_results := results ∪ chain_intermediate_results s1;
           chain_stop_after_first_issue := true |}.
Proof.
  intros Hstop Hbefore Hsame Hrun Hfound.
  rewrite (chain_passes _ _ _ _ Hbefore Hsame), chain_step, Hrun. cbv zeta.
  rewrite bool_decide_eq_false_2 by done.
  apply chain_keeps in Hbefore as [_ Hflag]. rewrite Hflag, Hstop, Hsame. done.
Qed.

End Loop.

Section Examples.
Import BaseChecker.Example CheckerExamples.

Lemma missing_check_method_fails_the_run_witness :
  ∃ missing,
    missing ∈ check_methods incomplete_class
    ∧ (∀ c, c ∈ [(check_nothing, true)] → check_name c.1 ≠ check_name missing)
    ∧ run_checks incomplete_class (fresh true)
      = inl (AssertionError ("Missing check method: " +:+ check_name missing)).
Proof.
  apply (missing_check_method_fails_the_run incomplete_class
           [(check_nothing, true)] check_something (fresh true)).
  - reflexivity.
  - right. left.
  - intros c ->%list_elem_of_singleton. discriminate.
Defined.

Lemma chain_stops_at_first_checker_with_issues_witness :
  chain_run_checks_loop example_chain
    {| chain_issues := []; chain_intermediate_results := ∅;
       chain_stop_after_first_issue := true |}
  = inr {| chain_issues := [an_issue]; chain_intermediate_results := ∅;
           chain_stop_after_first_issue := true |}.
Proof.
  exact (chain_stops_at_first_checker_with_issues
           [(example_class [check_nothing], fresh false)]
           (example_class [check_nothing; check_something]) (fresh false)
           [(example_class [check_something], fresh false)]
           {| chain_issues := []; chain_intermediate_results := ∅;
              chain_stop_after_first_issue := true |}
           {| chain_issues := []; chain_intermediate_results := ∅;
              chain_stop_after_first_issue := true |}
           [an_issue] ∅ eq_refl eq_refl eq_refl eq_refl
           (λ E : [an_issue] = [], eq_ind [an_issue]
                    (λ l, match l with [] => False | _ => True end) I [] E)).
Defined.

End Examples.

End CheckerFrameworkProofs.

(** * Further properties of the table checkers *)

Module DfTableProofs.
Import Py RunIssues Pandas BaseChecker DfChecker DfCheckerVocabulary.

Section Filename.
Context `{Imports}.
Implicit Types (self : DfChecker).

Lemma words_to_end_spec s :
  words_to_end s = true ↔ ∃ w, all_word w = true ∧ (s = w ∨ s = w +:+ PyStr.NL).
Proof.
  induction s as [|c s IH]; cbn [words_to_end].
  - split; [|done]. intros _. exists "". auto.
  - destruct (is_word c) eqn:Hc.
    + rewrite IH. split.
      * intros (w & Hw & Hs). exists (String c w). cbn [all_word]. rewrite Hc, Hw.
        split; [done|]. destruct Hs as [->| ->]; auto.
      * intros ([|d w] & Hw & Hs).
        { destruct Hs as [Hs|Hs]; [done|]. injection Hs as -> ->. done. }
        cbn [all_word] in Hw. apply andb_true_iff in Hw as [_ Hw].
        exists w. split; [done|].
        destruct Hs as [Hs|Hs]; injection Hs as _ ->; auto.
    + rewrite andb_true_iff, Ascii.eqb_eq, bool_decide_eq_true. split.
      * intros [-> ->]. exists "". auto.
      * intros ([|d w] & Hw & Hs).
        { destruct Hs as [Hs|Hs]; [done|]. by injection Hs as -> ->. }
        cbn [all_word] in Hw. apply andb_true_iff in Hw as [Hd _].
        destruct Hs as [Hs|Hs]; injection Hs as -> _; congruence.
Qed.

Lemma matches_df_name_spec name : matches_df_name name = true ↔ df_name name.
Proof.
  unfold matches_df_name, df_name. rewrite andb_true_iff. split.
  - intros [Hstart Hrest].
    apply CodeRunnerRunProofs.startswith_split in Hstart.
    change (String.length "df_") with 3%nat in Hstart.
    destruct (PyStr.drop 3 name) as [|c rest]; [done|].
    apply andb_true_iff in Hrest as [Hc Hrest].
    apply words_to_end_spec in Hrest as (w & Hw & Hrest).
    exists (String c w). cbn [all_word]. rewrite Hc, Hw. split_and!; [done..|].
    rewrite Hstart. destruct Hrest as [->| ->]; auto.
  - intros (w & Hne & Hw & Hname). destruct w as [|c w]; [done|].
    cbn [all_word] in Hw. apply andb_true_iff in Hw as [Hc Hw].
    assert (words_to_end w = true ∧ words_to_end (w +:+ PyStr.NL) = true) as [H1 H2].
    { split; apply words_to_end_spec; exists w; auto. }
    destruct Hname as [->| ->]; simpl; by rewrite Hc, ?H1, ?H2.
Qed.

(** X14. [check_filename] appends no issue exactly when the file name
    is [df_] followed by one word character or more, where one newline may
    still follow at the very end of the name; for any other name it appends
    one issue, and it never asks the loop to stop. *)
Theorem check_filename_accepts_df_names self :
  ∃ effect,
    check_filename self = inr effect
    ∧ should_stop effect = false
    ∧ (appended effect = [] ↔ df_name (filename (fields self)))
    ∧ (¬ df_name (filename (fields self)) → length (appended effect) = 1%nat).
Proof.
  unfold check_filename, done_with. eexists. split; [done|]. cbn.
  rewrite <- matches_df_name_spec.
  destruct (matches_df_name (filename (fields self))); split_and!; done.
Qed.

End Filename.

Section TableSyntax.
Context `{Imports}.
Implicit Types (self : DfChecker) (flds : DfFields).

(** A check that returns None is passed by a checker that does not stop
    after the first issue. *)
Lemma run_one_check_plain {Fields} (check : check_method Fields) l ir
    (the_fields : Fields) found :
  let self := {| issues := l; intermediate_results := ir;
                 stop_after_first_issue := false; fields := the_fields |} in
  call check self
  = inr {| appended := found; results_after := ir; should_stop := false |} →
  run_one_check check self
  = Continue {| issues := l ++ found; intermediate_results := ir;
                stop_after_first_issue := false; fields := the_fields |}.
Proof.
  intros self Hcall. rewrite (BaseCheckerProofs.run_one_check_cases _ _ _ Hcall).
  cbn. by rewrite andb_false_r.
Qed.

(** The table syntax checker runs its four checks, whatever they find. *)
Lemma TableSyntaxDfChecker_run ir flds :
  let self := {| issues := []; intermediate_results := ir;
                 stop_after_first_issue := false; fields := flds |} in
  run_checks TableSyntaxDfChecker self = inr (table_syntax_issues self, ir).
Proof.
  intros self. unfold run_checks, _run_checks.
  rewrite DfCheckerProofs.TableSyntaxDfChecker_asserted.
  change (_get_checks_to_run TableSyntaxDfChecker)
    with [ method "check_filename" check_filename;
           method "check_no_label" check_no_label;
           method "check_that_index_is_true" check_that_index_is_true;
           method "check_column_arg_is_not_used" check_column_arg_is_not_used ].
  cbn [run_checks_loop]. subst self.
  do 4 (erewrite run_one_check_plain by reflexivity).
  cbn [issues intermediate_results]. rewrite <- !app_assoc. reflexivity.
Qed.

Lemma table_syntax_issues_spec self :
  func_name (fields self) = "df_to_latex" →
  length (table_syntax_issues self) = table_violations (fields self)
  ∧ (table_syntax_issues self = [] ↔ clean_call (fields self))
  ∧ Forall (is_syntax_issue (filename (fields self))) (table_syntax_issues self).
Proof.
  intros Hname.
  unfold table_syntax_issues, table_violations, clean_call, found_by,
    check_filename, check_no_label, check_that_index_is_true,
    check_column_arg_is_not_used, done_with, index_in_use, is_figure, kwargs_get.
  rewrite Hname. cbn [appended].
  rewrite (bool_decide_eq_false_2 ("df_to_latex" = "df_to_figure")) by done.
  destruct (matches_df_name _), (truthy (default KNone _)),
    (truthy (default (KBool true) _)),
    (kwargs (fields self) !! "columns") as [c|] eqn:Hc;
    rewrite ?(bool_decide_eq_true_2 (is_Some (Some c))) by eauto;
    rewrite ?(bool_decide_eq_false_2 (is_Some None)) by (by intros [? ?]);
    (split_and!;
     [ reflexivity
     | split; [try discriminate; done | try (by intros (? & ? & ? & ?)); done]
     | repeat constructor ]).
Qed.

(** X15. The syntax checker of a table call runs all of its four
    checks and returns one issue for each rule the call violates: none
    exactly for a clean call. Every issue is filed for the file of the call
    under the category and the severity code of the syntax checks, and the
    intermediate results are returned as they were. *)
Theorem table_syntax_checker_reports_each_violation the_df name the_kwargs :
  let self := new_syntax_checker "df_to_latex" the_df name the_kwargs in
  ∃ found,
    run_checks TableSyntaxDfChecker self = inr (found, ∅)
    ∧ length found = table_violations (fields self)
    ∧ (found = [] ↔ clean_call (fields self))
    ∧ Forall (is_syntax_issue name) found.
Proof.
  intros self. exists (table_syntax_issues self).
  split; [apply TableSyntaxDfChecker_run|].
  by apply (table_syntax_issues_spec self).
Qed.

End TableSyntax.

Section StopAfterFirstIssue.
Context {Fields : Type}.

(** The loop of a checker without issues that stops after the first issue,
    over checks that return None: it ends with the issues of the first check
    that finds any, and without issues when no check finds any. *)
Lemma run_checks_loop_first_found (checks : list (check_method Fields)) ir
    (the_fields : Fields) :
  let self := {| issues := []; intermediate_results := ir;
                 stop_after_first_issue := true; fields := the_fields |} in
  Forall (λ c, ∃ found,
            call c self
            = inr {| appended := found; results_after := ir; should_stop := false |})
    checks →
  ∃ found,
    run_checks_loop checks self
    = inr {| issues := found; intermediate_results := ir;
             stop_after_first_issue := true; fields := the_fields |}
    ∧ (found = []
       ↔ Forall (λ c, call c self
                      = inr {| appended := []; results_after := ir;
                               should_stop := false |}) checks).
Proof.
  intros self. induction checks as [|c checks IH]; intros Hplain.
  - exists []. split; [done|]. split; [constructor | done].
  - apply Forall_cons in Hplain as [[found0 Hcall] Hplain].
    destruct (IH Hplain) as (found & Hrun & Hnil).
    cbn [run_checks_loop].
    rewrite (BaseCheckerProofs.run_one_check_cases _ _ _ Hcall). cbn.
    destruct found0 as [|i l].
    + rewrite (bool_decide_eq_true_2 ([] = [])) by done. cbn.
      exists found. split; [exact Hrun|]. rewrite Hnil, Forall_cons. split; [auto|].
      by intros [_ ?].
    + rewrite (bool_decide_eq_false_2 (i :: l = [])) by done. cbn.
      exists (i :: l). split; [done|]. split; [done|].
      intros [Hc _]%Forall_cons. rewrite Hcall in Hc. by injection Hc.
Qed.

(** The same loop, with what each check finds: it ends with the issues of
    the first check that finds any. *)
Lemma run_checks_loop_first_in_order (checks : list (check_method Fields)) ir
    (the_fields : Fields) (findings : list (list RunIssue)) :
  let self := {| issues := []; intermediate_results := ir;
                 stop_after_first_issue := true; fields := the_fields |} in
  Forall2 (λ c found,
             call c self
             = inr {| appended := found; results_after := ir; should_stop := false |})
    checks findings →
  run_checks_loop checks self
  = inr {| issues := first_found findings; intermediate_results := ir;
           stop_after_first_issue := true; fields := the_fields |}.
Proof.
  intros self. induction 1 as [|c found checks findings Hcall _ IH]; [done|].
  cbn [run_checks_loop].
  rewrite (BaseCheckerProofs.run_one_check_cases _ _ _ Hcall). cbn.
  destruct found as [|i l].
  - rewrite (bool_decide_eq_true_2 ([] = [])) by done. cbn. exact IH.
  - by rewrite (bool_decide_eq_false_2 (i :: l = [])) by done.
Qed.

End StopAfterFirstIssue.

Section TableContent.
Context `{Imports}.
Implicit Types (self : DfChecker) (flds : DfFields) (table : DataFrame).

Lemma flatten_applymap (f : value → value) table :
  flatten (applymap f table) = f <$> flatten table.
Proof.
  unfold flatten, applymap. simpl.
  induction (values table) as [|row rows IH]; [done|].
  simpl. rewrite fmap_app, <- IH. done.
Qed.

Lemma filter_nil_iff {A} (p : A → bool) (l : list A) :
  List.filter p l = [] ↔ ∀ a, a ∈ l → p a = false.
Proof.
  induction l as [|a l IH]; simpl.
  - split; [by intros _ ? ?%elem_of_nil | done].
  - destruct (p a) eqn:Ha.
    + split; [done|]. intros Hall. specialize (Hall a). rewrite Ha in Hall.
      discriminate Hall. left.
    + rewrite IH. split.
      * intros Hall b [->|Hb]%elem_of_cons; auto.
      * intros Hall b Hb. apply Hall. by right.
Qed.

Lemma check_df_for_nan_values_found self :
  ∃ found,
    check_df_for_nan_values self = done_with self found
    ∧ (found = [] ↔ no_nulls (df (fields self))).
Proof.
  unfold check_df_for_nan_values. cbv zeta. rewrite flatten_applymap.
  eexists. split; [done|].
  assert (List.filter isnull (raw_pvalue <$> flatten (df (fields self))) = []
          ↔ no_nulls (df (fields self))) as Hnulls.
  { rewrite filter_nil_iff. unfold no_nulls. split.
    - intros Hall v Hv. apply Hall, list_elem_of_fmap. eauto.
    - intros Hall v (w & -> & Hw)%list_elem_of_fmap. auto. }
  destruct (List.filter isnull _) as [|v l] eqn:Hf; simpl.
  - split; [intros _; by apply Hnulls | done].
  - destruct (_ <? _)%nat; (split; [done | by intros ?%Hnulls]).
Qed.

Lemma remove_dups_nil {A} `{EqDecision A} (l : list A) : remove_dups l = [] ↔ l = [].
Proof.
  split; [|by intros ->]. intros Hnil. destruct l as [|a l]; [done|].
  assert (a ∈ remove_dups (a :: l)) as Hin by (apply elem_of_remove_dups; left).
  rewrite Hnil in Hin. by apply elem_of_nil in Hin.
Qed.

Lemma check_df_value_types_found self :
  ∃ found,
    check_df_value_types self = done_with self found
    ∧ (found = [] ↔ only_allowed_values (df (fields self))).
Proof.
  unfold check_df_value_types, _check_if_df_within_df, only_allowed_values.
  destruct (List.find is_frame _) as [v|] eqn:Hfind.
  - eexists. split; [done|]. split; [done|]. intros Hall.
    apply List.find_some in Hfind as [Hin Hframe].
    apply list_elem_of_In, Hall in Hin as [Hin _]. congruence.
  - eexists. split; [done|].
    assert (∀ v, v ∈ flatten (df (fields self)) → is_frame v = false) as Hframes.
    { intros v Hv%list_elem_of_In. by apply (List.find_none _ _ Hfind). }
    destruct (remove_dups _) as [|n l] eqn:Hdups.
    + split; [|done]. intros _.
      apply remove_dups_nil, fmap_nil_inv in Hdups.
      intros v Hv. split; [by apply Hframes|].
      apply (proj1 (filter_nil_iff _ _) Hdups) in Hv.
      by apply negb_false_iff in Hv.
    + split; [done|]. intros Hall.
      assert (List.filter (λ v, negb (is_allowed_value v))
                (flatten (df (fields self))) = []) as Hnil.
      { apply filter_nil_iff. intros v Hv. by rewrite (proj2 (Hall v Hv)). }
      by rewrite Hnil in Hdups.
Qed.

Lemma check_df_headers_type_found self :
  ∃ found,
    check_df_headers_type self = done_with self found
    ∧ (found = [] ↔ supported_headers (df (fields self))).
Proof.
  unfold check_df_headers_type, supported_headers. eexists. split; [done|].
  destruct (_get_unsupported_df_header_types (columns _)),
    (_get_unsupported_df_header_types (index _)); simpl; split; try done;
    by intros [? ?].
Qed.

Lemma index_is_range_reflect (idx : Index) :
  negb (is_MultiIndex idx) && equals_range (index_to_list idx) 0
  && dtype_is_int (index_dtype idx) = true
  ↔ is_range_index idx.
Proof.
  destruct idx as [l|d l|l|l|l|n l];
    cbn [is_MultiIndex index_dtype dtype_is_int index_to_list negb andb];
    rewrite ?andb_false_r.
  - rewrite andb_true_r. symmetry. apply DfCheckerProofs.is_range_index_ints.
  - split; [done | intros [? [=]]].
  - split; [done | intros [? [=]]].
  - split; [done | intros [? [=]]].
  - split; [done | intros [? [=]]].
  - split; [done | intros [? [=]]].
Qed.

Lemma check_df_index_is_a_range_found self :
  index_in_use self = true →
  ∃ found,
    check_df_index_is_a_range self = done_with self found
    ∧ (found = [] ↔ ¬ is_range_index (index (df (fields self)))).
Proof.
  intros Hin. unfold check_df_index_is_a_range. rewrite Hin. cbn [negb].
  eexists. split; [done|]. rewrite <- index_is_range_reflect.
  destruct (_ && _); split; done.
Qed.

Lemma check_df_size_found self :
  ∃ found,
    check_df_size self = done_with self found
    ∧ (found = [] ↔ within_size self).
Proof.
  unfold check_df_size, within_size. cbv zeta.
  destruct (shape (df (fields self))) as [rows cols].
  destruct (get_max_rows_and_columns _ _) as [max_rows max_columns].
  cbn [fst snd].
  destruct (is_lower_eq (Z.of_nat rows) max_rows) eqn:Hr,
    (is_lower_eq (Z.of_nat cols) max_columns) eqn:Hc; cbn [andb];
    eexists; (split; [done|]); simpl; split; try done; by intros [? ?].
Qed.

Lemma check_df_is_a_result_of_describe_found self :
  ∃ found,
    check_df_is_a_result_of_describe self = done_with self found
    ∧ (found = [] ↔ not_a_description (df (fields self))).
Proof.
  unfold check_df_is_a_result_of_describe, not_a_description.
  eexists. split; [done|]. destruct (_ || _); split; done.
Qed.

(** A list that is longer than the list of its distinct values repeats a
    value. *)
Lemma repeated_of_distinct_length (l : list value) :
  length l ≠ length (distinct l) →
  ∃ before v after, l = before ++ v :: after ∧ existsb (py_eq v) after = true.
Proof.
  induction l as [|v l IH]; [done|]. cbn [distinct].
  destruct (existsb (py_eq v) l) eqn:Hv.
  - intros _. by exists [], v, l.
  - cbn [length]. intros Hlen.
    destruct IH as (before & w & after & -> & Hw); [lia|].
    by exists (v :: before), w, after.
Qed.

Lemma check_df_for_repeated_values_found self :
  ∃ found,
    check_df_for_repeated_values self = done_with self found
    ∧ (found = [] ↔ ¬ has_repeated_value (df (fields self))).
Proof.
  unfold check_df_for_repeated_values, has_repeated_value. cbv zeta.
  fold (numeric_values (df (fields self))).
  destruct (Nat.eqb_spec (length (numeric_values (df (fields self))))
              (length (distinct (numeric_values (df (fields self))))))
    as [Hlen|Hlen]; cbn [negb].
  - eexists. split; [done|]. split; [|done].
    intros _ (before & v & after & Hvalues & Hv).
    pose proof (DfCheckerProofs.distinct_length_lt before v after Hv) as Hlt.
    rewrite <- Hvalues in Hlt. lia.
  - pose proof (repeated_of_distinct_length _ Hlen) as (before & v & after & Hl & Hv).
    destruct (DfCheckerProofs.duplicated_values_head _ _ _ _ Hl
                (DfCheckerProofs.numeric_values_Forall _) Hv)
      as (example_value & rest & ->).
    eexists. split; [done|]. split; [done|]. intros []. eauto.
Qed.

Lemma check_df_for_repeated_values_in_prior_dfs_found self :
  prior_dfs (fields self) = [] →
  check_df_for_repeated_values_in_prior_dfs self = done_with self [].
Proof.
  intros Hprior. unfold check_df_for_repeated_values_in_prior_dfs.
  by rewrite Hprior.
Qed.

(** The content checker of a table, as the chain creates it. *)
Lemma TableDfContentChecker_run ir flds :
  let self := {| issues := []; intermediate_results := ir;
                 stop_after_first_issue := true; fields := flds |} in
  prior_dfs flds = [] → index_in_use self = true →
  ∃ found,
    run_checks TableDfContentChecker self = inr (found, ir)
    ∧ (found = [] ↔ acceptable_table self).
Proof.
  intros self Hprior Hindex. unfold run_checks, _run_checks.
  rewrite DfCheckerProofs.TableDfContentChecker_asserted.
  change (_get_checks_to_run TableDfContentChecker)
    with [ method "check_df_is_a_result_of_describe" check_df_is_a_result_of_describe;
           method "check_df_for_repeated_values" check_df_for_repeated_values;
           method "check_df_for_repeated_values_in_prior_dfs"
             check_df_for_repeated_values_in_prior_dfs;
           method "check_df_for_nan_values" check_df_for_nan_values;
           method "check_df_value_types" check_df_value_types;
           method "check_df_headers_type" check_df_headers_type;
           method "check_df_index_is_a_range" check_df_index_is_a_range;
           method "check_df_size" check_df_size ].
  destruct (check_df_is_a_result_of_describe_found self) as (f1 & H1 & N1).
  destruct (check_df_for_repeated_values_found self) as (f2 & H2 & N2).
  pose proof (check_df_for_repeated_values_in_prior_dfs_found self Hprior) as H3.
  destruct (check_df_for_nan_values_found self) as (f4 & H4 & N4).
  destruct (check_df_value_types_found self) as (f5 & H5 & N5).
  destruct (check_df_headers_type_found self) as (f6 & H6 & N6).
  destruct (check_df_index_is_a_range_found self Hindex) as (f7 & H7 & N7).
  destruct (check_df_size_found self) as (f8 & H8 & N8).
  match goal with
  | |- context [run_checks_loop ?checks self] =>
      destruct (run_checks_loop_first_found checks ir flds) as (found & Hrun & Hnil)
  end.
  { repeat apply Forall_cons_2; try apply Forall_nil_2; cbn [call method]; eauto. }
  fold self in Hrun. rewrite Hrun. exists found. split; [done|].
  rewrite Hnil, !Forall_cons. cbn [call method]. fold self.
  rewrite H1, H2, H3, H4, H5, H6, H7, H8. unfold done_with, acceptable_table.
  cbn [intermediate_results self].
  rewrite <- N1, <- N2, <- N4, <- N5, <- N6, <- N7, <- N8.
  split.
  - intros (E1 & E2 & _ & E4 & E5 & E6 & E7 & E8 & _).
    by simplify_eq.
  - intros (-> & -> & -> & -> & -> & -> & ->). repeat split; constructor.
Qed.

(** A check that returns None appends what [found_by] says it finds. *)
Lemma plain_call (check : DfChecker → exn + check_effect) self found :
  check self = done_with self found →
  check self
  = inr {| appended := found_by check self;
           results_after := intermediate_results self; should_stop := false |}.
Proof. intros Hcheck. unfold found_by. by rewrite Hcheck. Qed.

(** The content checker of a table ends with the issues of the first of its
    checks that finds any. *)
Lemma TableDfContentChecker_run_in_order ir flds :
  let self := {| issues := []; intermediate_results := ir;
                 stop_after_first_issue := true; fields := flds |} in
  run_checks TableDfContentChecker self
  = inr (first_found (table_content_findings self), ir).
Proof.
  intros self. unfold run_checks, _run_checks.
  rewrite DfCheckerProofs.TableDfContentChecker_asserted.
  change (_get_checks_to_run TableDfContentChecker)
    with [ method "check_df_is_a_result_of_describe" check_df_is_a_result_of_describe;
           method "check_df_for_repeated_values" check_df_for_repeated_values;
           method "check_df_for_repeated_values_in_prior_dfs"
             check_df_for_repeated_values_in_prior_dfs;
           method "check_df_for_nan_values" check_df_for_nan_values;
           method "check_df_value_types" check_df_value_types;
           method "check_df_headers_type" check_df_headers_type;
           method "check_df_index_is_a_range" check_df_index_is_a_range;
           method "check_df_size" check_df_size ].
  destruct (check_df_is_a_result_of_describe_found self) as (f1 & H1 & _).
  destruct (check_df_for_repeated_values_found self) as (f2 & H2 & _).
  destruct (check_df_for_nan_values_found self) as (f4 & H4 & _).
  destruct (check_df_value_types_found self) as (f5 & H5 & _).
  destruct (check_df_headers_type_found self) as (f6 & H6 & _).
  destruct (check_df_size_found self) as (f8 & H8 & _).
  assert (∃ f7, check_df_index_is_a_range self = done_with self f7) as [f7 H7].
  { unfold check_df_index_is_a_range. destruct (negb _); by eexists. }
  assert (∃ f3, check_df_for_repeated_values_in_prior_dfs self = done_with self f3)
    as [f3 H3] by (by eexists).
  rewrite (run_checks_loop_first_in_order _ ir flds (table_content_findings self));
    [done|].
  unfold table_content_findings.
  repeat (apply Forall2_cons; split; [cbn [call method]; by eapply plain_call|]).
  apply Forall2_nil_2.
Qed.

(** The analysis chain of a table call: the issues of the syntax checker when
    it finds any, and the issues of the content checker when not. *)
Lemma analysis_unfold table name call_kwargs :
  let syntax_found :=
    table_syntax_issues (new_syntax_checker "df_to_latex" table name call_kwargs) in
  (syntax_found ≠ [] →
   check_df_to_latex_analysis table name call_kwargs = inr syntax_found)
  ∧ (syntax_found = [] →
     ∃ found,
       check_df_to_latex_analysis table name call_kwargs = inr found
       ∧ (found = []
          ↔ acceptable_table
              (new_content_checker "df_to_latex" table name call_kwargs))).
Proof.
  intros syntax_found.
  set (flds := {| func_name := "df_to_latex"; df := table; filename := name;
                  kwargs := call_kwargs; prior_dfs := [] |}).
  unfold check_df_to_latex_analysis, create_and_run_chain_checker.
  cbn [chain_run_checks_loop new_syntax_checker new_content_checker
         issues intermediate_results stop_after_first_issue fields
         chain_issues chain_intermediate_results chain_stop_after_first_issue].
  fold flds. rewrite (TableSyntaxDfChecker_run _ flds).
  change (table_syntax_issues _) with syntax_found.
  cbn [chain_issues chain_intermediate_results chain_stop_after_first_issue app].
  split.
  - intros Hne. by rewrite bool_decide_eq_false_2 by done.
  - intros Hnil. rewrite Hnil.
    rewrite (bool_decide_eq_true_2 ([] = [])) by done. cbn [negb andb].
    pose proof (table_syntax_issues_spec
                  (new_syntax_checker "df_to_latex" table name call_kwargs) eq_refl)
      as (_ & Hclean & _).
    fold syntax_found in Hclean. apply Hclean in Hnil as (_ & _ & Hindex & _).
    match goal with
    | |- context [run_checks TableDfContentChecker
                    {| issues := []; intermediate_results := ?ir;
                       stop_after_first_issue := true; fields := flds |}] =>
        destruct (TableDfContentChecker_run ir flds eq_refl) as (found & Hrun & Hfound)
    end.
    { unfold index_in_use, is_figure, kwargs_get. cbn [fields func_name flds].
      by rewrite (bool_decide_eq_false_2 ("df_to_latex" = "df_to_figure")) by done. }
    rewrite Hrun. exists found. split.
    + by destruct (bool_decide (found = [])).
    + rewrite Hfound. done.
Qed.

(** X17. The analysis of a table call returns no issue exactly when the call
    is clean and the table is acceptable: no describe() table, no non-integer
    value in two cells, no null, no Series or DataFrame in a cell, values and
    headers of allowed types only, an index that is no range 0..n-1 of the
    default integer dtype, and a size within the allowed numbers of rows and
    columns. *)
Theorem analysis_accepts_exactly_the_clean_tables table name call_kwargs :
  let self := new_content_checker "df_to_latex" table name call_kwargs in
  check_df_to_latex_analysis table name call_kwargs = inr []
  ↔ clean_call (fields self) ∧ acceptable_table self.
Proof.
  intros self.
  destruct (analysis_unfold table name call_kwargs) as [Hsyntax Hcontent].
  pose proof (table_syntax_issues_spec
                (new_syntax_checker "df_to_latex" table name call_kwargs) eq_refl)
    as (_ & Hclean & _).
  change (fields (new_syntax_checker "df_to_latex" table name call_kwargs))
    with (fields self) in Hclean.
  destruct (table_syntax_issues
              (new_syntax_checker "df_to_latex" table name call_kwargs))
    as [|i l] eqn:Hfound.
  - destruct (Hcontent eq_refl) as (found & Hrun & Hnil).
    rewrite Hrun. split.
    + intros [= ->]. split; [by apply Hclean | by apply Hnil].
    + intros [_ ->%Hnil]. done.
  - rewrite Hsyntax by done. split; [done|].
    intros [Hc%Hclean _]. done.
Qed.

(** X22. For a clean table call on a table of scalar cells, the analysis
    returns the issues of exactly one content check: the first that finds
    any, in the order describe() table, repeated values, values repeated from
    prior tables, null values, value types, header types, range index, size.
    What a later check would find is not reported. *)
Theorem analysis_reports_the_first_content_finding table name call_kwargs :
  let self := new_content_checker "df_to_latex" table name call_kwargs in
  clean_call (fields self) → scalar_cells table →
  check_df_to_latex_analysis table name call_kwargs
  = inr (first_found (table_content_findings self)).
Proof.
  intros self Hclean _.
  set (flds := {| func_name := "df_to_latex"; df := table; filename := name;
                  kwargs := call_kwargs; prior_dfs := [] |}).
  unfold check_df_to_latex_analysis, create_and_run_chain_checker.
  cbn [chain_run_checks_loop new_syntax_checker new_content_checker
         issues intermediate_results stop_after_first_issue fields
         chain_issues chain_intermediate_results chain_stop_after_first_issue].
  fold flds.
  rewrite (DfCheckerProofs.TableSyntaxDfChecker_clean _ _ flds eq_refl Hclean).
  cbn [chain_issues chain_intermediate_results chain_stop_after_first_issue app].
  rewrite (bool_decide_eq_true_2 ([] = [])) by done. cbn [negb andb].
  rewrite (TableDfContentChecker_run_in_order _ flds).
  cbn [chain_issues app].
  match goal with
  | |- context [table_content_findings ?checker] =>
      replace checker with self
        by (unfold self, new_content_checker; fold flds; f_equal;
            by rewrite !(left_id_L ∅ (∪)))
  end.
  by destruct (negb _ && _).
Qed.

(** X16. For a table call that is not clean the analysis returns
    the issues of the syntax checker and nothing else, one for each rule the
    call violates: the content of the table is not checked. *)
Theorem analysis_reports_syntax_issues_alone table name call_kwargs :
  let self := new_syntax_checker "df_to_latex" table name call_kwargs in
  ¬ clean_call (fields self) →
  check_df_to_latex_analysis table name call_kwargs = inr (table_syntax_issues self)
  ∧ table_syntax_issues self ≠ []
  ∧ length (table_syntax_issues self) = table_violations (fields self)
  ∧ Forall (is_syntax_issue name) (table_syntax_issues self).
Proof.
  intros self Hdirty.
  destruct (analysis_unfold table name call_kwargs) as [Hsyntax _].
  pose proof (table_syntax_issues_spec self eq_refl) as (Hlen & Hclean & Hall).
  assert (table_syntax_issues self ≠ []) as Hne by (by intros ?%Hclean).
  split_and!; [by apply Hsyntax | done..].
Qed.

End TableContent.

Section FigureSyntax.
Context `{Imports}.
Implicit Types (self : DfChecker) (flds : DfFields).

Lemma FigureSyntaxDfChecker_asserted :
  _assert_if_provided_choice_of_checks_include_all_check_methods FigureSyntaxDfChecker
  = None.
Proof. reflexivity. Qed.

(** The figure syntax checker runs its six checks, whatever they find, when
    the check of the columns returns. *)
Lemma FigureSyntaxDfChecker_run ir flds found :
  let self := {| issues := []; intermediate_results := ir;
                 stop_after_first_issue := false; fields := flds |} in
  check_that_specified_columns_exist self = done_with self found →
  run_checks FigureSyntaxDfChecker self = inr (figure_syntax_issues self, ir).
Proof.
  intros self Hcolumns. unfold run_checks, _run_checks.
  rewrite FigureSyntaxDfChecker_asserted.
  change (_get_checks_to_run FigureSyntaxDfChecker)
    with [ method "check_filename" check_filename;
           method "check_no_label" check_no_label;
           method "check_kind_arg" check_kind_arg;
           method "check_y_arg" check_y_arg;
           method "check_yerr_arg" check_yerr_arg;
           method "check_that_specified_columns_exist"
             check_that_specified_columns_exist ].
  cbn [run_checks_loop]. subst self.
  do 5 (erewrite run_one_check_plain by reflexivity).
  erewrite (run_one_check_plain _ _ _ _ found) by exact Hcolumns.
  cbn [issues intermediate_results]. unfold figure_syntax_issues.
  unfold found_by at 6. rewrite Hcolumns. cbn [appended done_with].
  rewrite <- !app_assoc. reflexivity.
Qed.

Lemma missing_columns_issue_is_syntax self arg_name cols :
  is_syntax_issue (filename (fields self)) (missing_columns_issue self arg_name cols).
Proof. done. Qed.

(** The check of the columns of arguments that are left out or list names. *)
Lemma check_columns_of_args_spec self (args : list (kwarg * string)) :
  Forall names_columns args.*1 →
  ∃ found,
    check_columns_of_args self args = inr found
    ∧ (found = []
       ↔ ∀ a (names : list string) name,
           a ∈ args.*1 → a = KList (VStr <$> names) → name ∈ names →
           index_has (columns (df (fields self))) (VStr name) = true)
    ∧ Forall (is_syntax_issue (filename (fields self))) found.
Proof.
  induction args as [|[arg arg_name] args IH]; intros Htyped.
  - exists []. split_and!; [done| |done]. split; [|done].
    by intros _ ? ? ? ?%elem_of_nil.
  - rewrite fmap_cons in Htyped. apply Forall_cons in Htyped as [Harg Htyped].
    destruct (IH Htyped) as (more & Hmore & Hnil & Hall).
    cbn [check_columns_of_args]. rewrite Hmore. cbn [fst] in Harg.
    destruct Harg as [->|[names ->]]; cbn [check_columns_of_arg items_of].
    + exists more. split_and!; [done| |done]. rewrite Hnil. split.
      * intros Hex a names name [->|Ha]%elem_of_cons; [done | by apply Hex].
      * intros Hex a names name Ha. apply Hex. by right.
    + destruct (List.filter _ (VStr <$> names)) as [|c l] eqn:Hf.
      * exists more. split_and!; [done| |done]. rewrite Hnil. split.
        -- intros Hex a names' name [->|Ha]%elem_of_cons; [|by apply Hex].
           cbn [fst]. intros Heq Hname.
           assert (VStr name ∈ VStr <$> names) as Hcol.
           { injection Heq as ->. apply list_elem_of_fmap. eauto. }
           apply (proj1 (filter_nil_iff _ _) Hf) in Hcol.
           by apply negb_false_iff in Hcol.
        -- intros Hex a names' name Ha. apply Hex. by right.
      * eexists. split_and!; [done| |].
        -- split; [done|]. intros Hex.
           assert (List.filter
                     (λ col, negb (index_has (columns (df (fields self))) col))
                     (VStr <$> names)
                   = []) as Hnone; [|by rewrite Hnone in Hf].
           apply filter_nil_iff. intros col (name & -> & Hname)%list_elem_of_fmap.
           apply negb_false_iff.
           apply (Hex (KList (VStr <$> names)) names name); [left | done..].
        -- apply Forall_app. split; [|done]. by repeat constructor.
Qed.

Lemma check_kind_arg_found self :
  found_by check_kind_arg self = [] ↔ kind self = KStr "bar".
Proof.
  unfold found_by, check_kind_arg, done_with. cbn [appended].
  destruct (kind self) as [|b|k|l|n]; try done.
  unfold ALLOWED_PLOT_KINDS.
  destruct (bool_decide_reflect (k ∈ ["bar"])) as [Hk|Hk].
  - apply list_elem_of_singleton in Hk as ->. done.
  - split; [done|]. intros [= ->]. destruct Hk. left.
Qed.

(** X18. For a figure call whose column arguments are each left out, a
    name, or a list of names, the syntax checker runs all of its six checks
    and returns no issue exactly when the file name has the form df_..., the
    label is left out or falsy, the kind is bar, y is given, yerr is not, and
    every column that the arguments x, y, x_ci, y_ci, x_p_value and y_p_value
    name is in the columns of the df, as pandas looks a label up. Every issue
    it returns is filed under the category and the severity code of the
    syntax checks. *)
Theorem figure_syntax_checker_accepts_clean_calls the_df name the_kwargs :
  let self := new_syntax_checker "df_to_figure" the_df name the_kwargs in
  Forall names_columns (column_args self) →
  ∃ found,
    run_checks FigureSyntaxDfChecker self = inr (found, ∅)
    ∧ (found = [] ↔ figure_clean_call self)
    ∧ Forall (is_syntax_issue name) found.
Proof.
  intros self Htyped.
  assert (∃ args : list (kwarg * string),
            check_that_specified_columns_exist self
            = match check_columns_of_args self args with
              | inl e => inl e
              | inr found => done_with self found
              end
            ∧ args.*1 = column_args self) as (args & Hcheck & Hargs).
  { eexists. split; [reflexivity|].
    unfold column_args, get_xy_err_ci_p_value, base_arg_names.
    rewrite fmap_app. by cbn. }
  rewrite <- Hargs in Htyped.
  destruct (check_columns_of_args_spec self args Htyped)
    as (f6 & Hrun & Hnil & Hall).
  rewrite Hrun in Hcheck. rewrite Hargs in Hnil.
  exists (figure_syntax_issues self).
  split; [by apply (FigureSyntaxDfChecker_run ∅ _ f6)|].
  assert (found_by check_that_specified_columns_exist self = f6) as Hf6
    by (unfold found_by; by rewrite Hcheck).
  unfold figure_syntax_issues, figure_clean_call, columns_exist. rewrite Hf6.
  change (filename (fields self)) with name in *.
  rewrite <- Hnil, <- check_kind_arg_found, <- matches_df_name_spec.
  assert ((found_by check_filename self = [] ↔ matches_df_name name = true)
          ∧ Forall (is_syntax_issue name) (found_by check_filename self)) as [N1 A1].
  { unfold found_by, check_filename, done_with. cbn [appended].
    change (filename (fields self)) with name.
    destruct (matches_df_name name); split; try done; by repeat constructor. }
  assert ((found_by check_no_label self = []
           ↔ truthy (kwargs_get self "label" KNone) = false)
          ∧ Forall (is_syntax_issue name) (found_by check_no_label self)) as [N2 A2].
  { unfold found_by, check_no_label, done_with. cbn [appended].
    destruct (truthy _); split; try done; by repeat constructor. }
  assert (Forall (is_syntax_issue name) (found_by check_kind_arg self)) as A3.
  { unfold found_by, check_kind_arg, done_with. cbn [appended].
    destruct (kind self) as [|b|k|l|n]; try (by repeat constructor).
    destruct (bool_decide _); by repeat constructor. }
  assert ((found_by check_y_arg self = [] ↔ y self ≠ KNone)
          ∧ Forall (is_syntax_issue name) (found_by check_y_arg self)) as [N4 A4].
  { unfold found_by, check_y_arg, done_with. cbn [appended].
    destruct (y self); split; try done; by repeat constructor. }
  assert ((found_by check_yerr_arg self = [] ↔ yerr self = KNone)
          ∧ Forall (is_syntax_issue name) (found_by check_yerr_arg self)) as [N5 A5].
  { unfold found_by, check_yerr_arg, done_with. cbn [appended].
    destruct (yerr self); split; try done; by repeat constructor. }
  split.
  - rewrite !app_nil, N1, N2, N4, N5. tauto.
  - repeat (apply Forall_app; split; [done|]). done.
Qed.

End FigureSyntax.

Section TableExamples.
Import DfExamples.
Existing Instance example_imports.

Lemma analysis_reports_syntax_issues_alone_witness :
  check_df_to_latex_analysis repeated_table "table 1" {[ "label" := KStr "tab:1" ]}
  = inr (table_syntax_issues
           (new_syntax_checker "df_to_latex" repeated_table "table 1"
              {[ "label" := KStr "tab:1" ]}))
  ∧ table_syntax_issues
      (new_syntax_checker "df_to_latex" repeated_table "table 1"
         {[ "label" := KStr "tab:1" ]}) ≠ []
  ∧ length (table_syntax_issues
              (new_syntax_checker "df_to_latex" repeated_table "table 1"
                 {[ "label" := KStr "tab:1" ]}))
    = table_violations
        (fields (new_syntax_checker "df_to_latex" repeated_table "table 1"
                   {[ "label" := KStr "tab:1" ]}))
  ∧ Forall (is_syntax_issue "table 1")
      (table_syntax_issues
         (new_syntax_checker "df_to_latex" repeated_table "table 1"
            {[ "label" := KStr "tab:1" ]})).
Proof.
  apply (analysis_reports_syntax_issues_alone repeated_table "table 1"
           {[ "label" := KStr "tab:1" ]}).
  intros (Hname & _). vm_compute in Hname. discriminate Hname.
Defined.

Lemma analysis_reports_the_first_content_finding_witness :
  check_df_to_latex_analysis range_table "df_range" ∅
  = inr (first_found
           (table_content_findings
              (new_content_checker "df_to_latex" range_table "df_range" ∅))).
Proof.
  apply (analysis_reports_the_first_content_finding range_table "df_range" ∅).
  - split_and!; vm_compute; reflexivity.
  - repeat constructor.
Defined.

Example first_found_of_range_table :
  first_found
    (table_content_findings
       (new_content_checker "df_to_latex" range_table "df_range" ∅))
  = [range_index_issue (new_content_checker "df_to_latex" range_table "df_range" ∅)].
Proof. vm_compute. reflexivity. Qed.

Lemma figure_syntax_checker_accepts_clean_calls_witness :
  ∃ found,
    run_checks FigureSyntaxDfChecker
      (new_syntax_checker "df_to_figure" range_table "df_bars" bar_kwargs)
    = inr (found, ∅)
    ∧ (found = []
       ↔ figure_clean_call
           (new_syntax_checker "df_to_figure" range_table "df_bars" bar_kwargs))
    ∧ Forall (is_syntax_issue "df_bars") found.
Proof.
  apply (figure_syntax_checker_accepts_clean_calls range_table "df_bars" bar_kwargs).
  change (Forall names_columns
            [ KNone; KNone; KNone; KNone;
              KList [VStr "a"; VStr "b"]; KNone; KList [VStr "c"]; KNone ]).
  repeat (apply Forall_cons; split;
            [first [by left | right; by exists ["a"; "b"] | right; by exists ["c"]]|]).
  apply Forall_nil_2.
Defined.

Example figure_syntax_of_bar_plot :
  run_checks FigureSyntaxDfChecker
    (new_syntax_checker "df_to_figure" range_table "df_bars" bar_kwargs)
  = inr ([], ∅).
Proof. vm_compute. reflexivity. Qed.

(** A call with [index=0] is a call without the index: the syntax checker
    reports it, and the content of the table is not checked. *)
Example analysis_of_index_zero :
  ∃ i,
    check_df_to_latex_analysis range_table "df_results" {[ "index" := zero ]} = inr [i]
    ∧ issue i = "Do not call `df_to_latex` with `index=False`."
    ∧ category i = SYNTAX_CATEGORY.
Proof. eexists. split_and!; [vm_compute; reflexivity | reflexivity..]. Qed.

(** A call with [label=0] passes the check of the label: the analysis goes
    on to the content of the table. *)
Example analysis_of_label_zero :
  check_df_to_latex_analysis range_table "df_results" {[ "label" := zero ]}
  = inr [range_index_issue
           (new_content_checker "df_to_latex" range_table "df_results"
              {[ "label" := zero ]})].
Proof. vm_compute. reflexivity. Qed.

Example analysis_of_labelled_table :
  check_df_to_latex_analysis labelled_table "df_results" ∅ = inr [].
Proof. vm_compute. reflexivity. Qed.

End TableExamples.

End DfTableProofs.

(** * Properties of the checks of the display-item step *)

Module DfDisplayProofs.
Import Py RunIssues Pandas BaseChecker DfChecker DfDisplayChecks.

Local Arguments Ascii.eqb : simpl never.

Section OddsRatios.
Context `{Imports}.
Implicit Types (self : DfChecker).

Lemma first_term_in_text label :
  first_term_in (KStr label) ODDS_RATIO_TERMS_CAPS
  = inr (if PyStr.contains (lower label) "odds ratio" then Some "odds ratio"
         else if PyStr.contains label "OR" then Some "OR" else None).
Proof.
  cbn [first_term_in ODDS_RATIO_TERMS_CAPS term_in_label].
  destruct (PyStr.contains (lower label) "odds ratio"); [done|].
  by destruct (PyStr.contains label "OR").
Qed.

(** The check of one axis whose label is a str or missing. *)
Lemma check_log_scale_of_axis_text self axis :
  label_is_text (kwargs (fields self)) axis →
  ∃ found,
    check_log_scale_of_axis self axis = inr found
    ∧ length found = Nat.b2n (odds_ratio_axis (kwargs (fields self)) axis).
Proof.
  unfold label_is_text, check_log_scale_of_axis, odds_ratio_axis, kwargs_get,
    mentions_odds_ratio.
  destruct (kwargs (fields self) !! (axis +:+ "label")) as [[| |label| |]|];
    try done; cbn [default is_None negb andb]; eauto.
  intros _. cbn [id is_None negb andb].
  destruct (is_True _); cbn [negb].
  - rewrite !andb_false_r. by exists [].
  - rewrite first_term_in_text, andb_true_r.
    destruct (PyStr.contains (lower label) "odds ratio"); [by eexists|].
    destruct (PyStr.contains label "OR"); by eexists.
Qed.

(** X19. For a figure call whose axis labels are strings or missing, the
    checker of odds ratios returns one issue for each axis whose label
    mentions odds ratios (the words in any letter case, or the capitals OR)
    and whose log-scale argument is not True; it returns none when both axes
    are on a log scale, whatever the labels say. *)
Theorem odds_ratio_labels_need_a_log_scale the_df name call_kwargs :
  label_is_text call_kwargs "x" → label_is_text call_kwargs "y" →
  ∃ found,
    run_checks SecondFigureContentChecker
      (new_content_checker "df_to_figure" the_df name call_kwargs)
    = inr (found, ∅)
    ∧ length found
      = (Nat.b2n (odds_ratio_axis call_kwargs "x")
         + Nat.b2n (odds_ratio_axis call_kwargs "y"))%nat.
Proof.
  intros Hx Hy.
  set (self := new_content_checker "df_to_figure" the_df name call_kwargs).
  destruct (check_log_scale_of_axis_text self "x" Hx) as (fx & Hfx & Hlx).
  destruct (check_log_scale_of_axis_text self "y" Hy) as (fy & Hfy & Hly).
  exists (fx ++ fy). split; [|by rewrite length_app, Hlx, Hly].
  unfold run_checks, _run_checks.
  change (_assert_if_provided_choice_of_checks_include_all_check_methods
            SecondFigureContentChecker) with (@None exn).
  change (_get_checks_to_run SecondFigureContentChecker)
    with [method "check_log_scale_for_odds_ratios" check_log_scale_for_odds_ratios].
  cbn [run_checks_loop].
  assert (call (method "check_log_scale_for_odds_ratios"
                  check_log_scale_for_odds_ratios) self
          = done_with self (fx ++ fy)) as Hcall.
  { cbn [call method]. unfold check_log_scale_for_odds_ratios.
    by rewrite Hfx, Hfy. }
  rewrite (BaseCheckerProofs.run_one_check_cases _ _ _ Hcall). cbn.
  by destruct (bool_decide (fx ++ fy = [])).
Qed.

End OddsRatios.

Section Captions.
Context `{Imports}.
Implicit Types (self : DfChecker).

Lemma startswith_refl s : PyStr.startswith s s = true.
Proof.
  induction s as [|c s IH]; [done|]. simpl. rewrite IH.
  by destruct (Ascii.eqb_spec c c).
Qed.

Lemma contains_refl s : PyStr.contains s s = true.
Proof. destruct s; [done|]. cbn [PyStr.contains]. by rewrite startswith_refl. Qed.

Lemma contains_empty s : PyStr.contains s "" = true.
Proof. by destruct s. Qed.

(** X20. The note is compared with the caption only when both are given.
    A note that repeats the caption, in whatever letter case, is reported
    with one issue, and so is an empty note or an empty caption: the empty
    text is contained in every text. *)
Theorem repeated_or_empty_note_is_reported self :
  (note self = KNone ∨ caption self = KNone →
   check_note_is_different_than_caption self = done_with self [])
  ∧ (∀ the_note the_caption,
       note self = KStr the_note → caption self = KStr the_caption →
       lower the_note = lower the_caption ∨ the_note = "" ∨ the_caption = "" →
       ∃ i, check_note_is_different_than_caption self = done_with self [i]
            ∧ category i = Some "Problem with displayitem caption").
Proof.
  unfold check_note_is_different_than_caption. split.
  - intros [-> | ->]; [done|]. by destruct (note self).
  - intros the_note the_caption -> -> Hsame.
    assert (PyStr.contains (lower the_caption) (lower the_note)
            || PyStr.contains (lower the_note) (lower the_caption) = true) as ->.
    { destruct Hsame as [-> | [-> | ->]]; cbn [lower].
      - by rewrite contains_refl.
      - by rewrite contains_empty.
      - by rewrite contains_empty, orb_true_r. }
    eauto.
Qed.

Lemma closes_on_line_spec s :
  closes_on_line s = true
  ↔ ∃ inside after, s = inside +:+ ">" +:+ after ∧ CodeRunnerRun.newline_free inside.
Proof.
  induction s as [|c s IH]; cbn [closes_on_line].
  - split; [done|]. by intros ([|? ?] & ? & ? & _).
  - destruct (Ascii.eqb_spec c ">") as [->|Hgt].
    + split; [|done]. intros _. by exists "", s.
    + destruct (Ascii.eqb_spec c PyStr.newline) as [->|Hnl].
      * split; [done|]. intros ([|d inside] & after & Hs & Hfree).
        -- by injection Hs as ->.
        -- injection Hs as <- _. by destruct Hfree.
      * rewrite IH. split.
        -- intros (inside & after & -> & Hfree). by exists (String c inside), after.
        -- intros ([|d inside] & after & Hs & Hfree).
           ++ by injection Hs as ->.
           ++ injection Hs as -> ->. destruct Hfree. eauto.
Qed.

Lemma search_angle_spec s : search_angle s = true ↔ has_angle_placeholder s.
Proof.
  unfold has_angle_placeholder. induction s as [|c s IH]; cbn [search_angle].
  - split; [done|]. by intros ([|? ?] & ? & ? & ? & _).
  - rewrite orb_true_iff, andb_true_iff, Ascii.eqb_eq, closes_on_line_spec, IH. split.
    + intros [[-> (inside & after & -> & Hfree)] | (before & inside & after & -> & Hfree)].
      * by exists "", inside, after.
      * by exists (String c before), inside, after.
    + intros ([|d before] & inside & after & Hs & Hfree).
      * injection Hs as -> ->. left. eauto.
      * injection Hs as -> ->. right. eauto.
Qed.

Lemma forbidden_starts_exclude text :
  PyStr.startswith text "Figure" && PyStr.startswith text "Table" = false.
Proof.
  destruct text as [|c text]; [done|]. cbn [PyStr.startswith].
  destruct (Ascii.eqb_spec "F" c) as [<-|]; [|done].
  destruct (Ascii.eqb_spec "T" "F"); [done|]. apply andb_false_r.
Qed.

(** X21. A call without a caption gets one issue from [check_caption],
    a call without a note none from [check_note]. A caption that is given
    passes exactly when it does not start with Figure or Table, holds no
    three dots, and holds no [<] that is followed, on the same line, by a [>];
    it gets three issues at most. *)
Theorem check_caption_accepts_plain_captions self :
  (caption self = KNone → ∃ i, check_caption self = done_with self [i])
  ∧ (note self = KNone → check_note self = done_with self [])
  ∧ (∀ text, caption self = KStr text →
       ∃ found,
         check_caption self = done_with self found
         ∧ (found = []
            ↔ PyStr.startswith text "Figure" = false
              ∧ PyStr.startswith text "Table" = false
              ∧ PyStr.contains text "..." = false
              ∧ ¬ has_angle_placeholder text)
         ∧ (length found ≤ 3)%nat).
Proof.
  unfold check_caption, check_note, _check_caption_or_note. split_and!.
  - intros ->. eauto.
  - by intros ->.
  - intros text ->. eexists. split; [done|].
    pose proof (forbidden_starts_exclude text) as Hex.
    pose proof (search_angle_spec text) as Hangle.
    cbn [forbidden_starts mbind list_bind app].
    destruct (PyStr.startswith text "Figure"), (PyStr.startswith text "Table"),
      (PyStr.contains text "..."), (search_angle text);
      try discriminate Hex; cbn [app length]; (split; [|lia]);
      (split; [try discriminate; intros _; split_and!; try done;
               intros ?%Hangle; done
              |try done; intros (? & ? & ? & Hno); try done;
               destruct Hno; by apply Hangle]).
Qed.

End Captions.

Section DisplayExamples.
Import DfExamples.
Existing Instance example_imports.

Lemma odds_ratio_labels_need_a_log_scale_witness :
  ∃ found,
    run_checks SecondFigureContentChecker
      (new_content_checker "df_to_figure" range_table "df_odds" odds_kwargs)
    = inr (found, ∅)
    ∧ length found
      = (Nat.b2n (odds_ratio_axis odds_kwargs "x")
         + Nat.b2n (odds_ratio_axis odds_kwargs "y"))%nat.
Proof.
  apply (odds_ratio_labels_need_a_log_scale range_table "df_odds" odds_kwargs).
  - vm_compute. exact I.
  - vm_compute. exact I.
Defined.

Lemma repeated_or_empty_note_is_reported_witness :
  ∃ i,
    check_note_is_different_than_caption
      (new_content_checker "df_to_latex" range_table "df_heights" repeated_note_kwargs)
    = done_with
        (new_content_checker "df_to_latex" range_table "df_heights"
           repeated_note_kwargs) [i]
    ∧ category i = Some "Problem with displayitem caption".
Proof.
  refine (proj2 (repeated_or_empty_note_is_reported
                   (new_content_checker "df_to_latex" range_table "df_heights"
                      repeated_note_kwargs))
            "MEAN HEIGHT BY AGE GROUP" "Mean height by age group" _ _ _).
  - reflexivity.
  - reflexivity.
  - left. vm_compute. reflexivity.
Defined.

Example odds_ratio_example :
  odds_ratio_axis odds_kwargs "x" = true ∧ odds_ratio_axis odds_kwargs "y" = false.
Proof. split; vm_compute; reflexivity. Qed.

End DisplayExamples.

End DfDisplayProofs.
